(** * AirAuth: the session, enrollment and navigation logic of app.js

    A shallow embedding of the class [AirAuthApp] of
    [src/responsive design/app.js].  The object graph of the page is an
    explicit store of account objects addressed by location, so that the
    sharing between [this.currentUser] and the values of the [this.users]
    map is part of the model; [localStorage] is a record of its three keys;
    every call on the document (notifications, field messages, buttons,
    dashboard widgets) is appended to an effect log.  An authentication
    attempt is suspended at its [await] and resumed by a later event, on the
    state the page has by then; its draws are IEEE doubles. *)

From Stdlib Require Import ZArith QArith Qround SpecFloat String Ascii DecimalString Bool Lia.
From stdpp Require Import base list strings.

#[local] Open Scope Z_scope.
#[local] Open Scope string_scope.
#[local] Open Scope list_scope.

(** ** JavaScript strings

    A string is the sequence of its code units; the model keeps the units
    below 256, one [ascii] each. *)
Module JsString.

(** [\s] of a regular expression and the characters [trim()] strips,
    among the units below 256: TAB, LF, VT, FF, CR, SPACE, NBSP. *)
Definition isWhiteSpace (c : ascii) : bool :=
  let n := nat_of_ascii c in
  ((9 <=? n) && (n <=? 13) || (n =? 32) || (n =? 160))%nat.

Fixpoint trimStart (s : string) : string :=
  match s with
  | EmptyString => EmptyString
  | String c s' => if isWhiteSpace c then trimStart s' else s
  end.

Fixpoint trimEnd (s : string) : string :=
  match s with
  | EmptyString => EmptyString
  | String c s' =>
      match trimEnd s' with
      | EmptyString => if isWhiteSpace c then EmptyString else String c EmptyString
      | t => String c t
      end
  end.

Definition trim (s : string) : string := trimEnd (trimStart s).

(** [a || b] on strings: the empty string is falsy. *)
Definition orElse (a b : string) : string :=
  match a with EmptyString => b | _ => a end.

(** [`${n}`] and [n.toString()] for an integer-valued number. *)
Definition ofZ (n : Z) : string := NilZero.string_of_int (Z.to_int n).

(** A text between double quotes, as the messages of the page write it. *)
Definition quoted (s : string) : string :=
  let q := String (ascii_of_nat 34) EmptyString in q +:+ s +:+ q.

Definition inRange (lo hi c : ascii) : bool :=
  ((nat_of_ascii lo <=? nat_of_ascii c) && (nat_of_ascii c <=? nat_of_ascii hi))%nat.

End JsString.

(** ** Regular expressions, matched by derivatives

    Only what the two patterns of the validators need: character classes,
    concatenation and [+].  Both patterns are anchored with [^] and [$], so
    [test] is a match of the whole string. *)
Module Regex.

Inductive t : Type :=
| Fail                      (* matches nothing *)
| Eps                       (* matches the empty string *)
| Class (p : ascii -> bool) (* one character of a class *)
| Seq (r1 r2 : t)
| Alt (r1 r2 : t)
| Star (r : t).

Definition Plus (r : t) : t := Seq r (Star r).
Definition Chr (c : ascii) : t := Class (Ascii.eqb c).

Fixpoint nullable (r : t) : bool :=
  match r with
  | Fail => false
  | Eps => true
  | Class _ => false
  | Seq r1 r2 => nullable r1 && nullable r2
  | Alt r1 r2 => nullable r1 || nullable r2
  | Star _ => true
  end.

Fixpoint deriv (c : ascii) (r : t) : t :=
  match r with
  | Fail => Fail
  | Eps => Fail
  | Class p => if p c then Eps else Fail
  | Seq r1 r2 =>
      if nullable r1 then Alt (Seq (deriv c r1) r2) (deriv c r2)
      else Seq (deriv c r1) r2
  | Alt r1 r2 => Alt (deriv c r1) (deriv c r2)
  | Star r1 => Seq (deriv c r1) (Star r1)
  end.

(** Dead branches are pruned after each step to keep the terms small. *)
Fixpoint prune (r : t) : t :=
  match r with
  | Seq r1 r2 =>
      match prune r1, prune r2 with
      | Fail, _ => Fail
      | _, Fail => Fail
      | Eps, r2' => r2'
      | r1', r2' => Seq r1' r2'
      end
  | Alt r1 r2 =>
      match prune r1, prune r2 with
      | Fail, r2' => r2'
      | r1', Fail => r1'
      | r1', r2' => Alt r1' r2'
      end
  | _ => r
  end.

Fixpoint test (r : t) (s : string) : bool :=
  match s with
  | EmptyString => nullable r
  | String c s' => test (prune (deriv c r)) s'
  end.

End Regex.

(** [/^[a-zA-Z0-9_]+$/] *)
Definition usernameRegex : Regex.t :=
  Regex.Plus (Regex.Class (fun c =>
    JsString.inRange "a" "z" c || JsString.inRange "A" "Z" c
    || JsString.inRange "0" "9" c || Ascii.eqb c "_")).

(** [/^[^\s@]+@[^\s@]+\.[^\s@]+$/] *)
Definition emailRegex : Regex.t :=
  let notSpaceAt := Regex.Class (fun c => negb (JsString.isWhiteSpace c || Ascii.eqb c "@")) in
  Regex.Seq (Regex.Plus notSpaceAt)
    (Regex.Seq (Regex.Chr "@")
       (Regex.Seq (Regex.Plus notSpaceAt)
          (Regex.Seq (Regex.Chr ".") (Regex.Plus notSpaceAt)))).

(** ** The [Map] of the user directory

    A JavaScript [Map] keeps its entries in insertion order; [set] on a key
    already present replaces the value in place. *)
Module JsMap.

Definition t (V : Type) : Type := list (string * V).

Definition empty {V} : t V := [].

Fixpoint get {V} (k : string) (m : t V) : option V :=
  match m with
  | [] => None
  | (k', v) :: m' => if String.eqb k k' then Some v else get k m'
  end.

Definition has {V} (k : string) (m : t V) : bool :=
  match get k m with Some _ => true | None => false end.

Fixpoint set {V} (k : string) (v : V) (m : t V) : t V :=
  match m with
  | [] => [(k, v)]
  | (k', v') :: m' => if String.eqb k k' then (k', v) :: m' else (k', v') :: set k v m'
  end.

Definition values {V} (m : t V) : list V := map snd m.
Definition entries {V} (m : t V) : list (string * V) := m.

(** [new Map(iterable)] *)
Definition ofEntries {V} (es : list (string * V)) : t V :=
  fold_left (fun m e => set (fst e) (snd e) m) es empty.

End JsMap.

(** ** Data model *)

(** An instant, in milliseconds since the epoch: the value of [Date.now()],
    and the instant that [new Date().toISOString()] writes out. *)
Definition Time : Type := Z.

(** A chunk delivered by the media recorder, by its size in bytes. *)
Definition Chunk : Type := nat.

(** The [blob] field of a signature: the [Blob] built from the recorded
    chunks, or the empty object that [JSON.parse] gives back for it (a
    [Blob] has no enumerable property, [JSON.stringify] writes it as [{}]). *)
Inductive Payload : Type :=
| Blob (chunks : list Chunk)
| EmptyObject.

Module Signature.
Record t : Type := mk {
  id : string;
  videoUrl : string;
  blob : Payload;
  timestamp : Time;
  duration : nat
}.
End Signature.

Module AuthEntry.
Record t : Type := mk {
  timestamp : Time;
  method : string;
  success : bool;
  details : string
}.
End AuthEntry.

Module Account.
Record t : Type := mk {
  id : string;
  username : string;
  email : string;
  password : string;
  signatures : list Signature.t;
  enrollmentComplete : bool;
  createdAt : Time;
  lastLogin : option Time;
  authHistory : list AuthEntry.t
}.

Definition push_signature (sg : Signature.t) (a : t) : t :=
  mk (id a) (username a) (email a) (password a) (signatures a ++ [sg])
     (enrollmentComplete a) (createdAt a) (lastLogin a) (authHistory a).

Definition set_enrollmentComplete (b : bool) (a : t) : t :=
  mk (id a) (username a) (email a) (password a) (signatures a)
     b (createdAt a) (lastLogin a) (authHistory a).

Definition set_lastLogin (now : Time) (a : t) : t :=
  mk (id a) (username a) (email a) (password a) (signatures a)
     (enrollmentComplete a) (createdAt a) (Some now) (authHistory a).

Definition push_authHistory (e : AuthEntry.t) (a : t) : t :=
  mk (id a) (username a) (email a) (password a) (signatures a)
     (enrollmentComplete a) (createdAt a) (lastLogin a) (authHistory a ++ [e]).
End Account.

(** ** Persistence: [localStorage] and JSON

    A stored item is kept as the value [JSON.parse] returns for its text.
    [Empty] is the empty text, which is falsy and never parsed; [Malformed]
    stands for any other text on which [JSON.parse] (or [new Map]) throws. *)
Inductive Item (A : Type) : Type :=
| Missing
| Empty
| Malformed
| Parsed (v : A).
Arguments Missing {A}.
Arguments Empty {A}.
Arguments Malformed {A}.
Arguments Parsed {A} v.

Record Storage : Type := mkStorage {
  airauth_users : Item (list (string * Account.t));
  airauth_current_user : Item Account.t;
  airauth_authenticated : option string
}.

Definition emptyStorage : Storage := mkStorage Missing Missing None.

(** [JSON.parse (JSON.stringify v)] on a signature and on an account:
    strings, booleans, [null], numbers and arrays come back as they were;
    the [Blob] comes back as [{}]. *)
Definition jsonSignature (sg : Signature.t) : Signature.t :=
  Signature.mk (Signature.id sg) (Signature.videoUrl sg) EmptyObject
               (Signature.timestamp sg) (Signature.duration sg).

Definition jsonAccount (a : Account.t) : Account.t :=
  Account.mk (Account.id a) (Account.username a) (Account.email a) (Account.password a)
             (map jsonSignature (Account.signatures a)) (Account.enrollmentComplete a)
             (Account.createdAt a) (Account.lastLogin a) (Account.authHistory a).

(** ** Calls on the document and the timers, in the order they are made *)
Inductive Effect : Type :=
| Notify (message type : string)                      (* showNotification *)
| FieldError (input : string) (valid : bool) (message : string)
| PageActive (pageId : string)                        (* showPage: the page gets class active *)
| PageNotFound (pageId : string)
| NavActive (pageId : string)                         (* updateNavigation *)
| EnrollmentStatus (message type : string)            (* updateEnrollmentStatus *)
| ControlStates (context state : string)              (* updateControlStates *)
| ProgressIndicator (count : nat)                     (* updateProgressIndicator *)
| SignatureGallery (count : nat)                      (* updateSignatureGallery *)
| AuthResult (type message details : string)          (* showAuthResult *)
| AuthResultHidden                                    (* resetAuthTest *)
| AuthElementsShown (visible : bool)                  (* updateAuthStatus *)
| ProfileInfo (username email : string) (enrolled : bool) (nsignatures : nat)
| AuthStats (total successful : nat)                  (* updateAuthStats *)
| AuthHistoryTable (rows : list AuthEntry.t)          (* updateAuthHistoryTable *)
| VideoAttached (context : string)                    (* startCamera *)
| VideoCleared                                        (* stopCamera *)
| RegistrationFormReset                               (* resetRegistrationForm *)
| SetTimeout (ms : nat) (pageId : string).            (* setTimeout(() => showPage(p), ms) *)
(* Messages are kept without the pictograph some of them start with. *)

(** ** The application object *)

(** A reference to an account object: its index in the object store. *)
Abbreviation loc := nat (only parsing).

#[projections(primitive)] Record App : Type := mkApp {
  heap : list Account.t;            (* the account objects *)
  currentUser : option loc;         (* null or a reference *)
  currentPage : string;
  webcamStream : bool;              (* whether this.webcamStream is set *)
  mediaRecorder : bool;             (* whether this.mediaRecorder is set *)
  recordedChunks : list Chunk;
  signatureCount : nat;
  isRecording : bool;
  users : JsMap.t loc;
  isAuthenticated : bool;
  localStorage : Storage;
  urlHash : string;                 (* location.hash, without the # *)
  ui : list Effect;                 (* oldest first *)
  pendingAttempts : nat             (* calls of authenticateGesture suspended at their await *)
}.

Definition set_heap (x : list Account.t) (s : App) : App :=
  mkApp x (currentUser s) (currentPage s) (webcamStream s) (mediaRecorder s) (recordedChunks s)
        (signatureCount s) (isRecording s) (users s) (isAuthenticated s) (localStorage s)
        (urlHash s) (ui s) (pendingAttempts s).
Definition set_currentUser (x : option loc) (s : App) : App :=
  mkApp (heap s) x (currentPage s) (webcamStream s) (mediaRecorder s) (recordedChunks s)
        (signatureCount s) (isRecording s) (users s) (isAuthenticated s) (localStorage s)
        (urlHash s) (ui s) (pendingAttempts s).
Definition set_currentPage (x : string) (s : App) : App :=
  mkApp (heap s) (currentUser s) x (webcamStream s) (mediaRecorder s) (recordedChunks s)
        (signatureCount s) (isRecording s) (users s) (isAuthenticated s) (localStorage s)
        (urlHash s) (ui s) (pendingAttempts s).
Definition set_webcamStream (x : bool) (s : App) : App :=
  mkApp (heap s) (currentUser s) (currentPage s) x (mediaRecorder s) (recordedChunks s)
        (signatureCount s) (isRecording s) (users s) (isAuthenticated s) (localStorage s)
        (urlHash s) (ui s) (pendingAttempts s).
Definition set_mediaRecorder (x : bool) (s : App) : App :=
  mkApp (heap s) (currentUser s) (currentPage s) (webcamStream s) x (recordedChunks s)
        (signatureCount s) (isRecording s) (users s) (isAuthenticated s) (localStorage s)
        (urlHash s) (ui s) (pendingAttempts s).
Definition set_recordedChunks (x : list Chunk) (s : App) : App :=
  mkApp (heap s) (currentUser s) (currentPage s) (webcamStream s) (mediaRecorder s) x
        (signatureCount s) (isRecording s) (users s) (isAuthenticated s) (localStorage s)
        (urlHash s) (ui s) (pendingAttempts s).
Definition set_signatureCount (x : nat) (s : App) : App :=
  mkApp (heap s) (currentUser s) (currentPage s) (webcamStream s) (mediaRecorder s) (recordedChunks s)
        x (isRecording s) (users s) (isAuthenticated s) (localStorage s)
        (urlHash s) (ui s) (pendingAttempts s).
Definition set_isRecording (x : bool) (s : App) : App :=
  mkApp (heap s) (currentUser s) (currentPage s) (webcamStream s) (mediaRecorder s) (recordedChunks s)
        (signatureCount s) x (users s) (isAuthenticated s) (localStorage s)
        (urlHash s) (ui s) (pendingAttempts s).
Definition set_users (x : JsMap.t loc) (s : App) : App :=
  mkApp (heap s) (currentUser s) (currentPage s) (webcamStream s) (mediaRecorder s) (recordedChunks s)
        (signatureCount s) (isRecording s) x (isAuthenticated s) (localStorage s)
        (urlHash s) (ui s) (pendingAttempts s).
Definition set_isAuthenticated (x : bool) (s : App) : App :=
  mkApp (heap s) (currentUser s) (currentPage s) (webcamStream s) (mediaRecorder s) (recordedChunks s)
        (signatureCount s) (isRecording s) (users s) x (localStorage s)
        (urlHash s) (ui s) (pendingAttempts s).
Definition set_localStorage (x : Storage) (s : App) : App :=
  mkApp (heap s) (currentUser s) (currentPage s) (webcamStream s) (mediaRecorder s) (recordedChunks s)
        (signatureCount s) (isRecording s) (users s) (isAuthenticated s) x
        (urlHash s) (ui s) (pendingAttempts s).
Definition set_urlHash (x : string) (s : App) : App :=
  mkApp (heap s) (currentUser s) (currentPage s) (webcamStream s) (mediaRecorder s) (recordedChunks s)
        (signatureCount s) (isRecording s) (users s) (isAuthenticated s) (localStorage s)
        x (ui s) (pendingAttempts s).
Definition set_ui (x : list Effect) (s : App) : App :=
  mkApp (heap s) (currentUser s) (currentPage s) (webcamStream s) (mediaRecorder s) (recordedChunks s)
        (signatureCount s) (isRecording s) (users s) (isAuthenticated s) (localStorage s)
        (urlHash s) x (pendingAttempts s).

Definition set_pendingAttempts (x : nat) (s : App) : App :=
  mkApp (heap s) (currentUser s) (currentPage s) (webcamStream s) (mediaRecorder s) (recordedChunks s)
        (signatureCount s) (isRecording s) (users s) (isAuthenticated s) (localStorage s)
        (urlHash s) (ui s) x.

Definition emit (e : Effect) (s : App) : App := set_ui (ui s ++ [e]) s.

(** The object [this.currentUser] refers to.  References are produced by
    allocation only and the store never shrinks, so a reference that denotes
    no object does not arise; it reads as [null]. *)
Definition currentAccount (s : App) : option Account.t :=
  match currentUser s with
  | Some l => heap s !! l
  | None => None
  end.

(** The object stored in the directory under a key. *)
Definition directoryAccount (k : string) (s : App) : option Account.t :=
  match JsMap.get k (users s) with
  | Some l => heap s !! l
  | None => None
  end.

(** [new] object: the next free location. *)
Definition alloc (a : Account.t) (s : App) : loc * App :=
  (length (heap s), set_heap (heap s ++ [a]) s).

(** A write through a reference: every holder of the reference sees it. *)
Definition update (l : loc) (f : Account.t -> Account.t) (s : App) : App :=
  set_heap (alter f l (heap s)) s.

(** *** Display helpers *)

Definition showNotification (message type : string) (s : App) : App :=
  emit (Notify message type) s.

Definition updateNavigation (activePageId : string) (s : App) : App :=
  emit (NavActive activePageId) s.

Definition updateEnrollmentStatus (message type : string) (s : App) : App :=
  emit (EnrollmentStatus message type) s.

Definition updateControlStates (context state : string) (s : App) : App :=
  emit (ControlStates context state) s.

Definition updateProgressIndicator (s : App) : App :=
  emit (ProgressIndicator (signatureCount s)) s.

Definition updateSignatureGallery (s : App) : App :=
  emit (SignatureGallery (signatureCount s)) s.

Definition showAuthResult (type message details : string) (s : App) : App :=
  emit (AuthResult type message details) s.

Definition updateAuthStatus (s : App) : App :=
  emit (AuthElementsShown (isAuthenticated s)) (updateNavigation (currentPage s) s).

Definition stopCamera (s : App) : App :=
  if webcamStream s then
    showNotification "Camera stopped" "info" (emit VideoCleared (set_webcamStream false s))
  else s.

(** *** Data management *)

(** [Array.from(this.users.entries())], each account as JSON writes it. *)
Definition usersArray (s : App) : list (string * Account.t) :=
  omap (fun e => match heap s !! snd e with
                 | Some a => Some (fst e, jsonAccount a)
                 | None => None
                 end) (JsMap.entries (users s)).

Definition saveUserData (s : App) : App :=
  let ls := localStorage s in
  let ls1 := mkStorage (Parsed (usersArray s)) (airauth_current_user ls) (airauth_authenticated ls) in
  let ls2 :=
    match currentAccount s with
    | Some a =>
        if isAuthenticated s
        then mkStorage (airauth_users ls1) (Parsed (jsonAccount a)) (Some "true")
        else mkStorage (airauth_users ls1) Missing None
    | None => mkStorage (airauth_users ls1) Missing None
    end in
  set_localStorage ls2 s.

(** [new Map(usersData)]: one fresh object per entry. *)
Fixpoint installUsers (es : list (string * Account.t)) (s : App) : App :=
  match es with
  | [] => s
  | (k, a) :: es' =>
      let (l, s1) := alloc a s in
      installUsers es' (set_users (JsMap.set k l (users s1)) s1)
  end.

(** The [catch] block of [loadUserData]. *)
Definition loadFailed (s : App) : App :=
  set_isAuthenticated false (set_currentUser None (set_users JsMap.empty s)).

Definition loadUserData (s : App) : App :=
  let ls := localStorage s in
  let afterUsers : option App :=
    match airauth_users ls with
    | Missing | Empty => Some s
    | Malformed => None
    | Parsed es => Some (installUsers es (set_users JsMap.empty s))
    end in
  match afterUsers with
  | None => loadFailed s
  | Some s1 =>
      match airauth_current_user ls, airauth_authenticated ls with
      | Missing, _ | Empty, _ => s1
      | Malformed, Some flag => if String.eqb flag "true" then loadFailed s1 else s1
      | Parsed a, Some flag =>
          if String.eqb flag "true" then
            let (l, s2) := alloc a s1 in
            set_isAuthenticated true (set_currentUser (Some l) s2)
          else s1
      | _, None => s1
      end
  end.

Definition addAuthHistory (now : Time) (method : string) (success : bool) (details : string)
    (s : App) : App :=
  match currentUser s with
  | None => s
  | Some l =>
      let authEntry := AuthEntry.mk now method success details in
      saveUserData (update l (Account.push_authHistory authEntry) s)
  end.

Definition checkAuthStatus (s : App) : App :=
  match airauth_authenticated (localStorage s), currentUser s with
  | Some flag, Some _ => if String.eqb flag "true" then updateAuthStatus s else s
  | _, _ => s
  end.

(** *** Dashboard widgets, enrollment and authentication pages *)

Definition updateProfileInfo (a : Account.t) (s : App) : App :=
  emit (ProfileInfo (Account.username a) (Account.email a) (Account.enrollmentComplete a)
                    (length (Account.signatures a))) s.

(** The success rate shown next to the two counts is computed from them in
    floating point and is not part of the model. *)
Definition updateAuthStats (a : Account.t) (s : App) : App :=
  let totalAttempts := length (Account.authHistory a) in
  let successfulAuths := length (filter (fun e => AuthEntry.success e = true) (Account.authHistory a)) in
  emit (AuthStats totalAttempts successfulAuths) s.

(** [authHistory.slice(-10).reverse()] *)
Definition updateAuthHistoryTable (a : Account.t) (s : App) : App :=
  let h := Account.authHistory a in
  emit (AuthHistoryTable (rev (drop (length h - 10) h))) s.

Definition resetEnrollment (s : App) : App :=
  let n := match currentAccount s with
           | Some a => length (Account.signatures a)
           | None => 0%nat
           end in
  let s := set_isRecording false (set_recordedChunks [] (set_signatureCount n s)) in
  let s := stopCamera s in
  let s := updateControlStates "enrollment" "initial" s in
  let s := updateProgressIndicator s in
  let s := updateSignatureGallery s in
  updateEnrollmentStatus
    ("Click " +:+ JsString.quoted "Start Camera" +:+ " to begin enrollment process.") "info" s.

Definition resetAuthTest (s : App) : App :=
  let s := stopCamera s in
  let s := updateControlStates "auth" "initial" s in
  emit AuthResultHidden s.

Definition resetRegistrationForm (s : App) : App := emit RegistrationFormReset s.

(** *** Navigation

    [showPage] calls [initializePage], whose [dashboard] and [login] cases
    call [showPage] again.  The recursion is written with a bound on the
    nesting of calls; [showPage_total] shows that two levels are all the
    code ever uses. *)

(** Modelled from the spec: the page elements of the document, which is not
    among the sources; section 4.5 of the specification enumerates them. *)
Definition pages : list string :=
  ["home"; "login"; "register"; "enrollment"; "auth-test"; "dashboard"].

(** The other elements that the script asks the document for by their id.
    [showPage] looks its target up with [getElementById], which answers for
    any of them as it does for a page. *)
Definition otherElements : list string :=
  ["register-form"; "login-form"; "air-auth-btn";
   "reg-username"; "reg-email"; "reg-password"; "reg-confirm-password";
   "start-camera"; "start-recording"; "stop-recording"; "save-signature"; "finish-enrollment";
   "start-auth-camera"; "authenticate-btn"; "enrollment-video"; "auth-video";
   "signature-count"; "signature-gallery"; "enrollment-status"; "auth-result";
   "profile-username"; "profile-email"; "profile-enrollment"; "profile-signatures";
   "total-attempts"; "successful-auths"; "success-rate"; "auth-history-body";
   "notification"; "help-modal"].

(** [document.getElementById(pageId)] finds an element. *)
Definition pageExists (pageId : string) : bool :=
  existsb (String.eqb pageId) (pages ++ otherElements).

Section Navigation.
Variable showPageRec : string -> App -> option App.

Definition updateDashboard (s : App) : option App :=
  match currentAccount s with
  | None =>
      showPageRec "login" (showNotification "Please log in to access dashboard" "error" s)
  | Some a =>
      Some (updateAuthHistoryTable a (updateAuthStats a (updateProfileInfo a s)))
  end.

Definition checkLoginRedirect (s : App) : option App :=
  match currentAccount s with
  | Some _ => if isAuthenticated s then showPageRec "dashboard" s else Some s
  | None => Some s
  end.

Definition initializePage (pageId : string) (s : App) : option App :=
  if String.eqb pageId "dashboard" then updateDashboard s
  else if String.eqb pageId "enrollment" then Some (resetEnrollment s)
  else if String.eqb pageId "auth-test" then Some (resetAuthTest s)
  else if String.eqb pageId "login" then checkLoginRedirect s
  else if String.eqb pageId "register" then Some (resetRegistrationForm s)
  else Some s.

Definition showPageBody (pageId : string) (s : App) : option App :=
  if pageExists pageId then
    let s := set_currentPage pageId (emit (PageActive pageId) s) in
    let s := updateNavigation pageId s in
    match initializePage pageId s with
    | Some s' => Some (set_urlHash pageId s')
    | None => None
    end
  else
    Some (showNotification ("Page " +:+ JsString.quoted pageId +:+ " not found") "error"
            (emit (PageNotFound pageId) s)).
End Navigation.

Fixpoint showPage (depth : nat) (pageId : string) (s : App) : option App :=
  match depth with
  | O => None
  | S d => showPageBody (showPage d) pageId s
  end.

(** Nesting used by the handlers. *)
Definition redirectDepth : nat := 2.

Definition handleAirAuth (s : App) : option App :=
  match currentAccount s with
  | Some a =>
      if Account.enrollmentComplete a then showPage redirectDepth "auth-test" s
      else showPage redirectDepth "enrollment"
             (showNotification "Please complete enrollment first!" "error" s)
  | None =>
      showPage redirectDepth "enrollment"
        (showNotification "Please complete enrollment first!" "error" s)
  end.

Definition logout (s : App) : option App :=
  let s := stopCamera s in
  let s := set_signatureCount 0 (set_isAuthenticated false (set_currentUser None s)) in
  let s := set_localStorage (mkStorage (airauth_users (localStorage s)) Missing None) s in
  showPage redirectDepth "home" (showNotification "Logged out successfully" "info" s).

(** *** Form validation

    The validators are called with the submitted value and fall back on the
    value of the input element when that value is falsy; the submitted form
    is made of these inputs, so both are read from the same record.  Each
    validator reports its verdict and message on the field. *)

Record RegForm : Type := mkRegForm {
  form_username : string;
  form_email : string;
  form_password : string;
  form_confirmPassword : string
}.

(** [Array.from(this.users.values()).some(user => user.email === email)] *)
Definition emailTaken (email : string) (s : App) : bool :=
  existsb (fun l => match heap s !! l with
                    | Some u => String.eqb (Account.email u) email
                    | None => false
                    end) (JsMap.values (users s)).

(** The verdict and the message of each validator. *)
Definition usernameVerdict (username : string) (s : App) : bool * string :=
  if (String.length username <? 3)%nat then
    (false, "Username must be at least 3 characters long")
  else if negb (Regex.test usernameRegex username) then
    (false, "Username can only contain letters, numbers, and underscores")
  else if JsMap.has username (users s) then
    (false, "Username already exists")
  else (true, "").

Definition emailVerdict (email : string) (s : App) : bool * string :=
  if negb (Regex.test emailRegex email) then
    (false, "Please enter a valid email address")
  else if emailTaken email s then
    (false, "Email already registered")
  else (true, "").

(** The strength meter computed next to the verdict only feeds the display. *)
Definition passwordVerdict (password : string) : bool * string :=
  if (String.length password <? 8)%nat then
    (false, "Password must be at least 8 characters long")
  else (true, "").

Definition confirmVerdict (confirmPassword password : string) : bool * string :=
  if negb (String.eqb confirmPassword password) then (false, "Passwords do not match")
  else (true, "").

Definition validateUsername (value inputValue : string) (s : App) : bool * App :=
  let username := JsString.orElse value (JsString.trim inputValue) in
  let '(isValid, message) := usernameVerdict username s in
  (isValid, emit (FieldError "reg-username" isValid message) s).

Definition validateEmail (value inputValue : string) (s : App) : bool * App :=
  let email := JsString.orElse value (JsString.trim inputValue) in
  let '(isValid, message) := emailVerdict email s in
  (isValid, emit (FieldError "reg-email" isValid message) s).

Definition validatePassword (value inputValue : string) (s : App) : bool * App :=
  let password := JsString.orElse value inputValue in
  let '(isValid, message) := passwordVerdict password in
  (isValid, emit (FieldError "reg-password" isValid message) s).

Definition validateConfirmPassword (value inputValue originalPassword passwordInputValue : string)
    (s : App) : bool * App :=
  let confirmPassword := JsString.orElse value inputValue in
  let password := JsString.orElse originalPassword passwordInputValue in
  let '(isValid, message) := confirmVerdict confirmPassword password in
  (isValid, emit (FieldError "reg-confirm-password" isValid message) s).

Definition validateRegistrationForm (form : RegForm)
    (username email password confirmPassword : string) (s : App) : bool * App :=
  let '(v1, s) := validateUsername username (form_username form) s in
  let '(v2, s) := validateEmail email (form_email form) s in
  let '(v3, s) := validatePassword password (form_password form) s in
  let '(v4, s) := validateConfirmPassword confirmPassword (form_confirmPassword form)
                    password (form_password form) s in
  (v1 && v2 && v3 && v4, s).

(** *** Registration and login *)

Definition handleRegistration (now : Time) (form : RegForm) (s : App) : App :=
  let username := JsString.trim (form_username form) in
  let email := JsString.trim (form_email form) in
  let password := form_password form in
  let confirmPassword := form_confirmPassword form in
  let '(ok, s) := validateRegistrationForm form username email password confirmPassword s in
  if negb ok then s
  else if JsMap.has username (users s) || emailTaken email s then
    showNotification "Username or email already exists!" "error" s
  else
    let newUser := Account.mk (JsString.ofZ now) username email password [] false now None [] in
    let (l, s) := alloc newUser s in
    let s := set_users (JsMap.set username l (users s)) s in
    let s := saveUserData s in
    let s := showNotification "Registration successful! Please complete enrollment." "success" s in
    let s := set_isAuthenticated true (set_currentUser (Some l) s) in
    let s := updateAuthStatus s in
    emit (SetTimeout 1500 "enrollment") s.

(** [Array.from(this.users.values()).find(u => u.email === email)] *)
Definition findByEmail (email : string) (s : App) : option loc :=
  List.find (fun l => match heap s !! l with
                      | Some u => String.eqb (Account.email u) email
                      | None => false
                      end) (JsMap.values (users s)).

(** [this.users.get(username) || Array.from(this.users.values()).find(u => u.email === username)] *)
Definition findUser (identifier : string) (s : App) : option loc :=
  match JsMap.get identifier (users s) with
  | Some l => Some l
  | None => findByEmail identifier s
  end.

Definition loginFailed (now : Time) (s : App) : App :=
  addAuthHistory now "Password Login" false "Invalid credentials"
    (showNotification "Invalid username/email or password!" "error" s).

(** The page of the deferred [showPage] is chosen from the flag of the
    account; in a run without interleaving the flag is the same when the
    timer fires. *)
Definition handleLogin (now : Time) (formUsername password : string) (s : App) : App :=
  let username := JsString.trim formUsername in
  match findUser username s with
  | None => loginFailed now s
  | Some l =>
      match heap s !! l with
      | None => loginFailed now s
      | Some user =>
          if negb (String.eqb (Account.password user) password) then loginFailed now s
          else
            let s := set_isAuthenticated true (set_currentUser (Some l) s) in
            let s := update l (Account.set_lastLogin now) s in
            let s := updateAuthStatus s in
            let s := saveUserData s in
            let s := addAuthHistory now "Password Login" true "Successful login" s in
            let s := showNotification ("Welcome back, " +:+ Account.username user +:+ "!") "success" s in
            emit (SetTimeout 1500 (if Account.enrollmentComplete user then "dashboard" else "enrollment")) s
      end
  end.

(** *** Camera and recording

    What the browser answers is an input of the handlers. *)
Inductive CameraAnswer : Type :=
| StreamGranted
| NotAllowedError
| NotFoundError
| OtherCameraError.

Definition startCamera (context : string) (answer : CameraAnswer) (s : App) : App :=
  match answer with
  | StreamGranted =>
      let s := set_webcamStream true s in
      let s := emit (VideoAttached context) s in
      let s := showNotification "Camera started successfully!" "success" s in
      let s := updateEnrollmentStatus "Camera ready. You can now start recording." "info" s in
      updateControlStates context "camera-ready" s
  | failure =>
      let message :=
        "Unable to access camera. " +:+
        match failure with
        | NotAllowedError => "Please grant camera permissions and try again."
        | NotFoundError => "No camera found on this device."
        | _ => "Please check your camera and try again."
        end in
      updateEnrollmentStatus message "error" (showNotification message "error" s)
  end.

(** What the recorder answers: [new MediaRecorder] and [start] go through;
    or the constructor throws; or [start] throws, when the new recorder has
    been assigned and the buffer emptied. *)
Inductive RecorderAnswer : Type :=
| RecorderStarts
| ConstructorThrows
| StartThrows.

(** The [catch] block of [startRecording]. *)
Definition startRecordingFailed (s : App) : App :=
  updateEnrollmentStatus "Recording failed. Please try again." "error"
    (showNotification "Recording failed. Please try again." "error" s).

Definition startRecording (answer : RecorderAnswer) (s : App) : App :=
  if negb (webcamStream s) then showNotification "Please start the camera first!" "error" s
  else
    match answer with
    | ConstructorThrows => startRecordingFailed s
    | StartThrows => startRecordingFailed (set_recordedChunks [] (set_mediaRecorder true s))
    | RecorderStarts =>
        let s := set_recordedChunks [] (set_mediaRecorder true s) in
        let s := set_isRecording true s in
        let s := updateControlStates "enrollment" "recording" s in
        let s := updateEnrollmentStatus "Recording... Draw your signature in the air!" "info" s in
        showNotification "Recording started! Draw your air signature now." "info" s
    end.

(** [mediaRecorder.ondataavailable] *)
Definition onDataAvailable (data : Chunk) (s : App) : App :=
  if (0 <? data)%nat then set_recordedChunks (recordedChunks s ++ [data]) s else s.

(** [mediaRecorder.onstop] *)
Definition onStop (s : App) : App :=
  updateEnrollmentStatus
    ("Recording complete! Click " +:+ JsString.quoted "Save Signature" +:+ " to save it.") "success"
    (updateControlStates "enrollment" "recorded" s).

(** [stop()] makes the recorder deliver its [stop] event. *)
Definition stopRecording (s : App) : App :=
  if mediaRecorder s && isRecording s then onStop (set_isRecording false s) else s.

(** *** Signature enrollment *)

Definition saveSignatureFailed (s : App) : App :=
  updateEnrollmentStatus "Failed to save signature. Please try again." "error"
    (showNotification "Failed to save signature. Please try again." "error" s).

(** The object [signatureData]; [duration] is the number of chunks. *)
Definition newSignature (now : Time) (objectUrl : string) (s : App) : Signature.t :=
  Signature.mk (JsString.ofZ now) objectUrl (Blob (recordedChunks s)) now
               (length (recordedChunks s)).

Definition saveSignature (now : Time) (objectUrl : string) (s : App) : App :=
  match recordedChunks s with
  | [] => showNotification "No recording to save!" "error" s
  | _ =>
      let signatureData := newSignature now objectUrl s in
      match currentUser s with
      | None => saveSignatureFailed s
      | Some l =>
          let s := update l (Account.push_signature signatureData) s in
          let n := match heap s !! l with
                   | Some a => length (Account.signatures a)
                   | None => 0%nat
                   end in
          let s := set_signatureCount n s in
          let s := saveUserData s in
          let s := updateSignatureGallery s in
          let s := updateProgressIndicator s in
          let s := updateEnrollmentStatus
                     ("Signature " +:+ JsString.ofZ (Z.of_nat n) +:+ "/5 saved successfully!")
                     "success" s in
          let s := showNotification
                     ("Signature " +:+ JsString.ofZ (Z.of_nat n) +:+ " saved! "
                      +:+ JsString.ofZ (5 - Z.of_nat n) +:+ " more to go.") "success" s in
          let s :=
            if (5 <=? n)%nat then
              let s := update l (Account.set_enrollmentComplete true) s in
              let s := updateControlStates "enrollment" "enrollment-complete" s in
              let s := updateEnrollmentStatus
                         ("Enrollment complete! Click " +:+ JsString.quoted "Finish Enrollment"
                          +:+ " to complete setup.") "success" s in
              showNotification "Enrollment complete! You can now use air signature authentication."
                               "success" s
            else s in
          let s := set_recordedChunks [] s in
          updateControlStates "enrollment" "camera-ready" s
      end
  end.

Definition finishEnrollment (s : App) : App :=
  match currentAccount s with
  | Some a =>
      if Account.enrollmentComplete a then
        let s := stopCamera s in
        let s := saveUserData s in
        let s := updateAuthStatus s in
        let s := showNotification
                   "Enrollment completed successfully! You can now use air signature authentication."
                   "success" s in
        emit (SetTimeout 2000 "dashboard") s
      else showNotification "Please complete all 5 signatures first!" "error" s
  | None => showNotification "Please complete all 5 signatures first!" "error" s
  end.

(** *** Authentication testing *)

(** JavaScript numbers: IEEE 754 binary64, with the operations of the
    standard library's [SpecFloat] (round to nearest, ties to even). *)
Module Double.

Definition t : Type := spec_float.
Definition prec : Z := 53.
Definition emax : Z := 1024.

(** An integer literal. *)
Definition ofZ (n : Z) : t := binary_normalize prec emax n 0 false.

Definition add : t -> t -> t := SFadd prec emax.
Definition mul : t -> t -> t := SFmul prec emax.
Definition div : t -> t -> t := SFdiv prec emax.

(** [x > y] *)
Definition gt (x y : t) : bool := SFltb y x.

(** A decimal literal [n/d], for integers below 2^53: the double nearest to
    the quotient, which is what the correctly rounded division returns. *)
Definition decimal (n d : Z) : t := div (ofZ n) (ofZ d).

(** The rational a finite double denotes. *)
Definition value (x : t) : option Q :=
  match x with
  | S754_zero _ => Some 0%Q
  | S754_finite s m e => Some (inject_Z (if s then Z.neg m else Z.pos m) * Qpower 2 e)%Q
  | S754_infinity _ | S754_nan => None
  end.

End Double.

(** [Math.round]: the integer nearest to the number, a half going up.  On
    an infinity or NaN the result is no integer; [Math.random()] and the
    arithmetic below never produce them, and the model reads 0. *)
Definition mathRound (x : Double.t) : Z :=
  match Double.value x with
  | Some q => Qfloor (q + (1 # 2))
  | None => 0
  end.

(** The two draws of [simulateGestureRecognition]: [random k] is the value
    of the [k]-th call of [Math.random()]. *)
Definition gestureOutcome (random : nat -> Double.t) : bool * Z :=
  let isAuthenticated := Double.gt (random 0%nat) (Double.decimal 1 10) in
  let confidence :=
    if isAuthenticated
    then mathRound (Double.add (Double.ofZ 85) (Double.mul (random 1%nat) (Double.ofZ 10)))
    else mathRound (Double.add (Double.ofZ 30) (Double.mul (random 1%nat) (Double.ofZ 40))) in
  (isAuthenticated, confidence).

(** How a call ends: it returns, or it throws an exception; either way it
    leaves a state of the page. *)
Inductive Completion : Type :=
| Returns (s : App)
| Throws (s : App).

(** [simulateGestureRecognition] once its delay of 3000 ms has passed, on
    the state the page has at that moment.  The success branch reads
    [this.currentUser.username] while it builds the text of the result card:
    with no session that read throws a [TypeError], before anything is
    shown.  The failure branch does not read the session. *)
Definition simulateGestureRecognition (random : nat -> Double.t) (now : Time) (s : App)
    : Completion :=
  let '(isAuthenticated, confidence) := gestureOutcome random in
  if isAuthenticated then
    match currentAccount s with
    | None => Throws s
    | Some user =>
        let s := showAuthResult "success" "Authentication Successful!"
                   ("Gesture recognized with " +:+ JsString.ofZ confidence
                    +:+ "% confidence. Welcome, " +:+ Account.username user +:+ "!") s in
        let s := addAuthHistory now "Air Signature" true
                   (JsString.ofZ confidence +:+ "% confidence") s in
        Returns (showNotification "Authentication successful!" "success" s)
    end
  else
    let s := showAuthResult "error" "Authentication Failed"
               ("Gesture not recognized (" +:+ JsString.ofZ confidence
                +:+ "% confidence). Please try again.") s in
    let s := addAuthHistory now "Air Signature" false
               ("Low confidence (" +:+ JsString.ofZ confidence +:+ "%)") s in
    Returns (showNotification "Authentication failed. Please try again." "error" s).

(** [authenticateGesture] up to its [await]: the two guards, the card that
    says the gesture is being processed, and the call that starts the delay.
    The rest of the function is left pending. *)
Definition authenticateGesture (s : App) : option App :=
  match currentAccount s with
  | Some a =>
      if Account.enrollmentComplete a then
        if negb (webcamStream s) then
          Some (showNotification "Please start the camera first!" "error" s)
        else
          let s := showAuthResult "processing" "Processing..." "Analyzing your gesture..." s in
          Some (set_pendingAttempts (S (pendingAttempts s)) s)
      else showPage redirectDepth "enrollment"
             (showNotification "Please complete enrollment first!" "error" s)
  | None =>
      showPage redirectDepth "enrollment"
        (showNotification "Please complete enrollment first!" "error" s)
  end.

(** [authenticateGesture] from its [await] on, when the delay has passed:
    the rest of the [try] block and, if it throws, the [catch] block.  The
    state is the one the page has by then; the handlers that ran during the
    delay have left their mark on it. *)
Definition authenticateGestureResumed (random : nat -> Double.t) (now : Time) (s : App) : App :=
  match simulateGestureRecognition random now s with
  | Returns s' => s'
  | Throws s' =>
      let s' := showAuthResult "error" "Authentication Failed"
                  "An error occurred during authentication." s' in
      addAuthHistory now "Air Signature" false "System error" s'
  end.

(** The timer of a pending attempt fires: one attempt less is pending, and
    it resumes.  With none pending there is no such timer. *)
Definition delayElapsed (random : nat -> Double.t) (now : Time) (s : App) : App :=
  match pendingAttempts s with
  | O => s
  | S n => authenticateGestureResumed random now (set_pendingAttempts n s)
  end.

(** *** Start of the page *)

(** The constructor, on the storage and the address the browser has kept. *)
Definition constructed (ls : Storage) (hash : string) : App :=
  mkApp [] None "home" false false [] 0 false JsMap.empty false ls hash [] 0.

Definition init (s : App) : option App :=
  let s := loadUserData s in
  let s := checkAuthStatus s in
  match showPage redirectDepth "home" s with
  | Some s =>
      Some (showNotification
              "Welcome to AirAuth! Your secure gesture authentication system." "info" s)
  | None => None
  end.

(** The handler of [DOMContentLoaded]: the constructor runs [init], and the
    fragment of the address is read after that, when the [showPage('home')]
    of [init] has written its own.  The page the fragment names is shown
    again by a timer of 100 ms. *)
Definition boot (ls : Storage) (hash : string) : option App :=
  match init (constructed ls hash) with
  | Some s =>
      let initialHash := urlHash s in
      if String.eqb initialHash "" then Some s
      else Some (emit (SetTimeout 100 initialHash) s)
  | None => None
  end.

(** ** Runs: the handlers as a transition system *)
Inductive Event : Type :=
| Register (now : Time) (form : RegForm)
| Login (now : Time) (username password : string)
| Logout
| Navigate (pageId : string)              (* a data-page link, or popstate *)
| AirAuth
| StartCamera (context : string) (answer : CameraAnswer)
| StartRecording (answer : RecorderAnswer)
| DataAvailable (data : Chunk)
| StopRecording
| SaveSignature (now : Time) (objectUrl : string)
| FinishEnrollment
| Authenticate                             (* the button of the auth-test page *)
| DelayElapsed (random : nat -> Double.t) (now : Time)  (* the delay of an attempt has passed *)
| Reload.

Definition step (e : Event) (s : App) : option App :=
  match e with
  | Register now form => Some (handleRegistration now form s)
  | Login now u p => Some (handleLogin now u p s)
  | Logout => logout s
  | Navigate p => showPage redirectDepth p s
  | AirAuth => handleAirAuth s
  | StartCamera c a => Some (startCamera c a s)
  | StartRecording answer => Some (startRecording answer s)
  | DataAvailable d => Some (onDataAvailable d s)
  | StopRecording => Some (stopRecording s)
  | SaveSignature now url => Some (saveSignature now url s)
  | FinishEnrollment => Some (finishEnrollment s)
  | Authenticate => authenticateGesture s
  | DelayElapsed r now => Some (delayElapsed r now s)
  | Reload => boot (localStorage s) (urlHash s)
  end.

Fixpoint run (es : list Event) (s : App) : option App :=
  match es with
  | [] => Some s
  | e :: es' =>
      match step e s with
      | Some s' => run es' s'
      | None => None
      end
  end.

(** ** A sample session, used to evaluate the handlers *)

Definition aliceForm : RegForm :=
  mkRegForm " alice " "alice@example.org" "correct horse" "correct horse".

(** One recording, stopped after one chunk, then saved. *)
Definition recordAndSave (now : Time) (objectUrl : string) : list Event :=
  [StartRecording RecorderStarts; DataAvailable 2048%nat; StopRecording; SaveSignature now objectUrl].

(** A first visit: registration, then the camera is started. *)
Definition aliceRegisters : list Event :=
  [Register 1000 aliceForm; StartCamera "enrollment" StreamGranted].

Definition aliceEnrolls : list Event :=
  aliceRegisters
  ++ recordAndSave 2000 "blob:1" ++ recordAndSave 3000 "blob:2" ++ recordAndSave 4000 "blob:3"
  ++ recordAndSave 5000 "blob:4" ++ recordAndSave 6000 "blob:5".

(** The state a run reaches from a first load of the page on an empty
    storage; [constructed] stands in if the run has no result. *)
Definition after (es : list Event) : App :=
  match boot emptyStorage "" with
  | Some s0 => match run es s0 with
               | Some s => s
               | None => constructed emptyStorage ""
               end
  | None => constructed emptyStorage ""
  end.

(** ** Properties of states and runs *)

(** The invariant of the data model on one account. *)
Definition enrollmentConsistent (a : Account.t) : Prop :=
  Account.enrollmentComplete a = true <-> (5 <= length (Account.signatures a))%nat.

(** Entry actions that belong to the dashboard alone. *)
Definition dashboardOnly (e : Effect) : bool :=
  match e with
  | ProfileInfo _ _ _ _ | AuthStats _ _ | AuthHistoryTable _ => true
  | _ => false
  end.

(** What navigation and display leave alone. *)
Definition sameData (s s' : App) : Prop :=
  heap s' = heap s /\ users s' = users s /\ currentUser s' = currentUser s
  /\ isAuthenticated s' = isAuthenticated s /\ localStorage s' = localStorage s.

(** The directory and the session as values: what a reader of the state
    sees when it follows the references. *)
Definition directoryView (s : App) : list (string * option Account.t) :=
  map (fun e => (fst e, heap s !! snd e)) (JsMap.entries (users s)).

Definition sessionView (s : App) : option Account.t * bool :=
  (currentAccount s, isAuthenticated s).

(** Whether the session refers to the very object the directory holds
    under the session's username. *)
Definition sessionShared (s : App) : Prop :=
  exists l a, currentUser s = Some l /\ heap s !! l = Some a
              /\ JsMap.get (Account.username a) (users s) = Some l.

(** The guard [this.currentUser && this.currentUser.enrollmentComplete]. *)
Definition sessionEnrolled (s : App) : bool :=
  match currentAccount s with
  | Some a => Account.enrollmentComplete a
  | None => false
  end.

(** The entry guard of the auth-test page as the specification words it:
    asked for by a session that is not enrolled, the page that ends up
    shown is the enrollment page. *)
Definition authTestGuarded (s : App) : Prop :=
  sessionEnrolled s = false ->
  exists s', showPage redirectDepth "auth-test" s = Some s' /\ currentPage s' = "enrollment".

(** The effect log of [s'] continues that of [s]. *)
Definition uiExtends (s s' : App) : Prop := exists l, ui s' = ui s ++ l.

(** Three more runs of the sample session: a recording waiting to be saved
    after the fifth signature, a reload right after the fifth save, and a
    further recording after that reload. *)
Definition aliceRecordsAgain : list Event :=
  aliceEnrolls ++ [StartRecording RecorderStarts; DataAvailable 2048%nat; StopRecording].

Definition aliceReloads : list Event := aliceEnrolls ++ [Reload].

Definition aliceReloadsAndRecords : list Event :=
  aliceReloads ++ [StartCamera "enrollment" StreamGranted] ++ recordAndSave 7000 "blob:6".

(** What the account of the session becomes when a recording is saved. *)
Definition withSignature (sg : Signature.t) (a : Account.t) : Account.t :=
  let a1 := Account.push_signature sg a in
  if (5 <=? length (Account.signatures a1))%nat
  then Account.set_enrollmentComplete true a1 else a1.



(** A session ready for an attempt: enrolled, camera started. *)
Definition aliceReady : list Event :=
  aliceEnrolls ++ [FinishEnrollment; Navigate "auth-test"; StartCamera "auth" StreamGranted].

(** The attempt is started; and the session is closed while it is pending. *)
Definition aliceAttempts : list Event := aliceReady ++ [Authenticate].

Definition aliceLeavesMeanwhile : list Event := aliceAttempts ++ [Logout].

(** The sources of [Math.random()] held at 0.05 and at 0.5. *)
Definition heldAt (x : Double.t) : nat -> Double.t := fun _ => x.

Definition lowDraws : nat -> Double.t := heldAt (Double.decimal 5 100).
Definition highDraws : nat -> Double.t := heldAt (Double.decimal 1 2).

(** The account object that a registration creates. *)
Definition newAccount (now : Time) (form : RegForm) : Account.t :=
  Account.mk (JsString.ofZ now) (JsString.trim (form_username form))
             (JsString.trim (form_email form)) (form_password form) [] false now None [].

(** A login that the code refuses: the identifier matches no account, or
    the account it matches has another password. *)
Definition loginRejected (identifier password : string) (s : App) : Prop :=
  forall l a, findUser identifier s = Some l -> heap s !! l = Some a ->
              Account.password a <> password.

(** The history entry of a refused login. *)
Definition failedLoginEntry (now : Time) : AuthEntry.t :=
  AuthEntry.mk now "Password Login" false "Invalid credentials".

(** A second visitor, and two states of the page in which alice has an
    account and is not the session: nobody is, and bob is. *)
Definition bobForm : RegForm :=
  mkRegForm "bob" "bob@example.org" "battery staple" "battery staple".

Definition aliceLeft : list Event := [Register 1000 aliceForm; Logout].

Definition bobArrives : list Event := aliceLeft ++ [Register 2000 bobForm].

(** The history of the account filed under a name, in the directory of the
    page and in the stored directory. *)
Definition historyOf (k : string) (s : App) : option (list AuthEntry.t) :=
  Account.authHistory <$> directoryAccount k s.

Definition storedHistoryOf (k : string) (s : App) : option (list AuthEntry.t) :=
  match airauth_users (localStorage s) with
  | Parsed es => Account.authHistory <$> JsMap.get k es
  | _ => None
  end.

(** A refused login as the specification words it: a failed entry is
    pushed on the history of the account that the login named. *)
Definition failedLoginRecorded (now : Time) (formUsername password : string) (s : App) : Prop :=
  exists l a e,
    findUser (JsString.trim formUsername) s = Some l
    /\ heap s !! l = Some a
    /\ heap (handleLogin now formUsername password s) !! l = Some (Account.push_authHistory e a)
    /\ AuthEntry.success e = false.

(** Saving the state and loading the page again. *)
Definition reloaded (s : App) : option App :=
  boot (localStorage (saveUserData s)) (urlHash s).

(** The payload of the first signature of an account. *)
Definition firstBlob (o : option Account.t) : option Payload :=
  match o with
  | Some a => match Account.signatures a with
              | sg :: _ => Some (Signature.blob sg)
              | [] => None
              end
  | None => None
  end.

Definition signatureTotal (o : option Account.t) : option nat :=
  match o with
  | Some a => Some (length (Account.signatures a))
  | None => None
  end.

(** A session with one saved signature. *)
Definition aliceSavesOne : list Event := aliceRegisters ++ recordAndSave 2000 "blob:1".

(** ** Invariants over runs *)

(** The half of the enrollment invariant that no reload breaks: the flag
    is never set on fewer than five signatures. *)
Definition flagSound (a : Account.t) : Prop :=
  Account.enrollmentComplete a = true -> (5 <= length (Account.signatures a))%nat.

(** The accounts that the storage holds. *)
Definition storedAccounts (ls : Storage) : list Account.t :=
  match airauth_users ls with
  | Parsed es => map snd es
  | _ => []
  end
  ++ match airauth_current_user ls with
     | Parsed a => [a]
     | _ => []
     end.

(** [P] holds of every account object of the page and [Q] of every account
    in the storage. *)
Definition holdsOf (P Q : Account.t -> Prop) (s : App) : Prop :=
  Forall P (heap s) /\ Forall Q (storedAccounts (localStorage s)).

Definition everywhere (P : Account.t -> Prop) (s : App) : Prop := holdsOf P P s.

Definition isReload (e : Event) : bool :=
  match e with Reload => true | _ => false end.

(** The state of a new page right after [loadUserData]. *)
Definition loaded (ls : Storage) (hash : string) : App := loadUserData (constructed ls hash).

(** What JSON makes of the directory and of the session, as values. *)
Definition jsonDirectoryView (s : App) : list (string * option Account.t) :=
  map (fun e => (fst e, jsonAccount <$> snd e)) (directoryView s).

Definition jsonSessionView (s : App) : option Account.t * bool :=
  match currentAccount s with
  | Some a => if isAuthenticated s then (Some (jsonAccount a), true) else (None, false)
  | None => (None, false)
  end.

(** The directory refers to allocated objects only, under distinct keys. *)
Definition directoryWellFormed (s : App) : Prop :=
  NoDup (map fst (users s))
  /\ forall k l, In (k, l) (users s) -> is_Some (heap s !! l).

(** The chunks of a recording: [startRecording], the data events of the
    recorder, then [stopRecording]. *)
Definition recording (chunks : list Chunk) : list Event :=
  StartRecording RecorderStarts :: map DataAvailable chunks ++ [StopRecording].

(** The account of a session after a successful password login. *)
Definition loggedIn (now : Time) (a : Account.t) : Account.t :=
  Account.push_authHistory (AuthEntry.mk now "Password Login" true "Successful login")
    (Account.set_lastLogin now a).

(** ** The language of a regular expression *)

(** The strings a pattern denotes; [Regex.test] is checked against it. *)
Inductive Matches : Regex.t -> string -> Prop :=
| MEps : Matches Regex.Eps ""
| MClass p c : p c = true -> Matches (Regex.Class p) (String c "")
| MSeq r1 r2 s1 s2 : Matches r1 s1 -> Matches r2 s2 -> Matches (Regex.Seq r1 r2) (s1 +:+ s2)
| MAltL r1 r2 s : Matches r1 s -> Matches (Regex.Alt r1 r2) s
| MAltR r1 r2 s : Matches r2 s -> Matches (Regex.Alt r1 r2) s
| MStarNil r : Matches (Regex.Star r) ""
| MStarApp r s1 s2 : Matches r s1 -> Matches (Regex.Star r) s2 ->
                     Matches (Regex.Star r) (s1 +:+ s2).

Fixpoint allChars (p : ascii -> bool) (s : string) : bool :=
  match s with
  | EmptyString => true
  | String c s' => p c && allChars p s'
  end.

(** [[a-zA-Z0-9_]] and [[^\s@]] *)
Definition isWordChar (c : ascii) : bool :=
  JsString.inRange "a" "z" c || JsString.inRange "A" "Z" c
  || JsString.inRange "0" "9" c || Ascii.eqb c "_".

Definition isAddressChar (c : ascii) : bool :=
  negb (JsString.isWhiteSpace c || Ascii.eqb c "@").

(** A non-empty run of characters of a class. *)
Definition isRun (p : ascii -> bool) (s : string) : Prop :=
  s <> "" /\ allChars p s = true.

(** ** The strength meter of [validatePassword]

    The part of the validator that feeds the display: twenty points for the
    length and twenty for each kind of character the password contains.  An
    unanchored [test] of a one-character class asks for some character of
    the class. *)
Definition hasChar (p : ascii -> bool) (s : string) : bool :=
  negb (allChars (fun c => negb (p c)) s).

Definition isLower (c : ascii) : bool := JsString.inRange "a" "z" c.
Definition isUpper (c : ascii) : bool := JsString.inRange "A" "Z" c.
Definition isDigit (c : ascii) : bool := JsString.inRange "0" "9" c.
(** [[^\w\s]] *)
Definition isSymbol (c : ascii) : bool := negb (isWordChar c || JsString.isWhiteSpace c).

Definition passwordStrength (password : string) : nat :=
  if (String.length password <? 8)%nat then 0%nat
  else
    ((if (8 <=? String.length password)%nat then 20 else 0)
     + (if hasChar isLower password then 20 else 0)
     + (if hasChar isUpper password then 20 else 0)
     + (if hasChar isDigit password then 20 else 0)
     + (if hasChar isSymbol password then 20 else 0))%nat.

Definition strengthLabel (password : string) : string :=
  if (String.length password <? 8)%nat then ""
  else
    let strength := passwordStrength password in
    if (strength <=? 40)%nat then "Weak"
    else if (strength <=? 60)%nat then "Fair"
    else if (strength <=? 80)%nat then "Good"
    else "Strong".

(** The colour of the bar. *)
Definition strengthColor (password : string) : string :=
  let strength := passwordStrength password in
  if (80 <? strength)%nat then "#10b981"
  else if (60 <? strength)%nat then "#3b82f6"
  else if (40 <? strength)%nat then "#f59e0b"
  else "#ef4444".

(** How many of the four kinds of character a password contains. *)
Definition kindsOfChar (password : string) : nat :=
  ((if hasChar isLower password then 1 else 0)
   + (if hasChar isUpper password then 1 else 0)
   + (if hasChar isDigit password then 1 else 0)
   + (if hasChar isSymbol password then 1 else 0))%nat.

(** ** Uniqueness in the directory *)

(** Who an account is: its username and its email. *)
Definition identity (a : Account.t) : string * string :=
  (Account.username a, Account.email a).

(** The directory and the stored directory, each entry with the identity of
    its account. *)
Definition directoryIds (s : App) : list (string * option (string * string)) :=
  map (fun e => (fst e, identity <$> heap s !! snd e)) (users s).

Definition storedIds (ls : Storage) : list (string * option (string * string)) :=
  match airauth_users ls with
  | Parsed es => map (fun e => (fst e, Some (identity (snd e)))) es
  | _ => []
  end.

(** The keys are distinct, every entry is an account filed under its own
    username, and the emails are distinct. *)
Definition uniqueIds (v : list (string * option (string * string))) : Prop :=
  NoDup (map fst v)
  /\ Forall (fun x => exists e, snd x = Some (fst x, e)) v
  /\ NoDup (map (fun x => snd <$> snd x) v).

(** The session refers to an object and is flagged authenticated, or there
    is none and the flag is off. *)
Definition sessionValid (s : App) : Prop :=
  match currentUser s with
  | Some l => is_Some (heap s !! l) /\ isAuthenticated s = true
  | None => isAuthenticated s = false
  end.

Definition consistent (s : App) : Prop :=
  uniqueIds (directoryIds s) /\ uniqueIds (storedIds (localStorage s)) /\ sessionValid s.

(** * Properties *)

(** ** The string functions on samples *)

Example usernameRegex_samples :
  map (Regex.test usernameRegex) ["alice_01"; "bob"; ""; "a b"; "d@e"; "x-y"]
  = [true; true; false; false; false; false].
Proof. reflexivity. Qed.

Example emailRegex_samples :
  map (Regex.test emailRegex)
      ["a@b.c"; "alice@mail.example.org"; "a@b"; "a@.c"; "a@b."; "@b.c"; "a b@c.d"; "a@b@c.d"; "a@b..c"]
  = [true; true; false; false; false; false; false; false; true].
Proof. reflexivity. Qed.

Example trim_samples :
  map JsString.trim ["  alice "; "bob"; "   "; " a b  "] = ["alice"; "bob"; ""; "a b"].
Proof. reflexivity. Qed.

Example ofZ_samples : map JsString.ofZ [0; 32; 90; 1700000000000] = ["0"; "32"; "90"; "1700000000000"].
Proof. reflexivity. Qed.

(** ** The directory map *)

Lemma JsMap_get_set_eq {V} (k : string) (v : V) (m : JsMap.t V) :
  JsMap.get k (JsMap.set k v m) = Some v.
Proof.
  induction m as [|[k' v'] m IH]; simpl.
  - now rewrite String.eqb_refl.
  - destruct (String.eqb k k') eqn:E; simpl; rewrite E; [reflexivity | exact IH].
Qed.

Lemma JsMap_set_fresh {V} (k : string) (v : V) (m : JsMap.t V) :
  JsMap.has k m = false -> JsMap.set k v m = m ++ [(k, v)].
Proof.
  unfold JsMap.has. induction m as [|[k' v'] m IH]; simpl; [reflexivity|].
  destruct (String.eqb k k'); [discriminate|].
  intros H. now rewrite IH.
Qed.

(** ** Navigation and display leave the data alone *)

Lemma sameData_refl s : sameData s s.
Proof. now unfold sameData. Qed.

Lemma sameData_trans s1 s2 s3 : sameData s1 s2 -> sameData s2 s3 -> sameData s1 s3.
Proof. unfold sameData. intuition congruence. Qed.

Lemma sameData_currentAccount s s' : sameData s s' -> currentAccount s' = currentAccount s.
Proof. unfold sameData, currentAccount. intros (-> & _ & -> & _). reflexivity. Qed.

Lemma sameData_emit e s : sameData s (emit e s).
Proof. now unfold sameData. Qed.

Lemma sameData_stopCamera s : sameData s (stopCamera s).
Proof. unfold stopCamera. destruct (webcamStream s); now unfold sameData. Qed.

Lemma sameData_resetEnrollment s : sameData s (resetEnrollment s).
Proof.
  unfold resetEnrollment.
  eapply sameData_trans; [|apply sameData_emit].
  eapply sameData_trans; [|apply sameData_emit].
  eapply sameData_trans; [|apply sameData_emit].
  eapply sameData_trans; [|apply sameData_emit].
  eapply sameData_trans; [|apply sameData_stopCamera].
  now unfold sameData.
Qed.

Lemma sameData_resetAuthTest s : sameData s (resetAuthTest s).
Proof.
  unfold resetAuthTest.
  eapply sameData_trans; [|apply sameData_emit].
  eapply sameData_trans; [|apply sameData_emit].
  apply sameData_stopCamera.
Qed.

Create HintDb app.
#[local] Hint Resolve sameData_refl sameData_emit sameData_stopCamera
  sameData_resetEnrollment sameData_resetAuthTest : app.

Lemma sameData_initializePage rec p s s' :
  (forall q t t', rec q t = Some t' -> sameData t t') ->
  initializePage rec p s = Some s' -> sameData s s'.
Proof.
  intros Hrec. unfold initializePage, updateDashboard, checkLoginRedirect.
  repeat match goal with
         | |- context [if ?b then _ else _] => destruct b
         | |- context [match currentAccount s with _ => _ end] => destruct (currentAccount s)
         end;
    intros H; try (injection H as <-); auto with app.
  all: try (repeat (eapply sameData_trans; [|apply sameData_emit]); apply sameData_refl).
  all: apply Hrec in H; exact H.
Qed.

Lemma showPage_sameData d : forall p s s', showPage d p s = Some s' -> sameData s s'.
Proof.
  induction d as [|d IH]; intros p s s'; simpl; [discriminate|].
  unfold showPageBody. destruct (pageExists p).
  - destruct (initializePage _ _ _) as [t|] eqn:E; [|discriminate].
    intros H; injection H as <-.
    apply sameData_initializePage in E; [|exact IH].
    unfold sameData in *. simpl in *. exact E.
  - intros H; injection H as <-.
    eapply sameData_trans; apply sameData_emit.
Qed.

(** A redirect is followed at most once: two levels of [showPage] always
    give a result, and more levels give the same one. *)
Lemma showPage_login_no_session rec s :
  currentAccount s = None ->
  showPageBody rec "login" s
  = Some (set_urlHash "login"
            (updateNavigation "login" (set_currentPage "login" (emit (PageActive "login") s)))).
Proof.
  intros H. unfold showPageBody. change (pageExists "login") with true. cbv iota.
  unfold initializePage. cbn [String.eqb Ascii.eqb Bool.eqb]. unfold checkLoginRedirect.
  match goal with
  | |- context [currentAccount ?t] => change (currentAccount t) with (currentAccount s)
  end.
  now rewrite H.
Qed.

Lemma showPage_dashboard_session rec s a :
  currentAccount s = Some a ->
  showPageBody rec "dashboard" s
  = Some (set_urlHash "dashboard"
            (updateAuthHistoryTable a (updateAuthStats a (updateProfileInfo a
               (updateNavigation "dashboard"
                  (set_currentPage "dashboard" (emit (PageActive "dashboard") s))))))).
Proof.
  intros H. unfold showPageBody. change (pageExists "dashboard") with true. cbv iota.
  unfold initializePage. cbn [String.eqb Ascii.eqb Bool.eqb]. unfold updateDashboard.
  match goal with
  | |- context [currentAccount ?t] => change (currentAccount t) with (currentAccount s)
  end.
  now rewrite H.
Qed.

Lemma showPage_depth d p s : showPage (S (S d)) p s = showPage redirectDepth p s.
Proof.
  unfold redirectDepth. cbn [showPage].
  unfold showPageBody at 1 3. destruct (pageExists p); [|reflexivity].
  set (s1 := updateNavigation p _).
  unfold initializePage, updateDashboard, checkLoginRedirect.
  destruct (String.eqb p "dashboard").
  - destruct (currentAccount s1) eqn:E; [reflexivity|].
    rewrite !showPage_login_no_session; [reflexivity | |]; rewrite <- E; reflexivity.
  - destruct (String.eqb p "enrollment"); [reflexivity|].
    destruct (String.eqb p "auth-test"); [reflexivity|].
    destruct (String.eqb p "login"); [|reflexivity].
    destruct (currentAccount s1) eqn:E; [|reflexivity].
    destruct (isAuthenticated s1); [|reflexivity].
    now rewrite !(showPage_dashboard_session _ _ _ E).
Qed.

Lemma showPage_total d p s : exists s', showPage (S (S d)) p s = Some s'.
Proof.
  rewrite showPage_depth. unfold redirectDepth. cbn [showPage].
  unfold showPageBody at 1. destruct (pageExists p); [|eauto].
  set (s1 := updateNavigation p _).
  unfold initializePage, updateDashboard, checkLoginRedirect.
  destruct (String.eqb p "dashboard").
  - destruct (currentAccount s1) eqn:E; [eauto|].
    rewrite showPage_login_no_session; [eauto|]. rewrite <- E; reflexivity.
  - destruct (String.eqb p "enrollment"); [eauto|].
    destruct (String.eqb p "auth-test"); [eauto|].
    destruct (String.eqb p "login"); [|destruct (String.eqb p "register"); eauto].
    destruct (currentAccount s1) eqn:E; [|eauto].
    destruct (isAuthenticated s1); [|eauto].
    rewrite (showPage_dashboard_session _ _ _ E). eauto.
Qed.

(** ** Entry guards *)

(** C9: a request for the dashboard page with no session ends on the login
    page; the only calls on the document are the page switches and the
    notification, none of the dashboard's own entry actions, and the data is
    untouched. *)
Theorem dashboard_without_session_redirects (d : nat) (s : App) :
  currentUser s = None ->
  exists s', showPage (S (S d)) "dashboard" s = Some s'
    /\ currentPage s' = "login"
    /\ ui s' = ui s ++ [PageActive "dashboard"; NavActive "dashboard";
                        Notify "Please log in to access dashboard" "error";
                        PageActive "login"; NavActive "login"]
    /\ (forall e, In e (drop (length (ui s)) (ui s')) -> dashboardOnly e = false)
    /\ sameData s s'.
Proof.
  intros H.
  assert (Hacc : currentAccount s = None) by (unfold currentAccount; now rewrite H).
  cbn [showPage]. unfold showPageBody at 1.
  change (pageExists "dashboard") with true. cbv iota.
  unfold initializePage at 1. cbn [String.eqb Ascii.eqb Bool.eqb]. unfold updateDashboard.
  match goal with
  | |- context [currentAccount ?t] => change (currentAccount t) with (currentAccount s)
  end.
  rewrite Hacc, showPage_login_no_session by exact Hacc.
  eexists. split; [reflexivity|]. split; [reflexivity|].
  assert (Hui : forall l : list Effect, ((((l ++ [PageActive "dashboard"]) ++ [NavActive "dashboard"])
            ++ [Notify "Please log in to access dashboard" "error"]) ++ [PageActive "login"])
            ++ [NavActive "login"]
          = l ++ [PageActive "dashboard"; NavActive "dashboard";
                  Notify "Please log in to access dashboard" "error";
                  PageActive "login"; NavActive "login"])
    by (intros l; now rewrite <- !app_assoc).
  split; [apply Hui|]. split; [|now unfold sameData].
  intros e. cbn [ui set_urlHash updateNavigation set_currentPage emit showNotification set_ui].
  rewrite Hui, drop_app_length. cbn [In].
  intros [<-|[<-|[<-|[<-|[<-|[]]]]]]; reflexivity.
Qed.

Lemma dashboard_without_session_redirects_witness :
  exists s', showPage 2 "dashboard" (after []) = Some s' /\ currentPage s' = "login".
Proof.
  destruct (dashboard_without_session_redirects 0 (after []) eq_refl) as (s' & H1 & H2 & _).
  exists s'. split; assumption.
Defined.

Lemma stopCamera_currentPage s : currentPage (stopCamera s) = currentPage s.
Proof. unfold stopCamera. now destruct (webcamStream s). Qed.

Lemma resetEnrollment_currentPage s : currentPage (resetEnrollment s) = currentPage s.
Proof. unfold resetEnrollment. cbn. now rewrite stopCamera_currentPage. Qed.

Lemma resetAuthTest_currentPage s : currentPage (resetAuthTest s) = currentPage s.
Proof. unfold resetAuthTest. cbn. now rewrite stopCamera_currentPage. Qed.

(** The effect log only grows. *)
Lemma uiExtends_refl s : uiExtends s s.
Proof. exists []. now rewrite app_nil_r. Qed.

Lemma uiExtends_trans s1 s2 s3 : uiExtends s1 s2 -> uiExtends s2 s3 -> uiExtends s1 s3.
Proof. intros [l1 H1] [l2 H2]. exists (l1 ++ l2). now rewrite H2, H1, app_assoc. Qed.

Lemma uiExtends_emit e s : uiExtends s (emit e s).
Proof. now exists [e]. Qed.

Lemma uiExtends_In e s s' : uiExtends s s' -> In e (ui s) -> In e (ui s').
Proof. intros [l ->] H. apply in_app_iff. now left. Qed.

Lemma uiExtends_stopCamera s : uiExtends s (stopCamera s).
Proof.
  unfold stopCamera. destruct (webcamStream s); [|apply uiExtends_refl].
  eapply uiExtends_trans; [|apply uiExtends_emit].
  exists [VideoCleared]. reflexivity.
Qed.

Lemma uiExtends_resetEnrollment s : uiExtends s (resetEnrollment s).
Proof.
  unfold resetEnrollment.
  do 4 (eapply uiExtends_trans; [|apply uiExtends_emit]).
  eapply uiExtends_trans; [|apply uiExtends_stopCamera].
  exists []. cbn. now rewrite app_nil_r.
Qed.

(** Pages whose entry action redirects nowhere. *)
Lemma showPage_enrollment (d : nat) (s : App) :
  showPage (S d) "enrollment" s
  = Some (set_urlHash "enrollment"
            (resetEnrollment
               (updateNavigation "enrollment"
                  (set_currentPage "enrollment" (emit (PageActive "enrollment") s))))).
Proof. reflexivity. Qed.

Lemma showPage_auth_test (d : nat) (s : App) :
  showPage (S d) "auth-test" s
  = Some (set_urlHash "auth-test"
            (resetAuthTest
               (updateNavigation "auth-test"
                  (set_currentPage "auth-test" (emit (PageActive "auth-test") s))))).
Proof. reflexivity. Qed.

(** The auth-test page itself has no entry guard: [showPage] shows it to
    any session. *)
Lemma showPage_auth_test_unguarded (d : nat) (s : App) :
  exists s', showPage (S d) "auth-test" s = Some s' /\ currentPage s' = "auth-test".
Proof.
  rewrite showPage_auth_test. eexists. split; [reflexivity|].
  cbn [currentPage set_urlHash]. now rewrite resetAuthTest_currentPage.
Qed.

(** C4, as the specification words it, fails: right after registration the
    session is not enrolled, and a request for the auth-test page shows the
    auth-test page. *)
Lemma auth_test_entry_not_guarded : ~ authTestGuarded (after [Register 1000 aliceForm]).
Proof.
  intros H. destruct H as (s' & Hs & Hp); [vm_compute; reflexivity|].
  destruct (showPage_auth_test_unguarded 1 (after [Register 1000 aliceForm])) as (t & Ht & Hq).
  unfold redirectDepth in Hs. rewrite Ht in Hs. injection Hs as <-.
  rewrite Hq in Hp. discriminate Hp.
Qed.

(** C4, amended: the guard sits on the air-authentication button.  Pressed
    by a session that is not enrolled, or with no session, [handleAirAuth]
    ends on the enrollment page, and reports why. *)
Theorem handleAirAuth_redirects_unenrolled (s : App) :
  sessionEnrolled s = false ->
  exists s', handleAirAuth s = Some s'
    /\ currentPage s' = "enrollment"
    /\ In (Notify "Please complete enrollment first!" "error") (ui s')
    /\ sameData s s'.
Proof.
  unfold sessionEnrolled, handleAirAuth. intros H.
  set (s1 := showNotification "Please complete enrollment first!" "error" s).
  assert (Hgo : exists s', showPage redirectDepth "enrollment" s1 = Some s'
                  /\ currentPage s' = "enrollment"
                  /\ In (Notify "Please complete enrollment first!" "error") (ui s')
                  /\ sameData s s').
  { unfold redirectDepth. rewrite showPage_enrollment.
    eexists. split; [reflexivity|]. split.
    { cbn [currentPage set_urlHash]. now rewrite resetEnrollment_currentPage. }
    split.
    - cbn [ui set_urlHash]. eapply uiExtends_In; [apply uiExtends_resetEnrollment|].
      subst s1. cbn. rewrite !in_app_iff. cbn. tauto.
    - apply (sameData_trans _ s1); [apply sameData_emit|].
      apply (showPage_sameData 2 "enrollment"). apply showPage_enrollment. }
  destruct (currentAccount s) as [a|]; [|exact Hgo].
  rewrite H. exact Hgo.
Qed.

Lemma handleAirAuth_redirects_unenrolled_witness :
  exists s', handleAirAuth (after [Register 1000 aliceForm]) = Some s'
             /\ currentPage s' = "enrollment".
Proof.
  assert (H : sessionEnrolled (after [Register 1000 aliceForm]) = false)
    by (vm_compute; reflexivity).
  destruct (handleAirAuth_redirects_unenrolled (after [Register 1000 aliceForm]) H)
    as (s' & H1 & H2 & _).
  exists s'. split; assumption.
Defined.


(** ** Saving a signature *)

Lemma saveSignature_heap now url s l :
  currentUser s = Some l -> recordedChunks s <> [] ->
  heap (saveSignature now url s) = alter (withSignature (newSignature now url s)) l (heap s).
Proof.
  intros Hl Hc. unfold saveSignature. destruct (recordedChunks s) as [|c cs] eqn:Ec; [easy|].
  rewrite Hl. clear Ec c cs Hc.
  set (sg := newSignature now url s).
  set (n := match heap (update l (Account.push_signature sg) s) !! l with
            | Some a => length (Account.signatures a)
            | None => 0%nat
            end).
  assert (Hn : n = match heap s !! l with
                   | Some a => length (Account.signatures (Account.push_signature sg a))
                   | None => 0%nat
                   end).
  { subst n. unfold update. cbn [heap set_heap]. rewrite list_lookup_alter_eq.
    now destruct (heap s !! l). }
  destruct (5 <=? n)%nat eqn:E5.
  - cbn. rewrite list_alter_alter_eq. apply list_alter_ext; [|reflexivity].
    intros a Ha. unfold withSignature, compose. rewrite Ha in Hn. now rewrite <- Hn, E5.
  - cbn. apply list_alter_ext; [|reflexivity].
    intros a Ha. unfold withSignature. rewrite Ha in Hn. now rewrite <- Hn, E5.
Qed.

Lemma saveSignature_account now url s l a :
  currentUser s = Some l -> heap s !! l = Some a -> recordedChunks s <> [] ->
  heap (saveSignature now url s) !! l = Some (withSignature (newSignature now url s) a).
Proof.
  intros Hl Ha Hc. rewrite (saveSignature_heap _ _ _ l Hl Hc), list_lookup_alter_eq, Ha.
  reflexivity.
Qed.

Lemma saveSignature_other_accounts now url s l l' :
  currentUser s = Some l -> l <> l' ->
  heap (saveSignature now url s) !! l' = heap s !! l'.
Proof.
  intros Hl Hne. destruct (recordedChunks s) as [|c cs] eqn:Ec.
  - unfold saveSignature. now rewrite Ec.
  - rewrite (saveSignature_heap _ _ _ l Hl) by (rewrite Ec; discriminate).
    now apply list_lookup_alter_ne.
Qed.

Lemma withSignature_signatures sg a :
  Account.signatures (withSignature sg a) = Account.signatures a ++ [sg].
Proof. unfold withSignature. now destruct (_ <=? _)%nat. Qed.

Lemma withSignature_flag sg a :
  Account.enrollmentComplete (withSignature sg a)
  = Account.enrollmentComplete a || (4 <=? length (Account.signatures a))%nat.
Proof.
  unfold withSignature. cbn [Account.push_signature Account.signatures].
  rewrite length_app. cbn [length].
  replace (5 <=? length (Account.signatures a) + 1)%nat
    with (4 <=? length (Account.signatures a))%nat
    by (destruct (Nat.leb_spec 4 (length (Account.signatures a)));
        destruct (Nat.leb_spec 5 (length (Account.signatures a) + 1)); lia || reflexivity).
  destruct (4 <=? _)%nat; cbn; [now rewrite orb_true_r | now rewrite orb_false_r].
Qed.

(** Within a page the invariant of the data model is kept by every save:
    the flag turns at the fifth signature and at no other. *)
Lemma withSignature_consistent sg a :
  enrollmentConsistent a -> enrollmentConsistent (withSignature sg a).
Proof.
  unfold enrollmentConsistent. rewrite withSignature_flag, withSignature_signatures, length_app.
  cbn [length]. intros [H1 H2].
  destruct (Nat.leb_spec 4 (length (Account.signatures a))) as [H4|H4].
  - rewrite orb_true_r. split; [lia | reflexivity].
  - rewrite orb_false_r. split; [intros E; apply H1 in E; lia | lia].
Qed.

Lemma withSignature_fifth sg a :
  enrollmentConsistent a -> length (Account.signatures a) = 4%nat ->
  Account.enrollmentComplete a = false /\ Account.enrollmentComplete (withSignature sg a) = true.
Proof.
  unfold enrollmentConsistent. intros [H1 H2] H4. rewrite withSignature_flag, H4. split.
  - destruct (Account.enrollmentComplete a); [|reflexivity]. specialize (H1 eq_refl). lia.
  - now rewrite orb_true_r.
Qed.

Lemma withSignature_not_fifth sg a :
  enrollmentConsistent a -> length (Account.signatures a) <> 4%nat ->
  Account.enrollmentComplete (withSignature sg a) = Account.enrollmentComplete a.
Proof.
  unfold enrollmentConsistent. intros [H1 H2] H4. rewrite withSignature_flag.
  destruct (Nat.leb_spec 4 (length (Account.signatures a))) as [H|H].
  - rewrite H2 by lia. reflexivity.
  - now rewrite orb_false_r.
Qed.

Lemma saveSignature_consistent now url s :
  Forall enrollmentConsistent (heap s) ->
  Forall enrollmentConsistent (heap (saveSignature now url s)).
Proof.
  intros H. destruct (recordedChunks s) as [|c cs] eqn:Ec.
  - unfold saveSignature. now rewrite Ec.
  - destruct (currentUser s) as [l|] eqn:El.
    + rewrite (saveSignature_heap _ _ _ l El) by (rewrite Ec; discriminate).
      apply Forall_alter; [exact H|]. intros a _. apply withSignature_consistent.
    + unfold saveSignature. now rewrite Ec, El.
Qed.

(** C10: a recording saved for an account that already holds five
    signatures or more is appended like any other; the count goes on past
    five, the save is reported as a success and the flag is true after it. *)
Theorem saveSignature_beyond_five now url s l a :
  currentUser s = Some l -> heap s !! l = Some a ->
  (5 <= length (Account.signatures a))%nat -> recordedChunks s <> [] ->
  exists a', heap (saveSignature now url s) !! l = Some a'
    /\ Account.signatures a' = Account.signatures a ++ [newSignature now url s]
    /\ length (Account.signatures a') = S (length (Account.signatures a))
    /\ Account.enrollmentComplete a' = true
    /\ signatureCount (saveSignature now url s) = S (length (Account.signatures a))
    /\ ~ In (Notify "No recording to save!" "error") (drop (length (ui s)) (ui (saveSignature now url s))).
Proof.
  intros Hl Ha H5 Hc. exists (withSignature (newSignature now url s) a).
  split; [now apply saveSignature_account|].
  split; [apply withSignature_signatures|].
  split; [rewrite withSignature_signatures, length_app; cbn; lia|].
  split.
  { rewrite withSignature_flag.
    destruct (Nat.leb_spec 4 (length (Account.signatures a))); [apply orb_true_r | lia]. }
  unfold saveSignature. destruct (recordedChunks s) as [|c cs] eqn:Ec; [easy|].
  rewrite Hl.
  cbn [update heap set_heap set_signatureCount saveUserData set_localStorage
       updateSignatureGallery updateProgressIndicator updateEnrollmentStatus
       showNotification emit set_ui].
  rewrite list_lookup_alter_eq, Ha. cbn [fmap option_fmap option_map].
  cbn [Account.push_signature Account.signatures]. rewrite length_app. cbn [length].
  destruct (Nat.leb_spec 5 (length (Account.signatures a) + 1)) as [_|]; [|lia].
  cbn. split; [lia|].
  rewrite <- !app_assoc, drop_app_length. cbn.
  intros H. repeat (destruct H as [H|H]; [discriminate H|]). exact H.
Qed.

Lemma saveSignature_beyond_five_witness :
  exists a', heap (saveSignature 7000 "blob:6" (after aliceRecordsAgain)) !! 0%nat = Some a'
             /\ length (Account.signatures a') = 6%nat
             /\ Account.enrollmentComplete a' = true.
Proof.
  assert (Hl : currentUser (after aliceRecordsAgain) = Some 0%nat) by (vm_compute; reflexivity).
  assert (Ha : exists a, heap (after aliceRecordsAgain) !! 0%nat = Some a
                         /\ length (Account.signatures a) = 5%nat)
    by (vm_compute; eexists; split; reflexivity).
  destruct Ha as (a & Ha & H5).
  assert (Hc : recordedChunks (after aliceRecordsAgain) <> []) by (vm_compute; discriminate).
  destruct (saveSignature_beyond_five 7000 "blob:6" _ 0%nat a Hl Ha ltac:(lia) Hc)
    as (a' & E1 & _ & E3 & E4 & _).
  exists a'. rewrite E3, H5. auto.
Defined.


(** C1, on the code: the fifth [saveSignature] writes the storage before it
    sets the flag.  In the page the account then has five signatures and the
    flag; the storage, and every account read back from it by a reload, has
    five signatures without the flag, and the flag is then set by the save
    that takes the count from five to six. *)
Theorem fifth_save_persists_stale_flag :
  (exists a, directoryAccount "alice" (after aliceEnrolls) = Some a
             /\ length (Account.signatures a) = 5%nat
             /\ Account.enrollmentComplete a = true)
  /\ (exists a, airauth_users (localStorage (after aliceEnrolls)) = Parsed [("alice", a)]
                /\ length (Account.signatures a) = 5%nat
                /\ Account.enrollmentComplete a = false)
  /\ (exists a, directoryAccount "alice" (after aliceReloads) = Some a
                /\ length (Account.signatures a) = 5%nat
                /\ Account.enrollmentComplete a = false
                /\ ~ enrollmentConsistent a)
  /\ (exists a, currentAccount (after aliceReloads) = Some a
                /\ length (Account.signatures a) = 5%nat
                /\ Account.enrollmentComplete a = false)
  /\ (exists a, currentAccount (after aliceReloadsAndRecords) = Some a
                /\ length (Account.signatures a) = 6%nat
                /\ Account.enrollmentComplete a = true).
Proof.
  split; [vm_compute; eexists; repeat split; reflexivity|].
  split; [vm_compute; eexists; repeat split; reflexivity|].
  split.
  { vm_compute. eexists. split; [reflexivity|]. split; [reflexivity|]. split; [reflexivity|].
    intros [_ H]. discriminate H. repeat constructor. }
  split; vm_compute; eexists; repeat split; reflexivity.
Qed.


(** ** Authentication attempts *)

(** The literals and the two sources, bit for bit: 0.1 is
    [0x1.999999999999ap-4], 0.05 is [0x1.999999999999ap-5], 0.5 is [0x1p-1]. *)
Example double_literals :
  Double.decimal 1 10 = S754_finite false 7205759403792794 (-56)
  /\ Double.decimal 5 100 = S754_finite false 7205759403792794 (-57)
  /\ Double.decimal 1 2 = S754_finite false 4503599627370496 (-53)
  /\ Double.value (Double.ofZ 85) = Some (5981343255101440 # 70368744177664)%Q.
Proof. repeat split; vm_compute; reflexivity. Qed.

(** A draw equal to the threshold is no success.  At 0.15 the product with
    10 rounds to 1.5 and the confidence is 87, where the exact product would
    give 86.  The largest double below 1 gives the upper end of each range. *)
Example gestureOutcome_samples :
  gestureOutcome (heldAt (Double.decimal 1 10)) = (false, 34)
  /\ gestureOutcome (heldAt (Double.decimal 15 100)) = (true, 87)
  /\ gestureOutcome (heldAt (S754_finite false 9007199254740991 (-53))) = (true, 95)
  /\ gestureOutcome (fun k => match k with
                              | O => Double.ofZ 0
                              | _ => S754_finite false 9007199254740991 (-53)
                              end) = (false, 70).
Proof. repeat split; vm_compute; reflexivity. Qed.

Lemma authenticateGesture_ready s a :
  currentAccount s = Some a -> Account.enrollmentComplete a = true -> webcamStream s = true ->
  authenticateGesture s
  = Some (set_pendingAttempts (S (pendingAttempts s))
            (showAuthResult "processing" "Processing..." "Analyzing your gesture..." s)).
Proof. intros Ha He Hw. unfold authenticateGesture. now rewrite Ha, He, Hw. Qed.

(** [saveUserData] writes the storage and nothing else. *)
Lemma saveUserData_frame s :
  heap (saveUserData s) = heap s /\ users (saveUserData s) = users s
  /\ currentUser (saveUserData s) = currentUser s
  /\ isAuthenticated (saveUserData s) = isAuthenticated s
  /\ ui (saveUserData s) = ui s /\ currentPage (saveUserData s) = currentPage s.
Proof. repeat split; reflexivity. Qed.

(** [addAuthHistory] with a session: one entry pushed on its account. *)
Lemma addAuthHistory_session now method success details s l :
  currentUser s = Some l ->
  heap (addAuthHistory now method success details s)
  = alter (Account.push_authHistory (AuthEntry.mk now method success details)) l (heap s)
  /\ currentUser (addAuthHistory now method success details s) = Some l
  /\ users (addAuthHistory now method success details s) = users s
  /\ isAuthenticated (addAuthHistory now method success details s) = isAuthenticated s
  /\ ui (addAuthHistory now method success details s) = ui s.
Proof.
  intros Hl. unfold addAuthHistory. rewrite Hl.
  repeat split; try reflexivity. exact Hl.
Qed.

(** [addAuthHistory] without a session does nothing. *)
Lemma addAuthHistory_no_session now method success details s :
  currentUser s = None -> addAuthHistory now method success details s = s.
Proof. intros H. unfold addAuthHistory. now rewrite H. Qed.







(** An attempt that nothing interrupts: started by an enrolled session
    whose camera is on, and resumed on the state it left, it shows that the
    gesture is being processed, then the card and the notification of its
    outcome, and pushes one entry on the account of the session.  No attempt
    is left pending that was not pending before. *)
Theorem attempt_uninterrupted random now s l a :
  currentUser s = Some l -> heap s !! l = Some a ->
  Account.enrollmentComplete a = true -> webcamStream s = true ->
  exists s' details card message,
    run [Authenticate; DelayElapsed random now] s = Some s'
    /\ heap s'
       = alter (Account.push_authHistory
                  (AuthEntry.mk now "Air Signature" (fst (gestureOutcome random)) details)) l (heap s)
    /\ currentUser s' = Some l
    /\ pendingAttempts s' = pendingAttempts s
    /\ ui s' = ui s ++ [AuthResult "processing" "Processing..." "Analyzing your gesture...";
                        AuthResult (if fst (gestureOutcome random) then "success" else "error")
                                   (if fst (gestureOutcome random)
                                    then "Authentication Successful!" else "Authentication Failed")
                                   card;
                        Notify message (if fst (gestureOutcome random) then "success" else "error")].
Proof.
  intros Hl Ha He Hw.
  assert (Hacc : currentAccount s = Some a) by (unfold currentAccount; now rewrite Hl).
  cbn [run step]. rewrite (authenticateGesture_ready _ _ Hacc He Hw).
  unfold delayElapsed. cbn [pendingAttempts set_pendingAttempts showAuthResult emit set_ui].
  unfold authenticateGestureResumed, simulateGestureRecognition.
  destruct (gestureOutcome random) as [ok c]. cbn [fst snd].
  destruct ok.
  - match goal with |- context [currentAccount ?t] =>
      assert (Hacc' : currentAccount t = Some a) by exact Hacc; rewrite Hacc' end.
    eexists. eexists. eexists. eexists. split; [reflexivity|].
    unfold addAuthHistory; cbn -[JsString.ofZ String.append].
    rewrite Hl; cbn -[JsString.ofZ String.append].
    split; [reflexivity|]. split; [exact Hl|]. split; [reflexivity|].
    now rewrite <- !app_assoc.
  - eexists. eexists. eexists. eexists. split; [reflexivity|].
    unfold addAuthHistory; cbn -[JsString.ofZ String.append].
    rewrite Hl; cbn -[JsString.ofZ String.append].
    split; [reflexivity|]. split; [exact Hl|]. split; [reflexivity|].
    now rewrite <- !app_assoc.
Qed.

Lemma attempt_uninterrupted_witness :
  exists s', run [Authenticate; DelayElapsed lowDraws 9000] (after aliceReady) = Some s'
             /\ pendingAttempts s' = 0%nat.
Proof.
  assert (Hl : currentUser (after aliceReady) = Some 0%nat) by (vm_compute; reflexivity).
  assert (Ha : exists a, heap (after aliceReady) !! 0%nat = Some a
                         /\ Account.enrollmentComplete a = true)
    by (vm_compute; eexists; split; reflexivity).
  destruct Ha as (a & Ha & He).
  assert (Hw : webcamStream (after aliceReady) = true) by (vm_compute; reflexivity).
  assert (Hp : pendingAttempts (after aliceReady) = 0%nat) by (vm_compute; reflexivity).
  destruct (attempt_uninterrupted lowDraws 9000 _ 0%nat a Hl Ha He Hw)
    as (s' & details & card & message & E & _ & _ & Ep & _).
  exists s'. split; [exact E|]. now rewrite Ep.
Defined.

(** An attempt whose delay passes when the session has been closed: no
    success is shown whatever the draws, and nothing is written.  A draw
    above the threshold ends in the [catch] block, whose entry finds no
    account to go to. *)
Theorem attempt_without_session random now s :
  (0 < pendingAttempts s)%nat -> currentUser s = None ->
  exists s', step (DelayElapsed random now) s = Some s'
    /\ heap s' = heap s /\ users s' = users s /\ localStorage s' = localStorage s
    /\ currentUser s' = None
    /\ pendingAttempts s' = pred (pendingAttempts s)
    /\ ui s' = ui s ++
         (if fst (gestureOutcome random)
          then [AuthResult "error" "Authentication Failed"
                  "An error occurred during authentication."]
          else [AuthResult "error" "Authentication Failed"
                  ("Gesture not recognized (" +:+ JsString.ofZ (snd (gestureOutcome random))
                   +:+ "% confidence). Please try again.");
                Notify "Authentication failed. Please try again." "error"]).
Proof.
  intros Hp Hl. cbn [step]. unfold delayElapsed.
  destruct (pendingAttempts s) as [|n] eqn:En; [lia|].
  eexists. split; [reflexivity|].
  unfold authenticateGestureResumed, simulateGestureRecognition.
  destruct (gestureOutcome random) as [ok c]. cbn [fst snd].
  assert (Hacc : currentAccount (set_pendingAttempts n s) = None)
    by (unfold currentAccount; cbn [currentUser set_pendingAttempts]; now rewrite Hl).
  destruct ok.
  - rewrite Hacc. rewrite addAuthHistory_no_session by exact Hl.
    repeat split; try reflexivity. exact Hl.
  - rewrite addAuthHistory_no_session by exact Hl.
    repeat split; try reflexivity; [exact Hl|].
    cbn -[JsString.ofZ String.append]. now rewrite <- !app_assoc.
Qed.

Lemma attempt_without_session_witness :
  exists s', step (DelayElapsed highDraws 9000) (after aliceLeavesMeanwhile) = Some s'
    /\ last (ui s') = Some (AuthResult "error" "Authentication Failed"
                              "An error occurred during authentication.")
    /\ heap s' = heap (after aliceLeavesMeanwhile).
Proof.
  assert (Hp : (0 < pendingAttempts (after aliceLeavesMeanwhile))%nat) by (vm_compute; lia).
  assert (Hl : currentUser (after aliceLeavesMeanwhile) = None) by (vm_compute; reflexivity).
  destruct (attempt_without_session highDraws 9000 _ Hp Hl)
    as (s' & E & Hh & _ & _ & _ & _ & Hui).
  exists s'. split; [exact E|]. split; [|exact Hh].
  rewrite Hui, last_app. reflexivity.
Defined.


(** ** Registration *)

Lemma orElse_same a : JsString.orElse a a = a.
Proof. now destruct a. Qed.

(** The four validators run one after the other on the submitted values;
    each leaves its verdict on its field. *)
Lemma validateRegistrationForm_submitted form s :
  let u := JsString.trim (form_username form) in
  let e := JsString.trim (form_email form) in
  let p := form_password form in
  let c := form_confirmPassword form in
  validateRegistrationForm form u e p c s
  = (fst (usernameVerdict u s) && fst (emailVerdict e s) && fst (passwordVerdict p)
     && fst (confirmVerdict c p),
     set_ui (ui s ++ [FieldError "reg-username" (fst (usernameVerdict u s)) (snd (usernameVerdict u s));
                      FieldError "reg-email" (fst (emailVerdict e s)) (snd (emailVerdict e s));
                      FieldError "reg-password" (fst (passwordVerdict p)) (snd (passwordVerdict p));
                      FieldError "reg-confirm-password" (fst (confirmVerdict c p))
                                 (snd (confirmVerdict c p))]) s).
Proof.
  intros u e p c. unfold validateRegistrationForm, validateUsername, validateEmail,
    validatePassword, validateConfirmPassword.
  fold u e p c. rewrite !orElse_same.
  change (usernameVerdict u s) with (usernameVerdict u s).
  destruct (usernameVerdict u s) as [v1 m1] eqn:E1.
  change (emailVerdict e (emit (FieldError "reg-username" v1 m1) s)) with (emailVerdict e s).
  destruct (emailVerdict e s) as [v2 m2].
  destruct (passwordVerdict p) as [v3 m3].
  destruct (confirmVerdict c p) as [v4 m4].
  cbn [fst snd]. f_equal. unfold emit. cbn. now rewrite <- !app_assoc.
Qed.

Lemma usernameVerdict_taken u s : JsMap.has u (users s) = true -> fst (usernameVerdict u s) = false.
Proof.
  intros H. unfold usernameVerdict. rewrite H.
  destruct (_ <? _)%nat; [reflexivity|]. now destruct (negb _).
Qed.

Lemma emailVerdict_taken e s : emailTaken e s = true -> fst (emailVerdict e s) = false.
Proof. intros H. unfold emailVerdict. rewrite H. now destruct (negb _). Qed.

Lemma usernameVerdict_valid u s :
  fst (usernameVerdict u s) = true -> JsMap.has u (users s) = false.
Proof.
  destruct (JsMap.has u (users s)) eqn:E; [|reflexivity].
  now rewrite (usernameVerdict_taken _ _ E).
Qed.

Lemma emailVerdict_valid e s : fst (emailVerdict e s) = true -> emailTaken e s = false.
Proof.
  destruct (emailTaken e s) eqn:E; [|reflexivity].
  now rewrite (emailVerdict_taken _ _ E).
Qed.

(** The two ways out of [handleRegistration] that the code can take: the
    validators refuse the form and only their messages are left, or the
    account is created.  The notification of the third way, the test for an
    existing user after the validators, is never issued, since the
    validators have made that test already. *)
Lemma handleRegistration_cases now form s :
  let u := JsString.trim (form_username form) in
  let e := JsString.trim (form_email form) in
  let valid := fst (usernameVerdict u s) && fst (emailVerdict e s)
               && fst (passwordVerdict (form_password form))
               && fst (confirmVerdict (form_confirmPassword form) (form_password form)) in
  let s1 := snd (validateRegistrationForm form u e (form_password form)
                   (form_confirmPassword form) s) in
  handleRegistration now form s
  = if valid then
      let l := length (heap s) in
      let s2 := set_users (JsMap.set u l (users s)) (set_heap (heap s ++ [newAccount now form]) s1) in
      let s3 := saveUserData s2 in
      let s4 := showNotification "Registration successful! Please complete enrollment." "success" s3 in
      let s5 := set_isAuthenticated true (set_currentUser (Some l) s4) in
      emit (SetTimeout 1500 "enrollment") (updateAuthStatus s5)
    else s1.
Proof.
  intros u e valid s1. unfold handleRegistration. fold u e. subst s1.
  rewrite validateRegistrationForm_submitted. fold u e. cbn [fst snd]. fold valid.
  destruct valid eqn:Ev; cbn [negb]; [|reflexivity].
  subst valid. apply andb_prop in Ev as [Ev _]. apply andb_prop in Ev as [Ev _].
  apply andb_prop in Ev as [Eu Ee].
  cbn [users heap set_ui]. unfold emailTaken in *. cbn [users heap set_ui].
  rewrite (usernameVerdict_valid _ _ Eu).
  pose proof (emailVerdict_valid _ _ Ee) as Ht. unfold emailTaken in Ht. rewrite Ht.
  reflexivity.
Qed.

Lemma findByEmail_new (h : list Account.t) (a : Account.t) (vs : list loc) :
  existsb (fun l => match h !! l with
                    | Some u => String.eqb (Account.email u) (Account.email a)
                    | None => false
                    end) vs = false ->
  List.find (fun l => match (h ++ [a]) !! l with
                      | Some u => String.eqb (Account.email u) (Account.email a)
                      | None => false
                      end) (vs ++ [length h]) = Some (length h).
Proof.
  induction vs as [|x vs IH]; cbn [existsb List.find app].
  - intros _. rewrite list_lookup_middle by reflexivity. now rewrite String.eqb_refl.
  - intros H. apply orb_false_elim in H as [Hx Hvs].
    destruct (lt_eq_lt_dec x (length h)) as [[Hlt|Heq]|Hgt].
    + rewrite lookup_app_l by exact Hlt. rewrite Hx. now apply IH.
    + subst x. rewrite list_lookup_middle by reflexivity. now rewrite String.eqb_refl.
    + rewrite (lookup_ge_None_2 (h ++ [a]) x) by (rewrite length_app; cbn; lia). now apply IH.
Qed.

(** C5: a registration whose inputs are valid creates an account with no
    signature and no history; the directory returns it for its username and
    for its email, and it is the session, authenticated. *)
Theorem registration_creates_account now form s :
  let u := JsString.trim (form_username form) in
  let e := JsString.trim (form_email form) in
  (3 <= String.length u)%nat ->
  Regex.test usernameRegex u = true ->
  Regex.test emailRegex e = true ->
  (8 <= String.length (form_password form))%nat ->
  form_confirmPassword form = form_password form ->
  JsMap.has u (users s) = false ->
  emailTaken e s = false ->
  let s' := handleRegistration now form s in
  let l := length (heap s) in
  heap s' = heap s ++ [newAccount now form]
  /\ Account.signatures (newAccount now form) = []
  /\ Account.authHistory (newAccount now form) = []
  /\ JsMap.get u (users s') = Some l
  /\ directoryAccount u s' = Some (newAccount now form)
  /\ findByEmail e s' = Some l
  /\ currentUser s' = Some l
  /\ currentAccount s' = Some (newAccount now form)
  /\ isAuthenticated s' = true.
Proof.
  intros u e Hlen Hre Hee Hpw Hcf Hu He s' l.
  assert (Hv : fst (usernameVerdict u s) && fst (emailVerdict e s)
               && fst (passwordVerdict (form_password form))
               && fst (confirmVerdict (form_confirmPassword form) (form_password form)) = true).
  { unfold usernameVerdict, emailVerdict, passwordVerdict, confirmVerdict.
    rewrite Hre, Hee, Hu, He, Hcf, String.eqb_refl.
    destruct (Nat.ltb_spec (String.length u) 3); [lia|].
    destruct (Nat.ltb_spec (String.length (form_password form)) 8); [lia|]. reflexivity. }
  assert (Hs' : s' = emit (SetTimeout 1500 "enrollment")
            (updateAuthStatus
               (set_isAuthenticated true
                  (set_currentUser (Some l)
                     (showNotification "Registration successful! Please complete enrollment."
                        "success"
                        (saveUserData
                           (set_users (JsMap.set u l (users s))
                              (set_heap (heap s ++ [newAccount now form])
                                 (snd (validateRegistrationForm form u e (form_password form)
                                         (form_confirmPassword form) s)))))))))).
  { subst s'. rewrite handleRegistration_cases. fold u e. now rewrite Hv. }
  rewrite validateRegistrationForm_submitted in Hs'. fold u e in Hs'. cbn [snd] in Hs'.
  assert (Hheap : heap s' = heap s ++ [newAccount now form]) by (now rewrite Hs').
  assert (Husers : users s' = JsMap.set u l (users s)) by (now rewrite Hs').
  assert (Hcu : currentUser s' = Some l) by (now rewrite Hs').
  assert (Hauth : isAuthenticated s' = true) by (now rewrite Hs').
  clearbody s'. clear Hs'.
  assert (Hlook : (heap s ++ [newAccount now form]) !! l = Some (newAccount now form))
    by (apply list_lookup_middle; reflexivity).
  split; [exact Hheap|]. split; [reflexivity|]. split; [reflexivity|].
  split; [rewrite Husers; apply JsMap_get_set_eq|].
  split.
  { unfold directoryAccount. now rewrite Husers, JsMap_get_set_eq, Hheap. }
  split.
  { unfold findByEmail. rewrite Husers, Hheap, (JsMap_set_fresh _ _ _ Hu).
    unfold JsMap.values. rewrite map_app. cbn [map snd].
    apply (findByEmail_new (heap s) (newAccount now form)). exact He. }
  split; [exact Hcu|]. split; [|exact Hauth].
  unfold currentAccount. now rewrite Hcu, Hheap.
Qed.

Lemma registration_creates_account_witness :
  let s' := handleRegistration 1000 aliceForm (after []) in
  directoryAccount "alice" s' = Some (newAccount 1000 aliceForm)
  /\ findByEmail "alice@example.org" s' = Some 0%nat
  /\ currentUser s' = Some 0%nat.
Proof.
  pose proof (registration_creates_account 1000 aliceForm (after [])) as H.
  cbv zeta in H.
  assert (H3 : (3 <= String.length (JsString.trim (form_username aliceForm)))%nat)
    by (vm_compute; lia).
  assert (H8 : (8 <= String.length (form_password aliceForm))%nat) by (vm_compute; lia).
  specialize (H H3 eq_refl eq_refl H8 eq_refl eq_refl eq_refl)
    as (_ & _ & _ & _ & E5 & E6 & E7 & _).
  cbv zeta. repeat split; assumption.
Defined.

(** C6: a registration whose username or email is already in the
    directory is refused; nothing but messages is left, so that the
    directory, its accounts, the session and the storage are as before, and
    the message on the field names the conflict. *)
Theorem duplicate_registration_refused now form s :
  let u := JsString.trim (form_username form) in
  let e := JsString.trim (form_email form) in
  JsMap.has u (users s) = true \/ emailTaken e s = true ->
  exists log,
    handleRegistration now form s = set_ui (ui s ++ log) s
    /\ sameData s (handleRegistration now form s)
    /\ (JsMap.has u (users s) = true -> (3 <= String.length u)%nat ->
        Regex.test usernameRegex u = true ->
        In (FieldError "reg-username" false "Username already exists") log)
    /\ (emailTaken e s = true -> Regex.test emailRegex e = true ->
        In (FieldError "reg-email" false "Email already registered") log)
    /\ ~ In (Notify "Registration successful! Please complete enrollment." "success") log.
Proof.
  intros u e Hdup.
  assert (Hv : fst (usernameVerdict u s) && fst (emailVerdict e s)
               && fst (passwordVerdict (form_password form))
               && fst (confirmVerdict (form_confirmPassword form) (form_password form)) = false).
  { destruct Hdup as [H|H].
    - now rewrite (usernameVerdict_taken _ _ H).
    - rewrite (emailVerdict_taken _ _ H). now rewrite andb_false_r. }
  rewrite handleRegistration_cases. fold u e. rewrite Hv.
  rewrite validateRegistrationForm_submitted. fold u e. cbn [snd].
  eexists. split; [reflexivity|]. split; [now unfold sameData|]. split; [|split].
  - intros Hu Hlen Hre. left. unfold usernameVerdict. rewrite Hu, Hre.
    destruct (Nat.ltb_spec (String.length u) 3); [lia|]. reflexivity.
  - intros He Hre. right. left. unfold emailVerdict. now rewrite He, Hre.
  - cbn [In]. intros [H|[H|[H|[H|[]]]]]; discriminate H.
Qed.

Lemma duplicate_registration_refused_witness :
  exists log,
    handleRegistration 2000 aliceForm (after [Register 1000 aliceForm])
    = set_ui (ui (after [Register 1000 aliceForm]) ++ log) (after [Register 1000 aliceForm])
    /\ In (FieldError "reg-username" false "Username already exists") log.
Proof.
  pose proof (duplicate_registration_refused 2000 aliceForm (after [Register 1000 aliceForm])) as H.
  cbv zeta in H.
  assert (Hu : JsMap.has (JsString.trim (form_username aliceForm))
                 (users (after [Register 1000 aliceForm])) = true) by (vm_compute; reflexivity).
  assert (H3 : (3 <= String.length (JsString.trim (form_username aliceForm)))%nat)
    by (vm_compute; lia).
  destruct (H (or_introl Hu)) as (log & E1 & _ & E3 & _).
  exists log. split; [exact E1|]. apply E3; [exact Hu | exact H3 | vm_compute; reflexivity].
Defined.

(** ** Login *)

Lemma handleLogin_rejected now formUsername password s :
  loginRejected (JsString.trim formUsername) password s ->
  handleLogin now formUsername password s = loginFailed now s.
Proof.
  intros H. unfold handleLogin.
  destruct (findUser _ s) as [l|] eqn:El; [|reflexivity].
  destruct (heap s !! l) as [a|] eqn:Ea; [|reflexivity].
  specialize (H l a El Ea).
  destruct (String.eqb_spec (Account.password a) password); [contradiction | reflexivity].
Qed.

(** C3, on the code: a login for alice with a wrong password is refused,
    and the entry that [handleLogin] writes for the failure does not reach
    the account of alice.  With no session on the page the entry is dropped:
    no history changes, in the page or in the storage.  With bob as the
    session the entry is pushed on the history of bob, and saved there. *)
Theorem failed_login_misfiled :
  (let s := after aliceLeft in
   let s' := handleLogin 5000 "alice" "wrong password" s in
   currentUser s = None
   /\ historyOf "alice" s = Some []
   /\ ~ failedLoginRecorded 5000 "alice" "wrong password" s
   /\ ui s' = ui s ++ [Notify "Invalid username/email or password!" "error"]
   /\ currentUser s' = None /\ isAuthenticated s' = false
   /\ heap s' = heap s /\ localStorage s' = localStorage s
   /\ historyOf "alice" s' = Some [])
  /\ (let s := after bobArrives in
      let s' := handleLogin 5000 "alice" "wrong password" s in
      Account.username <$> currentAccount s = Some "bob"
      /\ historyOf "alice" s = Some [] /\ historyOf "bob" s = Some []
      /\ ~ failedLoginRecorded 5000 "alice" "wrong password" s
      /\ ui s' = ui s ++ [Notify "Invalid username/email or password!" "error"]
      /\ Account.username <$> currentAccount s' = Some "bob"
      /\ historyOf "alice" s' = Some []
      /\ historyOf "bob" s' = Some [failedLoginEntry 5000]
      /\ storedHistoryOf "alice" s' = Some []
      /\ storedHistoryOf "bob" s' = Some [failedLoginEntry 5000]).
Proof.
  split; cbv zeta.
  - split; [vm_compute; reflexivity|]. split; [vm_compute; reflexivity|].
    split.
    { intros (l & a & e & Hf & Ha & Ha' & _).
      vm_compute in Hf. injection Hf as <-.
      vm_compute in Ha. injection Ha as <-.
      vm_compute in Ha'. discriminate Ha'. }
    repeat split; vm_compute; reflexivity.
  - split; [vm_compute; reflexivity|]. split; [vm_compute; reflexivity|].
    split; [vm_compute; reflexivity|].
    split.
    { intros (l & a & e & Hf & Ha & Ha' & _).
      vm_compute in Hf. injection Hf as <-.
      vm_compute in Ha. injection Ha as <-.
      vm_compute in Ha'. discriminate Ha'. }
    repeat split; vm_compute; reflexivity.
Qed.

(** What a refused login does in general: the session and the directory
    stay as they were, and [addAuthHistory] files the failed entry on the
    account of the session of that moment, whoever the login named; with no
    session it writes nothing. *)
Lemma refused_login_keeps_session now formUsername password s :
  loginRejected (JsString.trim formUsername) password s ->
  let s' := handleLogin now formUsername password s in
  currentUser s' = currentUser s
  /\ isAuthenticated s' = isAuthenticated s
  /\ users s' = users s
  /\ ui s' = ui s ++ [Notify "Invalid username/email or password!" "error"]
  /\ match currentUser s with
     | Some c => heap s' = alter (Account.push_authHistory (failedLoginEntry now)) c (heap s)
     | None => heap s' = heap s /\ localStorage s' = localStorage s
     end.
Proof.
  intros H s'. subst s'. rewrite (handleLogin_rejected _ _ _ _ H).
  unfold loginFailed.
  set (s1 := showNotification "Invalid username/email or password!" "error" s).
  destruct (currentUser s) as [c|] eqn:Ec.
  - destruct (addAuthHistory_session now "Password Login" false "Invalid credentials" s1 c Ec)
      as (E1 & E2 & E3 & E4 & E5).
    rewrite E1, E2, E3, E4, E5. repeat split; reflexivity.
  - rewrite (addAuthHistory_no_session _ _ _ _ s1 Ec). repeat split; try reflexivity. exact Ec.
Qed.

Lemma refused_login_keeps_session_witness :
  let s := after [Register 1000 aliceForm; Logout] in
  let s' := handleLogin 5000 "alice" "wrong password" s in
  currentUser s' = None /\ isAuthenticated s' = false /\ heap s' = heap s.
Proof.
  assert (H : loginRejected (JsString.trim "alice") "wrong password"
                (after [Register 1000 aliceForm; Logout])).
  { intros l a Hf Ha. vm_compute in Hf. injection Hf as <-.
    vm_compute in Ha. injection Ha as <-. vm_compute. discriminate. }
  destruct (refused_login_keeps_session 5000 "alice" "wrong password" _ H)
    as (E1 & E2 & _ & _ & E5).
  cbv zeta. rewrite E1, E2. split; [reflexivity|]. split; [reflexivity|].
  exact (proj1 E5).
Defined.

(** ** Saving and loading *)

(** C8, on the code: the state written by [saveUserData] and read back by
    a new page is not the state that was saved.  Before, the session refers
    to the object that the directory holds and the signature carries its
    [Blob]; after, the session is a copy of its own and the payload is an
    empty object.  A signature saved next reaches the directory in the first
    state and only the copy in the second. *)
Theorem reload_detaches_session :
  sessionShared (after aliceSavesOne)
  /\ firstBlob (currentAccount (after aliceSavesOne)) = Some (Blob [2048%nat])
  /\ exists r,
       reloaded (after aliceSavesOne) = Some r
       /\ ~ sessionShared r
       /\ JsMap.get "alice" (users r) = Some 0%nat
       /\ currentUser r = Some 1%nat
       /\ firstBlob (currentAccount r) = Some EmptyObject
       /\ (exists s', run (recordAndSave 3000 "blob:2") (after aliceSavesOne) = Some s'
                      /\ signatureTotal (directoryAccount "alice" s') = Some 2%nat
                      /\ signatureTotal (currentAccount s') = Some 2%nat)
       /\ (exists r', run (StartCamera "enrollment" StreamGranted :: recordAndSave 3000 "blob:2") r
                      = Some r'
                      /\ signatureTotal (directoryAccount "alice" r') = Some 1%nat
                      /\ signatureTotal (currentAccount r') = Some 2%nat).
Proof.
  split.
  { exists 0%nat. eexists. vm_compute. repeat split; reflexivity. }
  split; [vm_compute; reflexivity|].
  eexists. split; [vm_compute; reflexivity|].
  split.
  { intros (l & a & Hl & Ha & Hg). vm_compute in Hl. injection Hl as <-.
    vm_compute in Ha. injection Ha as <-. vm_compute in Hg. discriminate Hg. }
  split; [vm_compute; reflexivity|]. split; [vm_compute; reflexivity|].
  split; [vm_compute; reflexivity|].
  split; eexists; (split; [vm_compute; reflexivity|]); split; vm_compute; reflexivity.
Qed.

(** * Further properties of the handlers *)

(** ** What each primitive does to the accounts and to the storage *)

Lemma installUsers_heap es : forall s, heap (installUsers es s) = heap s ++ map snd es.
Proof.
  induction es as [|[k a] es IH]; intros s; cbn [installUsers map].
  - now rewrite app_nil_r.
  - unfold alloc. rewrite IH. cbn [heap set_users set_heap snd]. now rewrite <- app_assoc.
Qed.

Lemma installUsers_localStorage es : forall s, localStorage (installUsers es s) = localStorage s.
Proof.
  induction es as [|[k a] es IH]; intros s; cbn [installUsers]; [reflexivity|].
  unfold alloc. now rewrite IH.
Qed.

Lemma loadUserData_localStorage s : localStorage (loadUserData s) = localStorage s.
Proof.
  unfold loadUserData, loadFailed, alloc.
  destruct (airauth_users (localStorage s)) as [| | |es];
    destruct (airauth_current_user (localStorage s)) as [| | |a];
    destruct (airauth_authenticated (localStorage s)) as [flag|];
    try destruct (String.eqb flag "true");
    cbn [localStorage set_isAuthenticated set_currentUser set_users set_heap];
    rewrite ?installUsers_localStorage; reflexivity.
Qed.

(** Whatever the storage holds, loading only adds objects read from it. *)
Lemma loadUserData_heap s :
  exists added, heap (loadUserData s) = heap s ++ added
                /\ incl added (storedAccounts (localStorage s)).
Proof.
  unfold loadUserData, loadFailed, alloc, storedAccounts.
  destruct (airauth_users (localStorage s)) as [| | |es];
    destruct (airauth_current_user (localStorage s)) as [| | |a];
    destruct (airauth_authenticated (localStorage s)) as [flag|];
    try destruct (String.eqb flag "true");
    cbn [heap set_isAuthenticated set_currentUser set_users set_heap];
    rewrite ?installUsers_heap; cbn [heap set_users];
    try (exists []; split; [now rewrite app_nil_r | intros x []]).
  all: try (exists (map snd es); split; [reflexivity | apply incl_appl, incl_refl]).
  all: try (exists [a]; split; [reflexivity | apply incl_appr, incl_refl]).
  all: exists (map snd es ++ [a]); split; [now rewrite app_assoc | apply incl_refl].
Qed.

Lemma usersArray_accounts s x :
  In x (map snd (usersArray s)) -> exists a, In a (heap s) /\ x = jsonAccount a.
Proof.
  unfold usersArray, JsMap.entries. induction (users s) as [|[k l] m IH]; cbn; [intros []|].
  destruct (heap s !! l) as [a|] eqn:Ea; cbn; [|exact IH].
  intros [<-|H]; [|now apply IH].
  exists a. split; [|reflexivity]. apply list_elem_of_In. now apply list_elem_of_lookup_2 in Ea.
Qed.

Lemma saveUserData_stored s x :
  In x (storedAccounts (localStorage (saveUserData s))) ->
  exists a, In a (heap s) /\ x = jsonAccount a.
Proof.
  unfold saveUserData, storedAccounts. cbn [localStorage set_localStorage].
  assert (Hcur : forall a, currentAccount s = Some a -> In a (heap s)).
  { unfold currentAccount. destruct (currentUser s) as [l|]; [|discriminate].
    intros a Ha. apply list_elem_of_In. now apply list_elem_of_lookup_2 in Ha. }
  destruct (currentAccount s) as [a|]; [destruct (isAuthenticated s)|];
    cbn [airauth_users airauth_current_user]; rewrite in_app_iff; cbn [In].
  - intros [H|[<-|[]]]; [now apply usersArray_accounts | eauto].
  - intros [H|[]]. now apply usersArray_accounts.
  - intros [H|[]]. now apply usersArray_accounts.
Qed.

(** ** Invariants that every handler keeps

    [P] is a property of the account objects and [Q] one of the stored
    accounts, closed under what the handlers do to an account and under the
    copy that [saveUserData] writes. *)
Section Invariant.
Variables P Q : Account.t -> Prop.
Hypothesis P_history : forall e a, P a -> P (Account.push_authHistory e a).
Hypothesis P_login : forall t a, P a -> P (Account.set_lastLogin t a).
Hypothesis P_save : forall sg a, P a -> P (withSignature sg a).
Hypothesis P_new : forall now form, P (newAccount now form).
Hypothesis Q_store : forall a, P a -> Q (jsonAccount a).
Hypothesis Q_store_pushed : forall sg a, P a -> Q (jsonAccount (Account.push_signature sg a)).

Lemma holdsOf_same s s' :
  heap s' = heap s -> localStorage s' = localStorage s -> holdsOf P Q s -> holdsOf P Q s'.
Proof. unfold holdsOf. now intros -> ->. Qed.

Lemma holdsOf_sameData s s' : sameData s s' -> holdsOf P Q s -> holdsOf P Q s'.
Proof. intros (H1 & _ & _ & _ & H2). now apply holdsOf_same. Qed.

Lemma holdsOf_saveUserData s : holdsOf P Q s -> holdsOf P Q (saveUserData s).
Proof.
  intros [HP HQ]. split; [exact HP|].
  apply List.Forall_forall. intros x Hx. apply saveUserData_stored in Hx as (a & Ha & ->).
  apply Q_store. rewrite List.Forall_forall in HP. now apply HP.
Qed.

Lemma holdsOf_update l f s :
  (forall a, P a -> P (f a)) -> holdsOf P Q s -> holdsOf P Q (update l f s).
Proof.
  intros Hf [HP HQ]. split; [|exact HQ].
  unfold update. cbn [heap set_heap]. apply Forall_alter; [exact HP|]. intros a _. apply Hf.
Qed.

Lemma holdsOf_addAuthHistory now method success details s :
  holdsOf P Q s -> holdsOf P Q (addAuthHistory now method success details s).
Proof.
  intros H. unfold addAuthHistory. destruct (currentUser s); [|exact H].
  apply holdsOf_saveUserData, holdsOf_update; [apply P_history | exact H].
Qed.

Lemma holdsOf_showPage d p s s' : showPage d p s = Some s' -> holdsOf P Q s -> holdsOf P Q s'.
Proof. intros H. apply holdsOf_sameData. exact (showPage_sameData d p s s' H). Qed.

Lemma holdsOf_handleRegistration now form s :
  holdsOf P Q s -> holdsOf P Q (handleRegistration now form s).
Proof.
  intros H. rewrite handleRegistration_cases. cbv zeta.
  rewrite validateRegistrationForm_submitted. cbn [snd].
  match goal with |- context [if ?b then _ else _] => destruct b end.
  - set (s1 := set_users _ _).
    assert (H1 : holdsOf P Q s1).
    { destruct H as [HP HQ]. split; [|exact HQ]. subst s1. cbn [heap set_users set_heap].
      apply Forall_app. split; [exact HP|]. constructor; [apply P_new | constructor]. }
    apply holdsOf_saveUserData in H1. revert H1. apply holdsOf_same; reflexivity.
  - revert H. apply holdsOf_same; reflexivity.
Qed.

Lemma holdsOf_handleLogin now u p s : holdsOf P Q s -> holdsOf P Q (handleLogin now u p s).
Proof.
  intros H.
  assert (Hfail : holdsOf P Q (loginFailed now s)).
  { unfold loginFailed. apply holdsOf_addAuthHistory. revert H. apply holdsOf_same; reflexivity. }
  unfold handleLogin. destruct (findUser _ s) as [l|]; [|exact Hfail].
  destruct (heap s !! l) as [a|]; [|exact Hfail].
  destruct (negb _); [exact Hfail|].
  set (s1 := set_isAuthenticated true (set_currentUser (Some l) s)).
  assert (H1 : holdsOf P Q s1) by (revert H; apply holdsOf_same; reflexivity).
  apply (holdsOf_update l (Account.set_lastLogin now)) in H1; [|apply P_login].
  set (s2 := update l (Account.set_lastLogin now) s1) in *.
  assert (H2 : holdsOf P Q (updateAuthStatus s2)) by (revert H1; apply holdsOf_same; reflexivity).
  apply holdsOf_saveUserData in H2.
  apply (holdsOf_addAuthHistory now "Password Login" true "Successful login") in H2.
  revert H2. apply holdsOf_same; reflexivity.
Qed.

Lemma holdsOf_saveSignature now url s : holdsOf P Q s -> holdsOf P Q (saveSignature now url s).
Proof.
  intros H. destruct (recordedChunks s) as [|c cs] eqn:Ec.
  { unfold saveSignature. rewrite Ec. revert H. apply holdsOf_same; reflexivity. }
  destruct (currentUser s) as [l|] eqn:El.
  2:{ unfold saveSignature. rewrite Ec, El. revert H. apply holdsOf_same; reflexivity. }
  split.
  - rewrite (saveSignature_heap _ _ _ l El) by (rewrite Ec; discriminate).
    apply Forall_alter; [apply H|]. intros a _. apply P_save.
  - assert (Hls : localStorage (saveSignature now url s)
                  = localStorage (saveUserData
                                    (update l (Account.push_signature (newSignature now url s)) s))).
    { unfold saveSignature. rewrite Ec, El.
      match goal with |- context [if ?b then _ else _] => destruct b end; reflexivity. }
    rewrite Hls. apply List.Forall_forall. intros x Hx.
    apply saveUserData_stored in Hx as (a & Ha & ->).
    unfold update in Ha. cbn [heap set_heap] in Ha.
    apply list_elem_of_In, list_elem_of_lookup in Ha as [i Hi].
    destruct H as [HP _]. rewrite List.Forall_forall in HP.
    destruct (decide (l = i)) as [->|Hne].
    + rewrite list_lookup_alter_eq in Hi. destruct (heap s !! i) as [b|] eqn:Eb; [|discriminate].
      injection Hi as <-. apply Q_store_pushed, HP.
      apply list_elem_of_In. now apply list_elem_of_lookup_2 in Eb.
    + rewrite list_lookup_alter_ne in Hi by exact Hne.
      apply Q_store, HP. apply list_elem_of_In. now apply list_elem_of_lookup_2 in Hi.
Qed.

Lemma holdsOf_stopCamera s : holdsOf P Q s -> holdsOf P Q (stopCamera s).
Proof. apply holdsOf_sameData, sameData_stopCamera. Qed.

Lemma holdsOf_logout s s' : logout s = Some s' -> holdsOf P Q s -> holdsOf P Q s'.
Proof.
  unfold logout. intros Hs H. apply holdsOf_stopCamera in H.
  apply (holdsOf_showPage _ _ _ _ Hs).
  destruct H as [HP HQ]. split; [exact HP|].
  cbn [localStorage showNotification emit set_ui set_localStorage].
  unfold storedAccounts in *. cbn [airauth_users airauth_current_user].
  rewrite app_nil_r. apply Forall_app in HQ. apply HQ.
Qed.

Lemma holdsOf_finishEnrollment s : holdsOf P Q s -> holdsOf P Q (finishEnrollment s).
Proof.
  intros H. unfold finishEnrollment.
  destruct (currentAccount s) as [a|]; [destruct (Account.enrollmentComplete a)|];
    try (revert H; apply holdsOf_same; reflexivity).
  apply holdsOf_stopCamera, holdsOf_saveUserData in H.
  revert H. apply holdsOf_same; reflexivity.
Qed.

Lemma holdsOf_authenticateGesture s s' :
  authenticateGesture s = Some s' -> holdsOf P Q s -> holdsOf P Q s'.
Proof.
  unfold authenticateGesture. intros Hs H.
  assert (Hredirect : forall t, showPage redirectDepth "enrollment"
              (showNotification "Please complete enrollment first!" "error" s) = Some t ->
            holdsOf P Q t).
  { intros t Ht. apply (holdsOf_showPage _ _ _ _ Ht). revert H. apply holdsOf_same; reflexivity. }
  destruct (currentAccount s) as [a|]; [|now apply Hredirect].
  destruct (Account.enrollmentComplete a); [|now apply Hredirect].
  destruct (negb (webcamStream s)); injection Hs as <-;
    revert H; apply holdsOf_same; reflexivity.
Qed.

Lemma holdsOf_delayElapsed random now s : holdsOf P Q s -> holdsOf P Q (delayElapsed random now s).
Proof.
  intros H. unfold delayElapsed. destruct (pendingAttempts s) as [|n]; [exact H|].
  assert (H1 : holdsOf P Q (set_pendingAttempts n s)) by (revert H; apply holdsOf_same; reflexivity).
  unfold authenticateGestureResumed, simulateGestureRecognition.
  destruct (gestureOutcome random) as [ok c].
  destruct ok; [destruct (currentAccount (set_pendingAttempts n s))|].
  - eapply holdsOf_same; [reflexivity | reflexivity |].
    apply holdsOf_addAuthHistory. revert H1. apply holdsOf_same; reflexivity.
  - apply holdsOf_addAuthHistory. revert H1. apply holdsOf_same; reflexivity.
  - eapply holdsOf_same; [reflexivity | reflexivity |].
    apply holdsOf_addAuthHistory. revert H1. apply holdsOf_same; reflexivity.
Qed.

(** Every handler keeps the pair of properties; only a reload, which reads
    the accounts back from the storage, needs more. *)
Lemma holdsOf_step e s s' :
  isReload e = false -> step e s = Some s' -> holdsOf P Q s -> holdsOf P Q s'.
Proof.
  destruct e; cbn [isReload step]; intros Hr Hs H; try discriminate Hr;
    try (injection Hs as <-).
  - now apply holdsOf_handleRegistration.
  - now apply holdsOf_handleLogin.
  - now apply (holdsOf_logout s).
  - now apply (holdsOf_showPage _ _ _ _ Hs).
  - unfold handleAirAuth in Hs.
    destruct (currentAccount s) as [a|]; [destruct (Account.enrollmentComplete a)|];
      apply (holdsOf_showPage _ _ _ _ Hs); revert H; apply holdsOf_same; reflexivity.
  - revert H. unfold startCamera. destruct answer; apply holdsOf_same; reflexivity.
  - revert H. unfold startRecording.
    destruct (negb (webcamStream s)); [|destruct answer]; apply holdsOf_same; reflexivity.
  - revert H. unfold onDataAvailable. destruct (0 <? data)%nat; apply holdsOf_same; reflexivity.
  - revert H. unfold stopRecording.
    destruct (mediaRecorder s && isRecording s); apply holdsOf_same; reflexivity.
  - now apply holdsOf_saveSignature.
  - now apply holdsOf_finishEnrollment.
  - now apply (holdsOf_authenticateGesture s).
  - now apply holdsOf_delayElapsed.
Qed.

Lemma holdsOf_boot ls hash s' :
  (forall a, Q a -> P a) ->
  boot ls hash = Some s' -> Forall Q (storedAccounts ls) -> holdsOf P Q s'.
Proof.
  intros HQP Hs HQ. unfold boot, init in Hs.
  set (s0 := loadUserData (constructed ls hash)) in Hs.
  assert (H0 : holdsOf P Q s0).
  { subst s0. split.
    - destruct (loadUserData_heap (constructed ls hash)) as (added & -> & Hincl).
      cbn [heap constructed app]. apply List.Forall_forall. intros x Hx.
      apply HQP. rewrite List.Forall_forall in HQ. apply HQ. now apply Hincl.
    - now rewrite loadUserData_localStorage. }
  assert (H1 : holdsOf P Q (checkAuthStatus s0)).
  { unfold checkAuthStatus. destruct (airauth_authenticated (localStorage s0)) as [flag|];
      [destruct (currentUser s0); [destruct (String.eqb flag "true")|]|];
      try exact H0; revert H0; apply holdsOf_same; reflexivity. }
  destruct (showPage redirectDepth "home" (checkAuthStatus s0)) as [s1|] eqn:E1; [|discriminate].
  apply (holdsOf_showPage _ _ _ _ E1) in H1.
  assert (H2 : holdsOf P Q (showNotification
              "Welcome to AirAuth! Your secure gesture authentication system." "info" s1))
    by (revert H1; apply holdsOf_same; reflexivity).
  cbv zeta in Hs.
  destruct (String.eqb _ ""); injection Hs as <-; [exact H2|].
  revert H2. apply holdsOf_same; reflexivity.
Qed.

Lemma holdsOf_step_any e s s' :
  (forall a, Q a -> P a) -> step e s = Some s' -> holdsOf P Q s -> holdsOf P Q s'.
Proof.
  intros HQP Hs H. destruct (isReload e) eqn:Er; [|now apply (holdsOf_step e s)].
  destruct e; try discriminate Er. cbn [step] in Hs.
  apply (holdsOf_boot _ _ _ HQP Hs), H.
Qed.
End Invariant.

Lemma run_app es1 es2 s :
  run (es1 ++ es2) s = match run es1 s with Some s' => run es2 s' | None => None end.
Proof.
  revert s. induction es1 as [|e es1 IH]; intros s; cbn [run app]; [reflexivity|].
  destruct (step e s); [apply IH | reflexivity].
Qed.

Lemma flagSound_withSignature sg a : flagSound a -> flagSound (withSignature sg a).
Proof.
  unfold flagSound. rewrite withSignature_flag, withSignature_signatures, length_app.
  cbn [length]. intros H E. apply orb_prop in E as [E|E]; [apply H in E; lia|].
  apply Nat.leb_le in E. lia.
Qed.

Lemma flagSound_json a : flagSound a -> flagSound (jsonAccount a).
Proof. unfold flagSound. cbn. now rewrite length_map. Qed.

(** Within one page, that is along any events but a reload, every account
    object keeps the invariant of the data model: the flag is set if and
    only if the account holds at least five signatures. *)
Theorem enrollment_invariant_within_page es s s' :
  forallb (fun e => negb (isReload e)) es = true ->
  run es s = Some s' ->
  Forall enrollmentConsistent (heap s) -> Forall enrollmentConsistent (heap s').
Proof.
  revert s. induction es as [|e es IH]; intros s Hes Hrun H; cbn [run forallb] in *.
  - now injection Hrun as <-.
  - apply andb_prop in Hes as [He Hes]. apply negb_true_iff in He.
    destruct (step e s) as [s1|] eqn:E1; [|discriminate].
    apply (IH s1 Hes Hrun).
    refine (proj1 (holdsOf_step enrollmentConsistent (fun _ => True) _ _ _ _ _ _ e s s1 He E1 _)).
    + now unfold enrollmentConsistent.
    + now unfold enrollmentConsistent.
    + apply withSignature_consistent.
    + intros now form. unfold enrollmentConsistent. cbn. split; [discriminate | lia].
    + trivial.
    + trivial.
    + split; [exact H|]. apply List.Forall_forall. trivial.
Qed.

Lemma enrollment_invariant_within_page_witness :
  Forall enrollmentConsistent (heap (after aliceRecordsAgain)).
Proof.
  assert (Hrun : run aliceRecordsAgain (after []) = Some (after aliceRecordsAgain))
    by (vm_compute; reflexivity).
  apply (enrollment_invariant_within_page aliceRecordsAgain (after []) _ eq_refl Hrun).
  vm_compute. constructor.
Defined.

(** Across reloads as well, in the page and in the storage, the flag is
    never found on an account with fewer than five signatures, whatever the
    events since the first load on an empty storage. *)
Theorem flag_needs_five_signatures es hash s0 s :
  boot emptyStorage hash = Some s0 ->
  run es s0 = Some s ->
  Forall flagSound (heap s) /\ Forall flagSound (storedAccounts (localStorage s)).
Proof.
  intros Hboot Hrun.
  assert (C1 : forall e a, flagSound a -> flagSound (Account.push_authHistory e a))
    by (intros e a; now unfold flagSound).
  assert (C2 : forall t a, flagSound a -> flagSound (Account.set_lastLogin t a))
    by (intros t a; now unfold flagSound).
  assert (C3 : forall now form, flagSound (newAccount now form))
    by (intros now form; unfold flagSound; cbn; discriminate).
  assert (C4 : forall sg a, flagSound a -> flagSound (jsonAccount (Account.push_signature sg a))).
  { intros sg a Ha. apply flagSound_json. unfold flagSound in *. cbn.
    rewrite length_app. intros E. apply Ha in E. lia. }
  assert (Hstep : forall e t t', step e t = Some t' -> everywhere flagSound t ->
                                 everywhere flagSound t').
  { intros e t t'.
    apply (holdsOf_step_any flagSound flagSound C1 C2 flagSound_withSignature C3
             flagSound_json C4 e t t'). auto. }
  assert (H0 : everywhere flagSound s0).
  { apply (holdsOf_boot flagSound flagSound emptyStorage hash s0);
      [auto | exact Hboot | constructor]. }
  clear Hboot. revert s0 Hrun H0. induction es as [|e es IH]; intros s0 Hrun H0; cbn [run] in Hrun.
  - injection Hrun as <-. exact H0.
  - destruct (step e s0) as [s1|] eqn:E1; [|discriminate]. eauto.
Qed.

Lemma flag_needs_five_signatures_witness :
  Forall flagSound (heap (after aliceReloadsAndRecords)).
Proof.
  assert (Hboot : boot emptyStorage "" = Some (after [])) by (vm_compute; reflexivity).
  assert (Hrun : run aliceReloadsAndRecords (after []) = Some (after aliceReloadsAndRecords))
    by (vm_compute; reflexivity).
  exact (proj1 (flag_needs_five_signatures _ _ _ _ Hboot Hrun)).
Defined.

(** ** Saving and loading, as values *)

Lemma JsMap_has_app {V} (k : string) (m1 m2 : JsMap.t V) :
  JsMap.has k (m1 ++ m2) = JsMap.has k m1 || JsMap.has k m2.
Proof.
  unfold JsMap.has. induction m1 as [|[k' v'] m1 IH]; cbn; [reflexivity|].
  destruct (String.eqb k k'); [reflexivity | exact IH].
Qed.

Lemma JsMap_has_keys {V} (k : string) (m : JsMap.t V) :
  JsMap.has k m = false <-> ~ In k (map fst m).
Proof.
  unfold JsMap.has. induction m as [|[k' v'] m IH]; cbn; [tauto|].
  destruct (String.eqb_spec k k') as [->|Hne].
  - split; [discriminate | intros H; exfalso; apply H; now left].
  - rewrite IH. split; [intros H [E|E]; [congruence | contradiction] | tauto].
Qed.

(** [new Map(entries)] on entries with distinct keys, none of them in the
    map yet: the entries are appended in order, each with a new object. *)
Lemma installUsers_view es : forall s (extra : list Account.t),
  NoDup (map fst es) ->
  (forall k, In k (map fst es) -> JsMap.has k (users s) = false) ->
  map (fun e => (fst e, (heap (installUsers es s) ++ extra) !! snd e)) (users (installUsers es s))
  = map (fun e => (fst e, (heap (installUsers es s) ++ extra) !! snd e)) (users s)
    ++ map (fun e => (fst e, Some (snd e))) es.
Proof.
  induction es as [|[k a] es IH]; intros s extra Hnd Hfresh; cbn [installUsers map].
  - now rewrite app_nil_r.
  - unfold alloc. cbn [map fst] in Hnd, Hfresh. apply NoDup_cons in Hnd as [Hk Hnd].
    set (s1 := set_users _ _).
    assert (Hu1 : users s1 = users s ++ [(k, length (heap s))]).
    { subst s1. cbn [users set_users set_heap]. apply JsMap_set_fresh. apply Hfresh. now left. }
    rewrite IH; [|exact Hnd|].
    + rewrite Hu1, map_app, <- app_assoc. f_equal. cbn [map app fst snd]. f_equal. f_equal.
      rewrite installUsers_heap. subst s1. cbn [heap set_users set_heap].
      rewrite <- !app_assoc. cbn [app]. now rewrite list_lookup_middle.
    + intros k' Hk'. rewrite Hu1, JsMap_has_app, (Hfresh k') by now right.
      cbn [orb]. apply JsMap_has_keys. cbn. intros [->|[]].
      apply Hk. now apply list_elem_of_In.
Qed.

Lemma usersArray_view s :
  (forall k l, In (k, l) (users s) -> is_Some (heap s !! l)) ->
  map (fun e => (fst e, Some (snd e))) (usersArray s) = jsonDirectoryView s
  /\ map fst (usersArray s) = map fst (users s).
Proof.
  unfold usersArray, jsonDirectoryView, directoryView, JsMap.entries.
  induction (users s) as [|[k l] m IH]; intros Hwf; [easy|].
  destruct (Hwf k l) as [a Ha]; [now left|].
  destruct IH as [IH1 IH2]; [intros k' l' H; apply (Hwf k' l'); now right|].
  cbn [omap list_omap map fst snd]. rewrite Ha. cbn [fmap option_fmap option_map map fst snd].
  split; f_equal; assumption.
Qed.

Lemma boot_sameData ls hash r : boot ls hash = Some r -> sameData (loaded ls hash) r.
Proof.
  unfold boot, init. fold (loaded ls hash). set (s0 := loaded ls hash). intros H.
  assert (H1 : sameData s0 (checkAuthStatus s0)).
  { unfold checkAuthStatus. destruct (airauth_authenticated (localStorage s0)) as [flag|];
      [destruct (currentUser s0); [destruct (String.eqb flag "true")|]|];
      now unfold sameData. }
  destruct (showPage redirectDepth "home" (checkAuthStatus s0)) as [s1|] eqn:E1; [|discriminate].
  apply showPage_sameData in E1.
  assert (H2 : sameData s0 (showNotification
              "Welcome to AirAuth! Your secure gesture authentication system." "info" s1)).
  { eapply sameData_trans; [exact H1|]. eapply sameData_trans; [exact E1|]. apply sameData_emit. }
  cbv zeta in H.
  destruct (String.eqb _ ""); injection H as <-; [exact H2|].
  eapply sameData_trans; [exact H2 | apply sameData_emit].
Qed.

Lemma sameData_views s s' :
  sameData s s' -> directoryView s' = directoryView s /\ sessionView s' = sessionView s.
Proof.
  intros H. pose proof (sameData_currentAccount _ _ H) as Hc.
  destruct H as (Hh & Hu & _ & Ha & _).
  unfold directoryView, sessionView, JsMap.entries. now rewrite Hh, Hu, Hc, Ha.
Qed.

Lemma loaded_views s hash :
  directoryWellFormed s ->
  directoryView (loaded (localStorage (saveUserData s)) hash) = jsonDirectoryView s
  /\ sessionView (loaded (localStorage (saveUserData s)) hash) = jsonSessionView s.
Proof.
  intros [Hnd Hwf]. destruct (usersArray_view s Hwf) as [Hview Hkeys].
  unfold loaded, loadUserData.
  change (localStorage (constructed (localStorage (saveUserData s)) hash))
    with (localStorage (saveUserData s)).
  set (s0 := constructed (localStorage (saveUserData s)) hash).
  assert (Hls : localStorage (saveUserData s)
                = match currentAccount s with
                  | Some a => if isAuthenticated s
                              then mkStorage (Parsed (usersArray s)) (Parsed (jsonAccount a)) (Some "true")
                              else mkStorage (Parsed (usersArray s)) Missing None
                  | None => mkStorage (Parsed (usersArray s)) Missing None
                  end).
  { unfold saveUserData. cbn [localStorage set_localStorage].
    destruct (currentAccount s); [destruct (isAuthenticated s)|]; reflexivity. }
  set (s1 := installUsers (usersArray s) (set_users JsMap.empty s0)).
  assert (Hdir : forall extra,
             map (fun e => (fst e, (heap s1 ++ extra) !! snd e)) (users s1) = jsonDirectoryView s).
  { intros extra. subst s1. rewrite installUsers_view.
    - cbn [users set_users JsMap.empty map app]. exact Hview.
    - now rewrite Hkeys.
    - reflexivity. }
  unfold jsonSessionView. rewrite Hls.
  destruct (currentAccount s) as [a|]; [destruct (isAuthenticated s)|];
    cbn [airauth_users airauth_current_user airauth_authenticated String.eqb Ascii.eqb Bool.eqb];
    fold s1.
  - unfold alloc. split.
    + unfold directoryView, JsMap.entries.
      cbn [heap users set_isAuthenticated set_currentUser set_heap]. apply Hdir.
    + unfold sessionView, currentAccount.
      cbn [heap currentUser isAuthenticated set_isAuthenticated set_currentUser set_heap].
      now rewrite list_lookup_middle.
  - split.
    + unfold directoryView, JsMap.entries. specialize (Hdir []).
      now rewrite app_nil_r in Hdir.
    + unfold sessionView, currentAccount. subst s1 s0.
      assert (E1 : forall es t, currentUser (installUsers es t) = currentUser t
                                /\ isAuthenticated (installUsers es t) = isAuthenticated t).
      { induction es as [|[k b] es IH]; intros t; cbn [installUsers]; [easy|].
        unfold alloc. now rewrite !(proj1 (IH _)), !(proj2 (IH _)). }
      now rewrite (proj1 (E1 _ _)), (proj2 (E1 _ _)).
  - split.
    + unfold directoryView, JsMap.entries. specialize (Hdir []).
      now rewrite app_nil_r in Hdir.
    + unfold sessionView, currentAccount. subst s1 s0.
      assert (E1 : forall es t, currentUser (installUsers es t) = currentUser t
                                /\ isAuthenticated (installUsers es t) = isAuthenticated t).
      { induction es as [|[k b] es IH]; intros t; cbn [installUsers]; [easy|].
        unfold alloc. now rewrite !(proj1 (IH _)), !(proj2 (IH _)). }
      now rewrite (proj1 (E1 _ _)), (proj2 (E1 _ _)).
Qed.

(** What a reload does keep: read as values, the directory of the new page
    is the saved directory, entry by entry and in the same order, and the
    session is the saved session, each account as JSON writes it (the
    payloads of its signatures emptied); a session that was not
    authenticated is not restored. *)
Theorem save_then_reload_values s r :
  directoryWellFormed s ->
  reloaded s = Some r ->
  directoryView r = jsonDirectoryView s /\ sessionView r = jsonSessionView s.
Proof.
  intros Hwf Hr. unfold reloaded in Hr. apply boot_sameData, sameData_views in Hr as [H1 H2].
  destruct (loaded_views s (urlHash s) Hwf) as [H3 H4].
  split; congruence.
Qed.

Lemma save_then_reload_values_witness :
  exists r, reloaded (after aliceSavesOne) = Some r
            /\ directoryView r = jsonDirectoryView (after aliceSavesOne).
Proof.
  assert (Hwf : directoryWellFormed (after aliceSavesOne)).
  { split.
    - vm_compute. repeat constructor. intros H. inversion H.
    - intros k l. vm_compute. intros [H|[]]. injection H as <- <-. eexists. reflexivity. }
  assert (Hr : exists r, reloaded (after aliceSavesOne) = Some r)
    by (vm_compute; eexists; reflexivity).
  destruct Hr as [r Hr]. exists r. split; [exact Hr|].
  exact (proj1 (save_then_reload_values _ _ Hwf Hr)).
Defined.

(** ** Navigation *)

(** [showPage] always returns: the redirects between the dashboard and the
    login page cannot chase each other, one nested call is the most that
    is ever made, and no navigation touches the accounts, the directory, the
    session or the storage. *)
Theorem showPage_returns_and_keeps_data d p s :
  exists s', showPage (S (S d)) p s = Some s'
             /\ showPage redirectDepth p s = Some s'
             /\ sameData s s'.
Proof.
  destruct (showPage_total d p s) as [s' Hs']. exists s'.
  split; [exact Hs'|]. split; [now rewrite <- (showPage_depth d)|].
  exact (showPage_sameData _ _ _ _ Hs').
Qed.

(** The login page, asked for by an authenticated session, ends on the
    dashboard with its three entry actions done; the address then names the
    page that was asked for, not the one shown. *)
Theorem login_page_redirects_session d s a :
  currentAccount s = Some a -> isAuthenticated s = true ->
  exists s', showPage (S (S d)) "login" s = Some s'
    /\ currentPage s' = "dashboard"
    /\ urlHash s' = "login"
    /\ ui s' = ui s ++ [PageActive "login"; NavActive "login";
                        PageActive "dashboard"; NavActive "dashboard";
                        ProfileInfo (Account.username a) (Account.email a)
                                    (Account.enrollmentComplete a) (length (Account.signatures a));
                        AuthStats (length (Account.authHistory a))
                                  (length (filter (fun e => AuthEntry.success e = true)
                                                  (Account.authHistory a)));
                        AuthHistoryTable (rev (drop (length (Account.authHistory a) - 10)
                                                    (Account.authHistory a)))].
Proof.
  intros Ha Hauth. cbn [showPage]. unfold showPageBody at 1.
  change (pageExists "login") with true. cbv iota.
  unfold initializePage at 1. cbn [String.eqb Ascii.eqb Bool.eqb]. unfold checkLoginRedirect.
  set (s1 := updateNavigation "login" _).
  change (currentAccount s1) with (currentAccount s).
  change (isAuthenticated s1) with (isAuthenticated s).
  rewrite Ha, Hauth.
  rewrite (showPage_dashboard_session _ s1 a) by exact Ha.
  eexists. split; [reflexivity|]. split; [reflexivity|]. split; [reflexivity|].
  subst s1. cbn. now rewrite <- !app_assoc.
Qed.

Lemma login_page_redirects_session_witness :
  exists s', showPage 2 "login" (after [Register 1000 aliceForm]) = Some s'
             /\ currentPage s' = "dashboard" /\ urlHash s' = "login".
Proof.
  assert (Ha : exists a, currentAccount (after [Register 1000 aliceForm]) = Some a)
    by (vm_compute; eexists; reflexivity).
  destruct Ha as [a Ha].
  assert (Hauth : isAuthenticated (after [Register 1000 aliceForm]) = true)
    by (vm_compute; reflexivity).
  destruct (login_page_redirects_session 0 _ a Ha Hauth) as (s' & H1 & H2 & H3 & _).
  exists s'. auto.
Defined.

(** The dashboard, asked for without a session: the login page is shown
    and the address is left on the dashboard. *)
Theorem dashboard_redirect_leaves_address d s :
  currentUser s = None ->
  exists s', showPage (S (S d)) "dashboard" s = Some s'
             /\ currentPage s' = "login" /\ urlHash s' = "dashboard".
Proof.
  intros H.
  assert (Hacc : currentAccount s = None) by (unfold currentAccount; now rewrite H).
  cbn [showPage]. unfold showPageBody at 1.
  change (pageExists "dashboard") with true. cbv iota.
  unfold initializePage at 1. cbn [String.eqb Ascii.eqb Bool.eqb]. unfold updateDashboard.
  set (s1 := updateNavigation "dashboard" _).
  change (currentAccount s1) with (currentAccount s). rewrite Hacc.
  rewrite showPage_login_no_session by exact Hacc.
  eexists. repeat split; reflexivity.
Qed.

Lemma dashboard_redirect_leaves_address_witness :
  exists s', showPage 2 "dashboard" (after []) = Some s' /\ urlHash s' = "dashboard".
Proof.
  destruct (dashboard_redirect_leaves_address 0 (after []) eq_refl) as (s' & H1 & _ & H3).
  exists s'. auto.
Defined.

(** Entering the enrollment page or the auth-test page releases the camera;
    entering the home page or the registration page leaves it as it was. *)
Lemma stopCamera_releases s : webcamStream (stopCamera s) = false.
Proof. unfold stopCamera. destruct (webcamStream s) eqn:E; [reflexivity | exact E]. Qed.

Theorem camera_on_page_entry d s :
  (exists s1, showPage (S d) "enrollment" s = Some s1 /\ webcamStream s1 = false)
  /\ (exists s2, showPage (S d) "auth-test" s = Some s2 /\ webcamStream s2 = false)
  /\ (exists s3, showPage (S d) "home" s = Some s3 /\ webcamStream s3 = webcamStream s)
  /\ (exists s4, showPage (S d) "register" s = Some s4 /\ webcamStream s4 = webcamStream s).
Proof.
  split; [|split; [|split]].
  - rewrite showPage_enrollment. eexists. split; [reflexivity|].
    unfold resetEnrollment. cbn [webcamStream set_urlHash updateEnrollmentStatus
      updateSignatureGallery updateProgressIndicator updateControlStates emit set_ui].
    apply stopCamera_releases.
  - rewrite showPage_auth_test. eexists. split; [reflexivity|].
    unfold resetAuthTest. cbn [webcamStream set_urlHash updateControlStates emit set_ui].
    apply stopCamera_releases.
  - eexists. split; reflexivity.
  - eexists. split; reflexivity.
Qed.

(** Entering the enrollment page drops the recording in progress and sets
    the counter to the number of signatures the session has saved (zero
    without a session); the saved signatures themselves are untouched. *)
Theorem enrollment_entry_resets_recording d s :
  exists s', showPage (S d) "enrollment" s = Some s'
    /\ recordedChunks s' = [] /\ isRecording s' = false
    /\ signatureCount s' = match currentAccount s with
                           | Some a => length (Account.signatures a)
                           | None => 0%nat
                           end
    /\ sameData s s'.
Proof.
  rewrite showPage_enrollment. eexists. split; [reflexivity|].
  assert (H : forall t, recordedChunks (stopCamera t) = recordedChunks t
                        /\ isRecording (stopCamera t) = isRecording t
                        /\ signatureCount (stopCamera t) = signatureCount t).
  { intros t. unfold stopCamera. now destruct (webcamStream t). }
  unfold resetEnrollment.
  cbn [recordedChunks isRecording signatureCount set_urlHash updateEnrollmentStatus
       updateSignatureGallery updateProgressIndicator updateControlStates emit set_ui].
  rewrite !(proj1 (H _)), !(proj1 (proj2 (H _))), !(proj2 (proj2 (H _))).
  split; [reflexivity|]. split; [reflexivity|]. split; [reflexivity|].
  eapply showPage_sameData. apply (showPage_enrollment d).
Qed.

(** ** Authentication attempts: what stops one *)

(** An attempt by a session that is not enrolled, or with no session, is
    turned away to the enrollment page: no delay is started and no draw is
    made, no history entry is written and nothing is saved. *)
Theorem attempt_needs_enrollment s :
  sessionEnrolled s = false ->
  exists s', authenticateGesture s = Some s'
    /\ currentPage s' = "enrollment"
    /\ sameData s s'
    /\ pendingAttempts s' = pendingAttempts s
    /\ (forall e, In e (drop (length (ui s)) (ui s')) ->
                  match e with AuthResult _ _ _ => False | _ => True end).
Proof.
  unfold sessionEnrolled, authenticateGesture. intros H.
  set (s1 := showNotification "Please complete enrollment first!" "error" s).
  assert (Hgo : exists s', showPage redirectDepth "enrollment" s1 = Some s'
                  /\ currentPage s' = "enrollment" /\ sameData s s'
                  /\ pendingAttempts s' = pendingAttempts s
                  /\ (forall e, In e (drop (length (ui s)) (ui s')) ->
                                match e with AuthResult _ _ _ => False | _ => True end)).
  { unfold redirectDepth. rewrite showPage_enrollment. eexists. split; [reflexivity|].
    split; [cbn [currentPage set_urlHash]; now rewrite resetEnrollment_currentPage|].
    split.
    { apply (sameData_trans _ s1); [apply sameData_emit|].
      apply (showPage_sameData 2 "enrollment"). apply showPage_enrollment. }
    split.
    { unfold resetEnrollment, stopCamera.
      match goal with |- context [if ?b then _ else _] => destruct b end; reflexivity. }
    intros e. unfold resetEnrollment, stopCamera.
    set (t := set_isRecording false _).
    destruct (webcamStream t); subst t s1; cbn; rewrite <- ?app_assoc, drop_app_length; cbn;
      intros He; repeat (destruct He as [<-|He]; [exact I|]); destruct He. }
  destruct (currentAccount s) as [a|]; [|exact Hgo].
  rewrite H. exact Hgo.
Qed.

Lemma attempt_needs_enrollment_witness :
  exists s', authenticateGesture (after [Register 1000 aliceForm]) = Some s'
             /\ currentPage s' = "enrollment".
Proof.
  assert (H : sessionEnrolled (after [Register 1000 aliceForm]) = false)
    by (vm_compute; reflexivity).
  destruct (attempt_needs_enrollment _ H) as (s' & H1 & H2 & _).
  exists s'. auto.
Defined.

(** An attempt by an enrolled session whose camera is not started only
    says so. *)
Theorem attempt_needs_camera s :
  sessionEnrolled s = true -> webcamStream s = false ->
  authenticateGesture s
  = Some (showNotification "Please start the camera first!" "error" s).
Proof.
  unfold sessionEnrolled, authenticateGesture. intros He Hw.
  destruct (currentAccount s) as [a|]; [|discriminate]. now rewrite He, Hw.
Qed.

Lemma attempt_needs_camera_witness :
  exists s', authenticateGesture (after (aliceEnrolls ++ [FinishEnrollment]))
             = Some s'
             /\ heap s' = heap (after (aliceEnrolls ++ [FinishEnrollment])).
Proof.
  assert (He : sessionEnrolled (after (aliceEnrolls ++ [FinishEnrollment])) = true)
    by (vm_compute; reflexivity).
  assert (Hw : webcamStream (after (aliceEnrolls ++ [FinishEnrollment])) = false)
    by (vm_compute; reflexivity).
  eexists. split; [exact (attempt_needs_camera _ He Hw) | reflexivity].
Defined.

(** ** Login with the right password *)

(** The account found for the identifier becomes the session, by reference
    to the object of the directory; its last login is the instant of the
    call and exactly one successful [Password Login] entry is pushed on its
    history; no other account changes, and the storage ends up holding the
    account as it now is, as the authenticated session. *)
Theorem login_sets_session now formUsername password s l a :
  findUser (JsString.trim formUsername) s = Some l -> heap s !! l = Some a ->
  Account.password a = password ->
  let s' := handleLogin now formUsername password s in
  currentUser s' = Some l
  /\ isAuthenticated s' = true
  /\ users s' = users s
  /\ heap s' = <[l := loggedIn now a]> (heap s)
  /\ airauth_current_user (localStorage s') = Parsed (jsonAccount (loggedIn now a))
  /\ airauth_authenticated (localStorage s') = Some "true".
Proof.
  intros Hf Ha Hp s'. subst s'. unfold handleLogin. rewrite Hf, Ha, Hp, String.eqb_refl.
  cbn [negb].
  set (s1 := updateAuthStatus (update l (Account.set_lastLogin now)
                                 (set_isAuthenticated true (set_currentUser (Some l) s)))).
  assert (Hc1 : currentUser (saveUserData s1) = Some l) by reflexivity.
  destruct (addAuthHistory_session now "Password Login" true "Successful login"
              (saveUserData s1) l Hc1) as (E1 & E2 & E3 & E4 & _).
  set (s2 := addAuthHistory now "Password Login" true "Successful login" (saveUserData s1)) in *.
  assert (Hheap : heap s2 = <[l := loggedIn now a]> (heap s)).
  { rewrite E1. change (heap (saveUserData s1)) with (alter (Account.set_lastLogin now) l (heap s)).
    rewrite list_alter_alter_eq. apply list_eq. intros i.
    destruct (decide (l = i)) as [<-|Hne].
    - rewrite list_lookup_alter_eq, Ha.
      rewrite list_lookup_insert_eq by (apply lookup_lt_is_Some; eauto). reflexivity.
    - now rewrite list_lookup_alter_ne, list_lookup_insert_ne. }
  cbn [currentUser isAuthenticated users heap localStorage emit showNotification set_ui].
  split; [exact E2|]. split; [exact E4|]. split; [exact E3|]. split; [exact Hheap|].
  assert (Hacc : currentAccount (update l
             (Account.push_authHistory (AuthEntry.mk now "Password Login" true "Successful login"))
             (saveUserData s1)) = Some (loggedIn now a)).
  { unfold currentAccount, update. cbn [currentUser heap set_heap].
    change (currentUser (saveUserData s1)) with (Some l).
    change (heap (saveUserData s1)) with (alter (Account.set_lastLogin now) l (heap s)).
    cbv iota beta. now rewrite list_lookup_alter_eq, list_lookup_alter_eq, Ha. }
  subst s2. unfold addAuthHistory. rewrite Hc1. unfold saveUserData at 1 3.
  cbn [localStorage set_localStorage]. rewrite Hacc.
  change (isAuthenticated (update _ _ (saveUserData s1))) with true.
  split; reflexivity.
Qed.

Lemma login_sets_session_witness :
  let s' := handleLogin 5000 " alice" "correct horse" (after [Register 1000 aliceForm; Logout]) in
  currentUser s' = Some 0%nat /\ isAuthenticated s' = true.
Proof.
  assert (Hf : findUser (JsString.trim " alice") (after [Register 1000 aliceForm; Logout])
               = Some 0%nat) by (vm_compute; reflexivity).
  assert (Ha : exists a, heap (after [Register 1000 aliceForm; Logout]) !! 0%nat = Some a
                         /\ Account.password a = "correct horse")
    by (vm_compute; eexists; split; reflexivity).
  destruct Ha as (a & Ha & Hp).
  destruct (login_sets_session 5000 " alice" "correct horse" _ 0%nat a Hf Ha Hp)
    as (E1 & E2 & _).
  cbv zeta. auto.
Defined.

(** ** Logout, and what the storage remembers of a session *)

Lemma installUsers_session es : forall t,
  currentUser (installUsers es t) = currentUser t
  /\ isAuthenticated (installUsers es t) = isAuthenticated t.
Proof.
  induction es as [|[k b] es IH]; intros t; cbn [installUsers]; [easy|].
  unfold alloc. now rewrite !(proj1 (IH _)), !(proj2 (IH _)).
Qed.

(** A storage without a stored session gives a page without a session. *)
Lemma boot_no_session ls hash r :
  airauth_current_user ls = Missing -> boot ls hash = Some r ->
  currentUser r = None /\ isAuthenticated r = false.
Proof.
  intros Hm Hr. apply boot_sameData in Hr as (_ & _ & -> & -> & _).
  unfold loaded, loadUserData, loadFailed.
  change (localStorage (constructed ls hash)) with ls. rewrite Hm.
  destruct (airauth_users ls) as [| | |es]; cbn; try easy.
  now rewrite (proj1 (installUsers_session _ _)), (proj2 (installUsers_session _ _)).
Qed.

(** Every load of the page ends on the home page, whatever fragment the
    address carried: [init] shows the home page and so writes the fragment
    that is read afterwards, and the timer set for it shows the home page
    once more.  No attempt is pending on a new page. *)
Theorem boot_shows_home ls hash :
  exists r log,
    boot ls hash = Some r
    /\ currentPage r = "home" /\ urlHash r = "home"
    /\ pendingAttempts r = 0%nat
    /\ ui r = log ++ [PageActive "home"; NavActive "home";
                      Notify "Welcome to AirAuth! Your secure gesture authentication system." "info";
                      SetTimeout 100 "home"].
Proof.
  unfold boot, init.
  set (s0 := checkAuthStatus (loadUserData (constructed ls hash))).
  assert (Hp : pendingAttempts s0 = 0%nat).
  { subst s0. unfold checkAuthStatus, loadUserData, loadFailed, alloc.
    change (localStorage (constructed ls hash)) with ls.
    assert (Hi : forall es t, pendingAttempts (installUsers es t) = pendingAttempts t).
    { induction es as [|[k a] es IH]; intros t; cbn [installUsers]; [reflexivity|].
      unfold alloc. now rewrite IH. }
    destruct (airauth_users ls) as [| | |es]; destruct (airauth_current_user ls) as [| | |a];
      destruct (airauth_authenticated ls) as [flag|];
      try destruct (String.eqb flag "true");
      cbn [localStorage currentUser set_isAuthenticated set_currentUser set_users set_heap
           constructed];
      repeat match goal with |- context [match ?x with _ => _ end] => destruct x end;
      cbn [pendingAttempts updateAuthStatus updateNavigation emit set_ui set_isAuthenticated
           set_currentUser set_users set_heap constructed];
      rewrite ?Hi; reflexivity. }
  exists (emit (SetTimeout 100 "home")
            (showNotification "Welcome to AirAuth! Your secure gesture authentication system."
               "info" (set_urlHash "home"
                         (updateNavigation "home"
                            (set_currentPage "home" (emit (PageActive "home") s0)))))),
         (ui s0).
  split; [reflexivity|]. split; [reflexivity|]. split; [reflexivity|].
  split; [exact Hp|].
  cbn [ui emit showNotification updateNavigation set_ui set_urlHash set_currentPage].
  now rewrite <- !app_assoc.
Qed.

(** [logout] ends the session and removes it from the storage; the
    accounts, the directory and the stored directory stay; the camera is
    released and the home page shown.  A reload after it finds no session. *)
Theorem logout_ends_session s :
  exists s', logout s = Some s'
    /\ currentUser s' = None /\ isAuthenticated s' = false
    /\ signatureCount s' = 0%nat /\ webcamStream s' = false
    /\ currentPage s' = "home"
    /\ heap s' = heap s /\ users s' = users s
    /\ localStorage s' = mkStorage (airauth_users (localStorage s)) Missing None
    /\ (forall hash r, boot (localStorage s') hash = Some r ->
                       currentUser r = None /\ isAuthenticated r = false).
Proof.
  unfold logout. set (s1 := showNotification "Logged out successfully" "info" _).
  assert (Hw : webcamStream s1 = false) by (subst s1; cbn; apply stopCamera_releases).
  assert (Hh : heap s1 = heap s /\ users s1 = users s
               /\ localStorage s1 = mkStorage (airauth_users (localStorage s)) Missing None).
  { destruct (sameData_stopCamera s) as (E1 & E2 & _ & _ & E5). subst s1. cbn.
    now rewrite E1, E2, E5. }
  destruct Hh as (Hh & Hu & Hl).
  eexists. split; [reflexivity|].
  split; [reflexivity|]. split; [reflexivity|]. split; [reflexivity|].
  split; [exact Hw|]. split; [reflexivity|]. split; [exact Hh|]. split; [exact Hu|].
  split; [exact Hl|].
  intros hash r Hr. refine (boot_no_session _ hash r _ Hr).
  cbn [localStorage set_urlHash updateNavigation set_currentPage emit set_ui]. now rewrite Hl.
Qed.

(** A registration makes the new account the session of the page, but the
    storage is written before that: after a registration made without a
    session the storage holds no session, and a reload comes back logged
    out. *)
Theorem registration_session_not_stored now form s :
  let u := JsString.trim (form_username form) in
  let e := JsString.trim (form_email form) in
  fst (usernameVerdict u s) && fst (emailVerdict e s)
  && fst (passwordVerdict (form_password form))
  && fst (confirmVerdict (form_confirmPassword form) (form_password form)) = true ->
  currentUser s = None ->
  let s' := handleRegistration now form s in
  currentUser s' = Some (length (heap s))
  /\ isAuthenticated s' = true
  /\ airauth_current_user (localStorage s') = Missing
  /\ airauth_authenticated (localStorage s') = None
  /\ (forall hash r, boot (localStorage s') hash = Some r ->
                     currentUser r = None /\ isAuthenticated r = false).
Proof.
  intros u e Hv Hc s'. subst s'. rewrite handleRegistration_cases. fold u e. rewrite Hv.
  cbv zeta. rewrite validateRegistrationForm_submitted. fold u e. cbn [snd].
  set (s2 := set_users _ _).
  assert (Hacc : currentAccount s2 = None).
  { unfold currentAccount. subst s2. cbn [currentUser set_users set_heap set_ui]. now rewrite Hc. }
  assert (Hls : localStorage (saveUserData s2)
                = mkStorage (Parsed (usersArray s2)) Missing None).
  { unfold saveUserData. cbn [localStorage set_localStorage]. now rewrite Hacc. }
  cbn [currentUser isAuthenticated localStorage emit updateAuthStatus updateNavigation
       set_isAuthenticated set_currentUser showNotification set_ui].
  rewrite Hls. cbn [airauth_current_user airauth_authenticated].
  split; [reflexivity|]. split; [reflexivity|]. split; [reflexivity|]. split; [reflexivity|].
  intros hash r Hr. refine (boot_no_session _ hash r _ Hr). reflexivity.
Qed.

Lemma registration_session_not_stored_witness :
  let s' := handleRegistration 1000 aliceForm (after []) in
  currentUser s' = Some 0%nat /\ airauth_current_user (localStorage s') = Missing.
Proof.
  pose proof (registration_session_not_stored 1000 aliceForm (after [])) as H. cbv zeta in H.
  destruct (H eq_refl eq_refl) as (E1 & _ & E3 & _).
  cbv zeta. split; [exact E1 | exact E3].
Defined.

(** [finishEnrollment] is the save that stores the flag: for an enrolled
    and authenticated session the storage afterwards holds the account with
    its flag, and a reload restores that session, enrolled. *)
Theorem finishEnrollment_stores_flag s a hash r :
  currentAccount s = Some a -> Account.enrollmentComplete a = true ->
  isAuthenticated s = true ->
  boot (localStorage (finishEnrollment s)) hash = Some r ->
  webcamStream (finishEnrollment s) = false
  /\ airauth_current_user (localStorage (finishEnrollment s)) = Parsed (jsonAccount a)
  /\ currentAccount r = Some (jsonAccount a)
  /\ isAuthenticated r = true
  /\ sessionEnrolled r = true.
Proof.
  intros Ha He Hauth Hr.
  assert (Hfin : finishEnrollment s
                 = emit (SetTimeout 2000 "dashboard")
                     (showNotification
                        "Enrollment completed successfully! You can now use air signature authentication."
                        "success" (updateAuthStatus (saveUserData (stopCamera s))))).
  { unfold finishEnrollment. now rewrite Ha, He. }
  assert (Hacc : currentAccount (stopCamera s) = Some a)
    by (rewrite (sameData_currentAccount _ _ (sameData_stopCamera s)); exact Ha).
  assert (Hau : isAuthenticated (stopCamera s) = true).
  { destruct (sameData_stopCamera s) as (_ & _ & _ & E & _). now rewrite E. }
  assert (Hls : localStorage (finishEnrollment s)
                = mkStorage (Parsed (usersArray (stopCamera s))) (Parsed (jsonAccount a))
                            (Some "true")).
  { rewrite Hfin. cbn [localStorage emit showNotification updateAuthStatus updateNavigation set_ui].
    unfold saveUserData. cbn [localStorage set_localStorage]. now rewrite Hacc, Hau. }
  split; [rewrite Hfin; cbn; apply stopCamera_releases|].
  split; [now rewrite Hls|].
  rewrite Hls in Hr. apply boot_sameData in Hr.
  pose proof (sameData_currentAccount _ _ Hr) as Hc. destruct Hr as (_ & _ & _ & Hra & _).
  assert (Hload : currentAccount (loaded (mkStorage (Parsed (usersArray (stopCamera s)))
                                             (Parsed (jsonAccount a)) (Some "true")) hash)
                  = Some (jsonAccount a)
                  /\ isAuthenticated (loaded (mkStorage (Parsed (usersArray (stopCamera s)))
                                                (Parsed (jsonAccount a)) (Some "true")) hash)
                     = true).
  { unfold loaded, loadUserData, alloc, currentAccount.
    cbn [localStorage constructed airauth_users airauth_current_user airauth_authenticated
         String.eqb Ascii.eqb Bool.eqb currentUser isAuthenticated heap
         set_isAuthenticated set_currentUser set_heap].
    split; [|reflexivity]. now rewrite list_lookup_middle. }
  rewrite Hc, Hra. destruct Hload as [H1 H2]. split; [exact H1|]. split; [exact H2|].
  unfold sessionEnrolled. rewrite Hc, H1. exact He.
Qed.

Lemma finishEnrollment_stores_flag_witness :
  exists r, boot (localStorage (finishEnrollment (after aliceEnrolls))) "" = Some r
            /\ sessionEnrolled r = true.
Proof.
  assert (Ha : exists a, currentAccount (after aliceEnrolls) = Some a
                         /\ Account.enrollmentComplete a = true)
    by (vm_compute; eexists; split; reflexivity).
  destruct Ha as (a & Ha & He).
  assert (Hauth : isAuthenticated (after aliceEnrolls) = true) by (vm_compute; reflexivity).
  assert (Hr : exists r, boot (localStorage (finishEnrollment (after aliceEnrolls))) "" = Some r)
    by (vm_compute; eexists; reflexivity).
  destruct Hr as [r Hr]. exists r. split; [exact Hr|].
  exact (proj2 (proj2 (proj2 (proj2 (finishEnrollment_stores_flag _ a "" r Ha He Hauth Hr))))).
Defined.

(** ** Recording *)

Lemma onDataAvailable_fold chunks : forall s,
  let s' := fold_left (fun t c => onDataAvailable c t) chunks s in
  recordedChunks s' = recordedChunks s ++ filter (fun c => (0 < c)%nat) chunks
  /\ isRecording s' = isRecording s /\ mediaRecorder s' = mediaRecorder s
  /\ webcamStream s' = webcamStream s /\ currentUser s' = currentUser s
  /\ heap s' = heap s /\ sameData s s'.
Proof.
  induction chunks as [|c chunks IH]; intros s; cbn [fold_left].
  - cbn. rewrite app_nil_r. now unfold sameData.
  - destruct (IH (onDataAvailable c s)) as (E1 & E2 & E3 & E4 & E5 & E6 & E7).
    cbv zeta. rewrite E1, E2, E3, E4, E5, E6. unfold onDataAvailable in *.
    rewrite filter_cons. destruct (Nat.ltb_spec 0 c) as [Hc|Hc].
    + rewrite decide_True by exact Hc. cbn. rewrite <- app_assoc. repeat split; try reflexivity.
      all: apply E7.
    + rewrite decide_False by lia. repeat split; try reflexivity. all: apply E7.
Qed.

Lemma run_data_events chunks : forall s,
  run (map DataAvailable chunks ++ [StopRecording]) s
  = Some (stopRecording (fold_left (fun t c => onDataAvailable c t) chunks s)).
Proof.
  induction chunks as [|c chunks IH]; intros s; cbn [map app run step fold_left];
    [reflexivity | apply IH].
Qed.

(** The run of a recording, down to the state the recorder is stopped in. *)
Lemma recording_run chunks s :
  webcamStream s = true ->
  exists s1,
    recordedChunks s1 = [] /\ isRecording s1 = true /\ mediaRecorder s1 = true
    /\ currentUser s1 = currentUser s /\ heap s1 = heap s /\ localStorage s1 = localStorage s
    /\ run (recording chunks) s
       = Some (stopRecording (fold_left (fun t c => onDataAvailable c t) chunks s1)).
Proof.
  intros Hw. exists (startRecording RecorderStarts s). unfold recording. cbn [run step].
  rewrite run_data_events. unfold startRecording. rewrite Hw. cbn [negb].
  repeat split; reflexivity.
Qed.

(** A recording made with the camera on collects the chunks of positive
    size that the recorder delivers, in order; whatever an earlier recording
    had left is discarded when the recording starts. *)
Theorem recording_collects_chunks chunks s :
  webcamStream s = true ->
  exists s', run (recording chunks) s = Some s'
    /\ recordedChunks s' = filter (fun c => (0 < c)%nat) chunks
    /\ isRecording s' = false
    /\ currentUser s' = currentUser s /\ heap s' = heap s
    /\ localStorage s' = localStorage s.
Proof.
  intros Hw.
  destruct (recording_run chunks s Hw) as (s1 & C1 & C2 & C3 & C4 & C5 & C6 & Hrun).
  destruct (onDataAvailable_fold chunks s1) as (E1 & E2 & E3 & _ & E5 & E6 & E7).
  cbv zeta in *. set (s2 := fold_left _ chunks s1) in *.
  eexists. split; [exact Hrun|]. unfold stopRecording. rewrite E2, E3, C2, C3. cbn [andb].
  unfold onStop.
  cbn [recordedChunks isRecording currentUser heap localStorage updateEnrollmentStatus
       updateControlStates emit set_ui set_isRecording].
  rewrite E1, E5, E6, C1, C4, C5. destruct E7 as (_ & _ & _ & _ & ->). rewrite C6.
  repeat split; reflexivity.
Qed.

Lemma recording_collects_chunks_witness :
  exists s', run (recording [512; 0; 256]%nat) (after aliceRegisters) = Some s'
             /\ recordedChunks s' = [512; 256]%nat.
Proof.
  assert (Hw : webcamStream (after aliceRegisters) = true) by (vm_compute; reflexivity).
  destruct (recording_collects_chunks [512; 0; 256]%nat _ Hw) as (s' & H1 & H2 & _).
  exists s'. split; [exact H1 | exact H2].
Defined.

(** Saving what was recorded: the signature holds the collected chunks and
    counts them as its duration, and the recording buffer is emptied. *)
Theorem recording_then_save chunks now url s l a :
  webcamStream s = true -> currentUser s = Some l -> heap s !! l = Some a ->
  filter (fun c => (0 < c)%nat) chunks <> [] ->
  exists s', run (recording chunks ++ [SaveSignature now url]) s = Some s'
    /\ (exists a', heap s' !! l = Some a'
          /\ Account.signatures a'
             = Account.signatures a
               ++ [Signature.mk (JsString.ofZ now) url
                     (Blob (filter (fun c => (0 < c)%nat) chunks)) now
                     (length (filter (fun c => (0 < c)%nat) chunks))])
    /\ recordedChunks s' = [].
Proof.
  intros Hw Hl Ha Hne.
  destruct (recording_run chunks s Hw) as (s0 & C1 & C2 & C3 & C4 & C5 & _ & Hrun).
  destruct (onDataAvailable_fold chunks s0) as (E1 & E2 & E3 & _ & E5 & E6 & _).
  cbv zeta in *. rewrite run_app, Hrun. cbn [run step].
  set (s1 := stopRecording _).
  assert (Hs1 : recordedChunks s1 = filter (fun c => (0 < c)%nat) chunks
                /\ currentUser s1 = Some l /\ heap s1 !! l = Some a).
  { subst s1. unfold stopRecording. rewrite E2, E3, C2, C3. cbn [andb]. unfold onStop.
    cbn [recordedChunks currentUser heap updateEnrollmentStatus updateControlStates emit
         set_ui set_isRecording].
    rewrite E1, E5, E6, C1, C4, C5. auto. }
  destruct Hs1 as (Hch & Hl1 & Ha1).
  assert (Hne1 : recordedChunks s1 <> []) by congruence.
  eexists. split; [reflexivity|]. split.
  - exists (withSignature (newSignature now url s1) a).
    split; [now apply saveSignature_account|].
    rewrite withSignature_signatures. unfold newSignature. now rewrite Hch.
  - unfold saveSignature. destruct (recordedChunks s1); [contradiction|]. rewrite Hl1.
    match goal with |- context [if ?b then _ else _] => destruct b end; reflexivity.
Qed.

Lemma recording_then_save_witness :
  exists s', run (recording [512; 0; 256]%nat ++ [SaveSignature 2000 "blob:1"]) (after aliceRegisters)
             = Some s'
             /\ recordedChunks s' = [].
Proof.
  assert (Hw : webcamStream (after aliceRegisters) = true) by (vm_compute; reflexivity).
  assert (Hl : currentUser (after aliceRegisters) = Some 0%nat) by (vm_compute; reflexivity).
  assert (Ha : exists a, heap (after aliceRegisters) !! 0%nat = Some a)
    by (vm_compute; eexists; reflexivity).
  destruct Ha as [a Ha].
  assert (Hne : filter (fun c => (0 < c)%nat) [512; 0; 256]%nat <> []) by (vm_compute; discriminate).
  destruct (recording_then_save _ 2000 "blob:1" _ 0%nat a Hw Hl Ha Hne) as (s' & H1 & _ & H3).
  exists s'. split; [exact H1 | exact H3].
Defined.

(** Nothing is saved without a recording or without a session: the
    accounts, the directory and the storage are as before, and without a
    session the recording is kept. *)
Theorem saveSignature_refused now url s :
  recordedChunks s = [] \/ currentUser s = None ->
  sameData s (saveSignature now url s)
  /\ recordedChunks (saveSignature now url s) = recordedChunks s
  /\ signatureCount (saveSignature now url s) = signatureCount s
  /\ (recordedChunks s = [] ->
      ui (saveSignature now url s) = ui s ++ [Notify "No recording to save!" "error"])
  /\ (recordedChunks s <> [] ->
      ui (saveSignature now url s)
      = ui s ++ [Notify "Failed to save signature. Please try again." "error";
                 EnrollmentStatus "Failed to save signature. Please try again." "error"]).
Proof.
  intros H. unfold saveSignature. destruct (recordedChunks s) as [|c cs] eqn:Ec.
  - repeat split; try reflexivity; easy.
  - destruct H as [H|H]; [discriminate|]. rewrite H.
    repeat split; try reflexivity; try easy.
    intros _. cbn. now rewrite <- app_assoc.
Qed.

Lemma saveSignature_refused_witness :
  ui (saveSignature 2000 "blob:1" (after aliceRegisters))
  = ui (after aliceRegisters) ++ [Notify "No recording to save!" "error"].
Proof.
  assert (H : recordedChunks (after aliceRegisters) = []) by (vm_compute; reflexivity).
  exact (proj1 (proj2 (proj2 (proj2 (saveSignature_refused 2000 "blob:1" _ (or_introl H))))) H).
Defined.

(** ** The patterns of the validators *)

Lemma str_app_nil_l (s : string) : "" +:+ s = s.
Proof. reflexivity. Qed.

Lemma str_app_cons c (s1 s2 : string) : String c s1 +:+ s2 = String c (s1 +:+ s2).
Proof. reflexivity. Qed.

Lemma str_app_nil_r (s : string) : s +:+ "" = s.
Proof.
  induction s as [|c s IH]; [reflexivity|].
  change (String c (s +:+ "") = String c s). now rewrite IH.
Qed.

Lemma str_app_assoc (s1 s2 s3 : string) : (s1 +:+ s2) +:+ s3 = s1 +:+ (s2 +:+ s3).
Proof.
  induction s1 as [|c s1 IH]; [reflexivity|].
  change (String c ((s1 +:+ s2) +:+ s3) = String c (s1 +:+ (s2 +:+ s3))). now rewrite IH.
Qed.

Lemma str_app_empty (s1 s2 : string) : s1 +:+ s2 = "" -> s1 = "" /\ s2 = "".
Proof.
  destruct s1 as [|c s1]; [rewrite str_app_nil_l; auto|].
  rewrite str_app_cons. discriminate.
Qed.

Lemma nullable_spec r : Regex.nullable r = true <-> Matches r "".
Proof.
  induction r as [| |p|r1 IH1 r2 IH2|r1 IH1 r2 IH2|r IH]; cbn [Regex.nullable].
  - split; [discriminate | intros H; inversion H].
  - split; [constructor | reflexivity].
  - split; [discriminate | intros H; inversion H].
  - rewrite andb_true_iff, IH1, IH2. split.
    + intros [H1 H2]. exact (MSeq _ _ "" "" H1 H2).
    + intros H. inversion H as [| |? ? s1 s2 H1 H2 E0 E| | | |]. subst.
      apply str_app_empty in E as [-> ->]. auto.
  - rewrite orb_true_iff, IH1, IH2. split.
    + intros [H|H]; [now apply MAltL | now apply MAltR].
    + intros H. inversion H; subst; auto.
  - split; [constructor | reflexivity].
Qed.

Lemma star_cons_gen r' w :
  Matches r' w -> forall r c s, r' = Regex.Star r -> w = String c s ->
  exists s1 s2, s = s1 +:+ s2 /\ Matches r (String c s1) /\ Matches (Regex.Star r) s2.
Proof.
  induction 1 as [| | | | | |r0 s1 s2 H1 _ H2 IH2]; intros r' x t Er Ew; try discriminate.
  injection Er as ->. destruct s1 as [|c1 s1].
  - rewrite str_app_nil_l in Ew. now apply IH2.
  - rewrite str_app_cons in Ew. injection Ew as -> <-. eauto.
Qed.

Lemma star_cons r c s :
  Matches (Regex.Star r) (String c s) ->
  exists s1 s2, s = s1 +:+ s2 /\ Matches r (String c s1) /\ Matches (Regex.Star r) s2.
Proof. intros H. exact (star_cons_gen _ _ H r c s eq_refl eq_refl). Qed.

Lemma deriv_spec c r : forall s, Matches (Regex.deriv c r) s <-> Matches r (String c s).
Proof.
  induction r as [| |p|r1 IH1 r2 IH2|r1 IH1 r2 IH2|r IH]; intros s; cbn [Regex.deriv].
  - split; intros H; inversion H.
  - split; intros H; inversion H.
  - destruct (p c) eqn:Ep; split; intros H; inversion H; subst.
    + now constructor.
    + constructor.
    + congruence.
  - assert (Hleft : forall t, Matches (Regex.Seq (Regex.deriv c r1) r2) t ->
                              Matches (Regex.Seq r1 r2) (String c t)).
    { intros t H. inversion H as [| |? ? s1 s2 H1 H2| | | |]; subst.
      apply IH1 in H1. exact (MSeq _ _ _ _ H1 H2). }
    assert (Hsplit : Matches (Regex.Seq r1 r2) (String c s) ->
                     Matches (Regex.Seq (Regex.deriv c r1) r2) s
                     \/ (Matches r1 "" /\ Matches r2 (String c s))).
    { intros H. inversion H as [| |? ? s1 s2 H1 H2 E0 E| | | |]; subst.
      destruct s1 as [|c1 s1].
      - rewrite str_app_nil_l in E. subst s2. now right.
      - rewrite str_app_cons in E. injection E as -> <-. left.
        apply MSeq; [now apply IH1 | exact H2]. }
    destruct (Regex.nullable r1) eqn:En.
    + split.
      * intros H. inversion H; subst; [now apply Hleft|].
        apply (MSeq _ _ "" (String c s)); [now apply nullable_spec | now apply IH2].
      * intros H. apply Hsplit in H as [H|[_ H]]; [now apply MAltL|].
        apply MAltR. now apply IH2.
    + split; [apply Hleft|].
      intros H. apply Hsplit in H as [H|[H _]]; [exact H|].
      apply nullable_spec in H. congruence.
  - split; intros H; inversion H; subst.
    + apply MAltL. now apply IH1.
    + apply MAltR. now apply IH2.
    + apply MAltL. now apply IH1.
    + apply MAltR. now apply IH2.
  - split.
    + intros H. inversion H as [| |? ? s1 s2 H1 H2| | | |]; subst.
      apply IH in H1. exact (MStarApp _ _ _ H1 H2).
    + intros H. apply star_cons in H as (s1 & s2 & -> & H1 & H2).
      apply MSeq; [now apply IH | exact H2].
Qed.

Lemma prune_spec r : forall s, Matches (Regex.prune r) s <-> Matches r s.
Proof.
  assert (Hfail : forall s, ~ Matches Regex.Fail s) by (intros s H; inversion H).
  assert (Heps : forall s, Matches Regex.Eps s -> s = "") by (intros s H; now inversion H).
  induction r as [| |p|r1 IH1 r2 IH2|r1 IH1 r2 IH2|r IH]; intros s; cbn [Regex.prune];
    try reflexivity.
  - assert (Hseq : Matches (Regex.Seq (Regex.prune r1) (Regex.prune r2)) s
                   <-> Matches (Regex.Seq r1 r2) s).
    { split; intros H; inversion H; subst; apply MSeq;
        try (now apply IH1); now apply IH2. }
    rewrite <- Hseq.
    destruct (Regex.prune r1) eqn:E1; destruct (Regex.prune r2) eqn:E2;
      try reflexivity;
      try (split; [intros H; now apply Hfail in H
                  | intros H; inversion H; subst;
                    match goal with
                    | K : Matches Regex.Fail _ |- _ => now apply Hfail in K
                    end]);
      try (split; [intros H; exact (MSeq _ _ "" _ MEps H)
                  | intros H; inversion H as [| |? ? s1 s2 H1 H2| | | |]; subst;
                    apply Heps in H1; subst; exact H2]).
  - assert (Halt : Matches (Regex.Alt (Regex.prune r1) (Regex.prune r2)) s
                   <-> Matches (Regex.Alt r1 r2) s).
    { split; intros H; inversion H; subst;
        try (apply MAltL; now apply IH1); apply MAltR; now apply IH2. }
    rewrite <- Halt.
    destruct (Regex.prune r1) eqn:E1; destruct (Regex.prune r2) eqn:E2;
      try reflexivity;
      try (split; [intros H; now apply MAltR
                  | intros H; inversion H; subst; [now apply Hfail in H3 | assumption]]);
      try (split; [intros H; now apply MAltL
                  | intros H; inversion H; subst; [assumption | now apply Hfail in H3]]).
Qed.

(** [test] decides the language of the pattern. *)
Lemma test_spec s : forall r, Regex.test r s = true <-> Matches r s.
Proof.
  induction s as [|c s IH]; intros r; cbn [Regex.test].
  - apply nullable_spec.
  - now rewrite IH, prune_spec, deriv_spec.
Qed.

Lemma matches_star_class_gen r s :
  Matches r s -> forall p, r = Regex.Star (Regex.Class p) -> allChars p s = true.
Proof.
  induction 1 as [| | | | | |r0 s1 s2 H1 _ H2 IH2]; intros q Er; try discriminate.
  - reflexivity.
  - injection Er as ->. inversion H1; subst. rewrite str_app_cons, str_app_nil_l.
    cbn [allChars]. rewrite (IH2 q eq_refl). now rewrite andb_true_r.
Qed.

Lemma matches_star_class p s :
  Matches (Regex.Star (Regex.Class p)) s <-> allChars p s = true.
Proof.
  split; [intros H; exact (matches_star_class_gen _ _ H p eq_refl)|].
  induction s as [|c s IH]; cbn [allChars]; [constructor|].
  intros H. apply andb_prop in H as [Hc Hs].
  change (String c s) with (String c "" +:+ s).
  apply MStarApp; [now constructor | now apply IH].
Qed.

Lemma matches_run p s : Matches (Regex.Plus (Regex.Class p)) s <-> isRun p s.
Proof.
  unfold Regex.Plus, isRun. split.
  - intros H. inversion H as [| |? ? s1 s2 H1 H2| | | |]; subst.
    inversion H1; subst. rewrite str_app_cons, str_app_nil_l.
    apply matches_star_class in H2. cbn [allChars]. rewrite H2.
    split; [discriminate | now rewrite andb_true_r].
  - intros [Hne H]. destruct s as [|c s]; [contradiction|]. cbn [allChars] in H.
    apply andb_prop in H as [Hc Hs].
    change (String c s) with (String c "" +:+ s).
    apply MSeq; [now constructor | now apply matches_star_class].
Qed.

Lemma matches_chr c s : Matches (Regex.Chr c) s <-> s = String c "".
Proof.
  unfold Regex.Chr. split.
  - intros H. inversion H as [|p c' Hc| | | | |]; subst. apply Ascii.eqb_eq in Hc. now subst.
  - intros ->. constructor. apply Ascii.eqb_refl.
Qed.

(** [validateUsername] accepts exactly the names of three characters or
    more, made of letters, digits and underscores, that are not a key of the
    directory. *)
Theorem username_accepted_iff u s :
  fst (usernameVerdict u s) = true
  <-> (3 <= String.length u)%nat /\ allChars isWordChar u = true
      /\ JsMap.has u (users s) = false.
Proof.
  assert (Hre : Regex.test usernameRegex u = true <-> isRun isWordChar u).
  { rewrite test_spec. apply (matches_run isWordChar). }
  unfold usernameVerdict.
  destruct (Nat.ltb_spec (String.length u) 3) as [Hlt|Hge]; cbn [fst].
  { split; [discriminate | intros [H _]; lia]. }
  destruct (Regex.test usernameRegex u) eqn:Et; cbn [negb fst].
  - destruct (proj1 Hre eq_refl) as [_ Hall].
    destruct (JsMap.has u (users s)); cbn [fst]; split; try discriminate; easy.
  - split; [discriminate|]. intros (_ & Hall & _).
    assert (Hrun : isRun isWordChar u).
    { split; [|exact Hall]. intros ->. cbn in Hge. lia. }
    apply Hre in Hrun. discriminate Hrun.
Qed.

(** [validateEmail] accepts exactly the addresses [l@d.t] whose three parts
    are non-empty and free of white space and of [@], and that no account
    of the directory has. *)
Theorem email_accepted_iff e s :
  fst (emailVerdict e s) = true
  <-> (exists l d t, e = l +:+ "@" +:+ d +:+ "." +:+ t
                     /\ isRun isAddressChar l /\ isRun isAddressChar d
                     /\ isRun isAddressChar t)
      /\ emailTaken e s = false.
Proof.
  assert (Hre : Regex.test emailRegex e = true
                <-> exists l d t, e = l +:+ "@" +:+ d +:+ "." +:+ t
                                  /\ isRun isAddressChar l /\ isRun isAddressChar d
                                  /\ isRun isAddressChar t).
  { rewrite test_spec. unfold emailRegex. fold isAddressChar. cbv zeta. split.
    - intros H. inversion H as [| |? ? l r1 Hl H1| | | |]; subst.
      inversion H1 as [| |? ? a r2 Ha H2| | | |]; subst.
      inversion H2 as [| |? ? d r3 Hd H3| | | |]; subst.
      inversion H3 as [| |? ? b t Hb Ht| | | |]; subst.
      apply matches_chr in Ha, Hb. subst a b.
      apply (matches_run isAddressChar) in Hl, Hd, Ht.
      exists l, d, t. auto.
    - intros (l & d & t & -> & Hl & Hd & Ht).
      apply (matches_run isAddressChar) in Hl, Hd, Ht.
      apply MSeq; [exact Hl|]. apply MSeq; [now apply matches_chr|].
      apply MSeq; [exact Hd|]. apply MSeq; [now apply matches_chr | exact Ht]. }
  unfold emailVerdict. destruct (Regex.test emailRegex e) eqn:Et; cbn [negb fst].
  - destruct (emailTaken e s); cbn [fst]; split; try discriminate.
    + intros [_ H]. discriminate H.
    + intros _. split; [now apply Hre | reflexivity].
    + reflexivity.
  - split; [discriminate|]. intros [H _]. apply Hre in H. discriminate H.
Qed.

(** ** The strength meter *)

Example passwordStrength_samples :
  map (fun p => (passwordStrength p, strengthLabel p, strengthColor p))
      ["short"; "alllowercase"; "Lower1234"; "Lower 12345"; "Str0ng!pass"]
  = [(0%nat, "", "#ef4444"); (40%nat, "Weak", "#ef4444"); (80%nat, "Good", "#3b82f6");
     (80%nat, "Good", "#3b82f6"); (100%nat, "Strong", "#10b981")].
Proof. reflexivity. Qed.

(** The meter of a password the validator accepts: twenty points for the
    length and twenty for each kind of character present; the label and the
    colour of the bar go by the number of kinds, and always agree. *)
Theorem strength_by_kinds password :
  (8 <= String.length password)%nat ->
  fst (passwordVerdict password) = true
  /\ passwordStrength password = (20 + 20 * kindsOfChar password)%nat
  /\ (strengthLabel password, strengthColor password)
     = match kindsOfChar password with
       | 0%nat | 1%nat => ("Weak", "#ef4444")
       | 2%nat => ("Fair", "#f59e0b")
       | 3%nat => ("Good", "#3b82f6")
       | _ => ("Strong", "#10b981")
       end.
Proof.
  intros H8. unfold passwordVerdict, strengthLabel, strengthColor, passwordStrength, kindsOfChar.
  destruct (Nat.ltb_spec (String.length password) 8) as [Hlt|_]; [lia|].
  destruct (Nat.leb_spec 8 (String.length password)) as [_|Hlt]; [|lia].
  split; [reflexivity|].
  destruct (hasChar isLower password), (hasChar isUpper password),
           (hasChar isDigit password), (hasChar isSymbol password); split; reflexivity.
Qed.

Lemma strength_by_kinds_witness : strengthLabel "Str0ng!pass" = "Strong".
Proof.
  assert (H8 : (8 <= String.length "Str0ng!pass")%nat) by (vm_compute; lia).
  destruct (strength_by_kinds "Str0ng!pass" H8) as (_ & _ & H).
  exact (f_equal fst H).
Defined.

(** ** Usernames and emails stay unique *)

Lemma consistent_sameData s s' : sameData s s' -> consistent s -> consistent s'.
Proof.
  intros (Hh & Hu & Hc & Ha & Hl). unfold consistent, directoryIds, sessionValid.
  now rewrite Hh, Hu, Hc, Ha, Hl.
Qed.

Lemma consistent_same s s' :
  heap s' = heap s -> users s' = users s -> currentUser s' = currentUser s ->
  isAuthenticated s' = isAuthenticated s -> localStorage s' = localStorage s ->
  consistent s -> consistent s'.
Proof. intros. apply (consistent_sameData s); [now unfold sameData | assumption]. Qed.

Lemma directoryIds_alter l f s :
  (forall a, identity (f a) = identity a) ->
  map (fun e => (fst e, identity <$> alter f l (heap s) !! snd e)) (users s) = directoryIds s.
Proof.
  intros Hf. unfold directoryIds. apply map_ext. intros [k l']. cbn [fst snd]. f_equal.
  destruct (decide (l = l')) as [<-|Hne].
  - rewrite list_lookup_alter_eq. destruct (heap s !! l); cbn; [now rewrite Hf | reflexivity].
  - now rewrite list_lookup_alter_ne.
Qed.

Lemma consistent_update l f s :
  (forall a, identity (f a) = identity a) -> consistent s -> consistent (update l f s).
Proof.
  intros Hf (H1 & H2 & H3). split; [|split].
  - unfold directoryIds, update. cbn [heap users set_heap]. now rewrite (directoryIds_alter l f s Hf).
  - exact H2.
  - unfold sessionValid, update in *. cbn [heap currentUser isAuthenticated set_heap].
    destruct (currentUser s) as [c|]; [|exact H3]. destruct H3 as [H3 H4]. split; [|exact H4].
    apply lookup_lt_is_Some. rewrite length_alter. now apply lookup_lt_is_Some.
Qed.

(** With every entry allocated, the stored directory is the directory. *)
Lemma usersArray_ids s :
  Forall (fun x => exists e, snd x = Some (fst x, e)) (directoryIds s) ->
  map (fun e => (fst e, Some (identity (snd e)))) (usersArray s) = directoryIds s.
Proof.
  unfold usersArray, directoryIds, JsMap.entries.
  induction (users s) as [|[k l] m IH]; intros H; [reflexivity|].
  cbn [map fst snd] in H. apply Forall_cons in H as [[e He] H]. cbn [fst snd] in He.
  cbn [omap list_omap map fst snd]. destruct (heap s !! l) as [a|]; [|discriminate He].
  cbn [fmap option_fmap option_map map fst snd]. f_equal. now apply IH.
Qed.

Lemma consistent_saveUserData s : consistent s -> consistent (saveUserData s).
Proof.
  intros (H1 & H2 & H3). split; [exact H1|]. split; [|exact H3].
  assert (Hs : storedIds (localStorage (saveUserData s)) = directoryIds s).
  { unfold storedIds, saveUserData. cbn [localStorage set_localStorage].
    destruct (currentAccount s); [destruct (isAuthenticated s)|]; cbn [airauth_users];
      apply usersArray_ids, H1. }
  now rewrite Hs.
Qed.

Lemma consistent_addAuthHistory now method success details s :
  consistent s -> consistent (addAuthHistory now method success details s).
Proof.
  intros H. unfold addAuthHistory. destruct (currentUser s); [|exact H].
  now apply consistent_saveUserData, consistent_update.
Qed.

Lemma emailTaken_ids e s :
  emailTaken e s = false -> ~ In (Some e) (map (fun x => snd <$> snd x) (directoryIds s)).
Proof.
  unfold emailTaken, directoryIds, JsMap.values. rewrite !map_map.
  induction (users s) as [|[k l] m IH]; cbn [map existsb fst snd]; [tauto|].
  intros H. apply orb_false_elim in H as [H1 H2]. intros [E|E]; [|now apply IH].
  destruct (heap s !! l) as [a|]; [|discriminate E]. cbn in E. injection E as E.
  rewrite E, String.eqb_refl in H1. discriminate H1.
Qed.

(** Allocation does not disturb a directory whose entries are allocated. *)
Lemma directoryIds_grow s extra :
  Forall (fun x => exists e, snd x = Some (fst x, e)) (directoryIds s) ->
  map (fun e => (fst e, identity <$> (heap s ++ extra) !! snd e)) (users s) = directoryIds s.
Proof.
  unfold directoryIds. induction (users s) as [|[k l] m IH]; intros K2; [reflexivity|].
  cbn [map fst snd] in K2 |- *. apply Forall_cons in K2 as [[x Hx] K2]. cbn [fst snd] in Hx.
  rewrite IH by exact K2. f_equal. f_equal.
  destruct (heap s !! l) as [a|] eqn:Ea; [|discriminate Hx].
  now rewrite (lookup_app_l_Some _ _ _ _ Ea).
Qed.

Lemma consistent_handleRegistration now form s :
  consistent s -> consistent (handleRegistration now form s).
Proof.
  intros H. rewrite handleRegistration_cases. cbv zeta.
  rewrite validateRegistrationForm_submitted. cbn [snd].
  set (u := JsString.trim (form_username form)). set (e := JsString.trim (form_email form)).
  destruct (fst (usernameVerdict u s) && fst (emailVerdict e s)
            && fst (passwordVerdict (form_password form))
            && fst (confirmVerdict (form_confirmPassword form) (form_password form))) eqn:Ev.
  2:{ revert H. apply consistent_same; reflexivity. }
  apply andb_prop in Ev as [Ev _]. apply andb_prop in Ev as [Ev _].
  apply andb_prop in Ev as [Eu Ee].
  apply usernameVerdict_valid in Eu. apply emailVerdict_valid in Ee.
  destruct H as ((K1 & K2 & K3) & H2 & H3).
  set (s2 := set_users _ _).
  assert (Hids : directoryIds s2 = directoryIds s ++ [(u, Some (u, e))]).
  { unfold directoryIds at 1. subst s2. cbn [heap users set_users set_heap set_ui].
    rewrite (JsMap_set_fresh _ _ _ Eu), map_app. cbn [map fst snd].
    rewrite list_lookup_middle by reflexivity. f_equal.
    apply directoryIds_grow, K2. }
  assert (H2' : consistent s2).
  { split; [|split].
    - rewrite Hids. unfold uniqueIds. rewrite !map_app. cbn [map fst snd fmap option_fmap option_map].
      split; [|split].
      + apply NoDup_app. split; [exact K1|]. split; [|apply NoDup_singleton].
        intros x Hx Hx'. apply list_elem_of_singleton in Hx'. subst x.
        apply JsMap_has_keys in Eu. apply Eu. apply list_elem_of_In in Hx.
        unfold directoryIds in Hx. now rewrite map_map in Hx.
      + apply Forall_app. split; [exact K2|]. constructor; [|constructor]. now exists e.
      + apply NoDup_app. split; [exact K3|]. split; [|apply NoDup_singleton].
        intros x Hx Hx'. apply list_elem_of_singleton in Hx'. subst x.
        apply list_elem_of_In in Hx. now apply (emailTaken_ids e s Ee).
    - exact H2.
    - unfold sessionValid in *. subst s2. cbn [heap currentUser isAuthenticated set_users set_heap set_ui].
      destruct (currentUser s) as [c|]; [|exact H3]. destruct H3 as [[a Ha] H4].
      split; [|exact H4]. exists a. now apply lookup_app_l_Some. }
  apply consistent_saveUserData in H2'. destruct H2' as (J1 & J2 & _).
  split; [exact J1|]. split; [exact J2|].
  unfold sessionValid.
  cbn [heap currentUser isAuthenticated emit updateAuthStatus updateNavigation
       set_isAuthenticated set_currentUser showNotification set_ui].
  split; [|reflexivity]. subst s2. cbn [heap saveUserData set_localStorage set_users set_heap set_ui].
  exists (newAccount now form). now apply list_lookup_middle.
Qed.

Lemma consistent_login_session l s :
  is_Some (heap s !! l) -> consistent s ->
  consistent (set_isAuthenticated true (set_currentUser (Some l) s)).
Proof.
  intros Hl (H1 & H2 & _). split; [exact H1|]. split; [exact H2|].
  unfold sessionValid. cbn. auto.
Qed.

Lemma consistent_handleLogin now u p s : consistent s -> consistent (handleLogin now u p s).
Proof.
  intros H.
  assert (Hfail : consistent (loginFailed now s)).
  { unfold loginFailed. apply consistent_addAuthHistory. revert H. apply consistent_same; reflexivity. }
  unfold handleLogin. destruct (findUser _ s) as [l|]; [|exact Hfail].
  destruct (heap s !! l) as [a|] eqn:Ea; [|exact Hfail].
  destruct (negb _); [exact Hfail|].
  apply (consistent_login_session l) in H; [|eauto].
  apply (consistent_update l (Account.set_lastLogin now)) in H; [|reflexivity].
  set (s2 := update l _ _) in *.
  assert (H2 : consistent (updateAuthStatus s2)) by (revert H; apply consistent_same; reflexivity).
  apply consistent_saveUserData in H2.
  apply (consistent_addAuthHistory now "Password Login" true "Successful login") in H2.
  revert H2. apply consistent_same; reflexivity.
Qed.

Lemma saveSignature_frame now url s :
  users (saveSignature now url s) = users s
  /\ currentUser (saveSignature now url s) = currentUser s
  /\ isAuthenticated (saveSignature now url s) = isAuthenticated s.
Proof.
  unfold saveSignature. destruct (recordedChunks s) as [|c cs]; [easy|].
  destruct (currentUser s) as [l|] eqn:El; [|cbn; now rewrite ?El].
  match goal with |- context [if ?b then _ else _] => destruct b end; cbn; now rewrite ?El.
Qed.

Lemma consistent_saveSignature now url s : consistent s -> consistent (saveSignature now url s).
Proof.
  intros H. destruct (recordedChunks s) as [|c cs] eqn:Ec.
  { unfold saveSignature. rewrite Ec. revert H. apply consistent_same; reflexivity. }
  destruct (currentUser s) as [l|] eqn:El.
  2:{ unfold saveSignature. rewrite Ec, El. revert H. apply consistent_same; reflexivity. }
  destruct (saveSignature_frame now url s) as (Fu & Fc & Fa).
  pose proof (saveSignature_heap now url s l El) as Fh. rewrite Ec in Fh.
  specialize (Fh ltac:(discriminate)).
  assert (Hls : localStorage (saveSignature now url s)
                = localStorage (saveUserData
                                  (update l (Account.push_signature (newSignature now url s)) s))).
  { unfold saveSignature. rewrite Ec, El.
    match goal with |- context [if ?b then _ else _] => destruct b end; reflexivity. }
  pose proof (consistent_saveUserData _
                (consistent_update l (Account.push_signature (newSignature now url s)) s
                   ltac:(reflexivity) H)) as (_ & J2 & _).
  pose proof (consistent_update l (withSignature (newSignature now url s)) s) as Hw.
  destruct Hw as (W1 & _ & W3); [|exact H|].
  { intros a. unfold withSignature. now destruct (_ <=? _)%nat. }
  split; [|split].
  - unfold directoryIds in *. rewrite Fh, Fu. exact W1.
  - now rewrite Hls.
  - unfold sessionValid in *. rewrite Fh, Fc, Fa. exact W3.
Qed.

Lemma consistent_logout s s' : logout s = Some s' -> consistent s -> consistent s'.
Proof.
  unfold logout. intros Hs H. apply showPage_sameData in Hs.
  apply (consistent_sameData _ _ Hs).
  apply (consistent_sameData _ _ (sameData_stopCamera s)) in H.
  destruct H as (H1 & H2 & _). split; [exact H1|]. split; [exact H2|].
  unfold sessionValid. reflexivity.
Qed.

Lemma consistent_finishEnrollment s : consistent s -> consistent (finishEnrollment s).
Proof.
  intros H. unfold finishEnrollment.
  destruct (currentAccount s) as [a|]; [destruct (Account.enrollmentComplete a)|];
    try (revert H; apply consistent_same; reflexivity).
  apply (consistent_sameData _ _ (sameData_stopCamera s)), consistent_saveUserData in H.
  revert H. apply consistent_same; reflexivity.
Qed.

Lemma consistent_authenticateGesture s s' :
  authenticateGesture s = Some s' -> consistent s -> consistent s'.
Proof.
  unfold authenticateGesture. intros Hs H.
  assert (Hredirect : forall t, showPage redirectDepth "enrollment"
              (showNotification "Please complete enrollment first!" "error" s) = Some t ->
            consistent t).
  { intros t Ht. apply showPage_sameData in Ht. apply (consistent_sameData _ _ Ht).
    revert H. apply consistent_same; reflexivity. }
  destruct (currentAccount s) as [a|]; [|now apply Hredirect].
  destruct (Account.enrollmentComplete a); [|now apply Hredirect].
  destruct (negb (webcamStream s)); injection Hs as <-;
    revert H; apply consistent_same; reflexivity.
Qed.

Lemma consistent_delayElapsed random now s : consistent s -> consistent (delayElapsed random now s).
Proof.
  intros H. unfold delayElapsed. destruct (pendingAttempts s) as [|n]; [exact H|].
  assert (H1 : consistent (set_pendingAttempts n s))
    by (revert H; apply consistent_same; reflexivity).
  unfold authenticateGestureResumed, simulateGestureRecognition.
  destruct (gestureOutcome random) as [ok c].
  destruct ok; [destruct (currentAccount (set_pendingAttempts n s))|].
  - eapply consistent_same; [reflexivity..|].
    apply consistent_addAuthHistory. revert H1. apply consistent_same; reflexivity.
  - apply consistent_addAuthHistory. revert H1. apply consistent_same; reflexivity.
  - eapply consistent_same; [reflexivity..|].
    apply consistent_addAuthHistory. revert H1. apply consistent_same; reflexivity.
Qed.

Lemma consistent_boot ls hash r :
  uniqueIds (storedIds ls) -> boot ls hash = Some r -> consistent r.
Proof.
  intros Hst Hr. pose proof (boot_sameData _ _ _ Hr) as Hsame.
  apply (consistent_sameData _ _ Hsame). clear Hr Hsame r.
  assert (Hls : localStorage (loaded ls hash) = ls).
  { unfold loaded. now rewrite loadUserData_localStorage. }
  unfold consistent. rewrite Hls. split; [|split; [exact Hst|]];
    unfold loaded, loadUserData, loadFailed, alloc;
    change (localStorage (constructed ls hash)) with ls.
  - assert (Hempty : uniqueIds []) by (repeat split; constructor).
    assert (Hinst : forall es extra,
               airauth_users ls = Parsed es ->
               map (fun e => (fst e, identity <$>
                       (heap (installUsers es (set_users JsMap.empty (constructed ls hash)))
                        ++ extra) !! snd e))
                   (users (installUsers es (set_users JsMap.empty (constructed ls hash))))
               = storedIds ls).
    { intros es extra Hes. unfold storedIds in Hst |- *. rewrite Hes in Hst |- *.
      destruct Hst as (K1 & _ & _). rewrite map_map in K1. cbn [fst] in K1.
      pose proof (installUsers_view es (set_users JsMap.empty (constructed ls hash)) extra) as Hv.
      cbn [users set_users JsMap.empty map app] in Hv.
      specialize (Hv K1 ltac:(reflexivity)).
      apply (f_equal (map (fun x : string * option Account.t => (fst x, identity <$> snd x)))) in Hv.
      rewrite !map_map in Hv. exact Hv. }
    destruct (airauth_users ls) as [| | |es] eqn:Eu;
      destruct (airauth_current_user ls) as [| | |a];
      destruct (airauth_authenticated ls) as [flag|];
      try destruct (String.eqb flag "true");
      unfold directoryIds;
      cbn [heap users set_isAuthenticated set_currentUser set_users set_heap constructed
           JsMap.empty map];
      try exact Hempty.
    all: try (rewrite (Hinst es [a] eq_refl); exact Hst).
    all: specialize (Hinst es [] eq_refl); rewrite app_nil_r in Hinst; rewrite Hinst; exact Hst.
  - unfold sessionValid.
    destruct (airauth_users ls) as [| | |es];
      destruct (airauth_current_user ls) as [| | |a];
      destruct (airauth_authenticated ls) as [flag|];
      try destruct (String.eqb flag "true");
      cbn [heap currentUser isAuthenticated set_isAuthenticated set_currentUser set_users
           set_heap constructed];
      rewrite ?(proj1 (installUsers_session _ _)), ?(proj2 (installUsers_session _ _));
      try reflexivity.
    all: split; [|reflexivity]; exists a; now apply list_lookup_middle.
Qed.

Lemma consistent_step e s s' : step e s = Some s' -> consistent s -> consistent s'.
Proof.
  destruct e; cbn [step]; intros Hs H;
    try (apply (consistent_boot _ _ _ (proj1 (proj2 H)) Hs));
    try (injection Hs as <-).
  - now apply consistent_handleRegistration.
  - now apply consistent_handleLogin.
  - now apply (consistent_logout s).
  - apply showPage_sameData in Hs. now apply (consistent_sameData s).
  - unfold handleAirAuth in Hs.
    destruct (currentAccount s) as [a|]; [destruct (Account.enrollmentComplete a)|];
      apply showPage_sameData in Hs; apply (consistent_sameData _ _ Hs);
      revert H; apply consistent_same; reflexivity.
  - revert H. unfold startCamera. destruct answer; apply consistent_same; reflexivity.
  - revert H. unfold startRecording.
    destruct (negb (webcamStream s)); [|destruct answer]; apply consistent_same; reflexivity.
  - revert H. unfold onDataAvailable. destruct (0 <? data)%nat; apply consistent_same; reflexivity.
  - revert H. unfold stopRecording.
    destruct (mediaRecorder s && isRecording s); apply consistent_same; reflexivity.
  - now apply consistent_saveSignature.
  - now apply consistent_finishEnrollment.
  - now apply (consistent_authenticateGesture s).
  - now apply consistent_delayElapsed.
Qed.

Lemma consistent_run es : forall s0 s, run es s0 = Some s -> consistent s0 -> consistent s.
Proof.
  induction es as [|e es IH]; intros s0 s Hrun H0; cbn [run] in Hrun.
  - injection Hrun as <-. exact H0.
  - destruct (step e s0) as [s1|] eqn:E1; [|discriminate].
    apply (IH s1 s Hrun). exact (consistent_step e s0 s1 E1 H0).
Qed.

(** From a first load on an empty storage, through any events and reloads:
    the keys of the directory are distinct, every entry is an allocated
    account filed under its own username, no two accounts have the same
    email, the same holds of the stored directory, and the session, when
    there is one, refers to an allocated object and is authenticated. *)
Theorem directory_stays_unique es hash s0 s :
  boot emptyStorage hash = Some s0 ->
  run es s0 = Some s ->
  uniqueIds (directoryIds s) /\ uniqueIds (storedIds (localStorage s)) /\ sessionValid s.
Proof.
  intros Hboot Hrun.
  assert (H0 : consistent s0).
  { apply (consistent_boot emptyStorage hash s0); [|exact Hboot]. repeat split; constructor. }
  exact (consistent_run es s0 s Hrun H0).
Qed.

Lemma directory_stays_unique_witness : uniqueIds (directoryIds (after aliceReloadsAndRecords)).
Proof.
  assert (Hboot : boot emptyStorage "" = Some (after [])) by (vm_compute; reflexivity).
  assert (Hrun : run aliceReloadsAndRecords (after []) = Some (after aliceReloadsAndRecords))
    by (vm_compute; reflexivity).
  exact (proj1 (directory_stays_unique _ _ _ _ Hboot Hrun)).
Defined.

(** ** The dashboard *)

Lemma recent_rows {A} (h : list A) :
  let rows := rev (drop (length h - 10) h) in
  length rows = Nat.min 10 (length h)
  /\ forall i, (i < length rows)%nat -> rows !! i = h !! (length h - S i)%nat.
Proof.
  cbv zeta. rewrite rev_alt. fold (reverse (drop (length h - 10) h)).
  rewrite length_reverse, length_drop. split; [lia|].
  intros i Hi. rewrite reverse_lookup by (rewrite length_drop; lia).
  rewrite lookup_drop, length_drop. f_equal. lia.
Qed.

(** The dashboard of a session: the profile, the two counts and the table
    are refreshed from the account; the table lists at most ten entries,
    the most recent first, and the count of successes never exceeds the
    count of attempts. *)
Theorem dashboard_shows_recent_history d s a :
  currentAccount s = Some a ->
  exists s' successes rows,
    showPage (S d) "dashboard" s = Some s'
    /\ currentPage s' = "dashboard"
    /\ ui s' = ui s ++ [PageActive "dashboard"; NavActive "dashboard";
                        ProfileInfo (Account.username a) (Account.email a)
                                    (Account.enrollmentComplete a) (length (Account.signatures a));
                        AuthStats (length (Account.authHistory a)) successes;
                        AuthHistoryTable rows]
    /\ (successes <= length (Account.authHistory a))%nat
    /\ length rows = Nat.min 10 (length (Account.authHistory a))
    /\ (forall i, (i < length rows)%nat ->
                  rows !! i = Account.authHistory a !! (length (Account.authHistory a) - S i)%nat).
Proof.
  intros Ha. cbn [showPage]. rewrite (showPage_dashboard_session _ s a Ha).
  destruct (recent_rows (Account.authHistory a)) as [Hlen Hrows].
  eexists. eexists. eexists. split; [reflexivity|]. split; [reflexivity|].
  split; [cbn; now rewrite <- !app_assoc|].
  split; [apply length_filter|]. split; [exact Hlen | exact Hrows].
Qed.

Lemma dashboard_shows_recent_history_witness :
  exists s', showPage 1 "dashboard" (after aliceRegisters) = Some s'
             /\ currentPage s' = "dashboard".
Proof.
  assert (Ha : exists a, currentAccount (after aliceRegisters) = Some a)
    by (vm_compute; eexists; reflexivity).
  destruct Ha as [a Ha].
  destruct (dashboard_shows_recent_history 0 _ a Ha) as (s' & n & rows & H1 & H2 & _).
  exists s'. split; [exact H1 | exact H2].
Defined.

(** A consistent state has a directory on which the round trip through
    the storage applies; every state that a run reaches is one. *)
Lemma consistent_directoryWellFormed s : consistent s -> directoryWellFormed s.
Proof.
  intros ((K1 & K2 & _) & _).
  unfold directoryIds in K1, K2. rewrite map_map in K1. cbn [fst] in K1.
  split; [exact K1|]. intros k l Hin.
  rewrite List.Forall_forall in K2.
  destruct (K2 (k, identity <$> heap s !! l)) as [e He].
  { apply in_map_iff. exists (k, l). auto. }
  cbn [fst snd] in He. destruct (heap s !! l); [eauto | discriminate He].
Qed.

Lemma reachable_directoryWellFormed es hash s0 s :
  boot emptyStorage hash = Some s0 -> run es s0 = Some s -> directoryWellFormed s.
Proof.
  intros Hboot Hrun. apply consistent_directoryWellFormed.
  apply (consistent_run es s0 s Hrun), (consistent_boot emptyStorage hash s0); [|exact Hboot].
  repeat split; constructor.
Qed.

Lemma jsonAccount_idempotent a : jsonAccount (jsonAccount a) = jsonAccount a.
Proof.
  unfold jsonAccount. cbn. f_equal. rewrite map_map. apply map_ext. now intros [].
Qed.

(** What the first reload keeps, the next ones keep too: saving and
    reloading a state that was itself reloaded gives the same directory and
    the same session, as values. *)
Theorem reload_twice_same_values es hash s0 s r r' :
  boot emptyStorage hash = Some s0 -> run es s0 = Some s ->
  reloaded s = Some r -> reloaded r = Some r' ->
  directoryView r' = directoryView r /\ sessionView r' = sessionView r.
Proof.
  intros Hboot Hrun Hr Hr'.
  assert (Hs : consistent s).
  { apply (consistent_run es s0 s Hrun), (consistent_boot emptyStorage hash s0); [|exact Hboot].
    repeat split; constructor. }
  assert (Hviews : forall t t', consistent t -> reloaded t = Some t' ->
                     directoryView t' = jsonDirectoryView t /\ sessionView t' = jsonSessionView t).
  { intros t t' Ht Ht'. unfold reloaded in Ht'.
    apply boot_sameData, sameData_views in Ht' as [V1 V2].
    destruct (loaded_views t (urlHash t) (consistent_directoryWellFormed t Ht)) as [V3 V4].
    split; congruence. }
  destruct (Hviews s r Hs Hr) as [D1 S1].
  assert (Hcr : consistent r).
  { unfold reloaded in Hr. apply (consistent_boot _ _ _ (proj1 (proj2 (consistent_saveUserData s Hs))) Hr). }
  destruct (Hviews r r' Hcr Hr') as [D2 S2].
  split.
  - rewrite D2. unfold jsonDirectoryView. rewrite D1. unfold jsonDirectoryView.
    rewrite map_map. apply map_ext. intros [k [a|]]; cbn; [|reflexivity].
    now rewrite jsonAccount_idempotent.
  - rewrite S2. unfold jsonSessionView.
    assert (Hv : sessionView r = jsonSessionView s) by exact S1.
    unfold sessionView, jsonSessionView in Hv.
    destruct (currentAccount s) as [a|]; [destruct (isAuthenticated s)|];
      injection Hv as Hc Ha; unfold sessionView; rewrite !Hc, !Ha;
      try reflexivity.
    now rewrite jsonAccount_idempotent.
Qed.

Lemma reload_twice_same_values_witness :
  exists r r', reloaded (after aliceSavesOne) = Some r /\ reloaded r = Some r'
               /\ directoryView r' = directoryView r.
Proof.
  assert (Hboot : boot emptyStorage "" = Some (after [])) by (vm_compute; reflexivity).
  assert (Hrun : run aliceSavesOne (after []) = Some (after aliceSavesOne))
    by (vm_compute; reflexivity).
  assert (Hr : exists r, reloaded (after aliceSavesOne) = Some r)
    by (vm_compute; eexists; reflexivity).
  destruct Hr as [r Hr].
  assert (Hr' : exists r', reloaded r = Some r').
  { unfold reloaded, boot, init.
    destruct (showPage_total 0 "home" (checkAuthStatus (loadUserData
                (constructed (localStorage (saveUserData r)) (urlHash r))))) as [t Ht].
    unfold redirectDepth. rewrite Ht. cbv zeta.
    destruct (String.eqb _ ""); eexists; reflexivity. }
  destruct Hr' as [r' Hr']. exists r, r'. split; [exact Hr|]. split; [exact Hr'|].
  exact (proj1 (reload_twice_same_values _ _ _ _ r r' Hboot Hrun Hr Hr')).
Defined.

(** ** More of the enrollment and camera handlers *)

(** Every save reports its rank and how many signatures are left to reach
    five, computed as five minus the new count: nought at the fifth save
    and a negative number after it. *)
Theorem saveSignature_reports_remaining now url s l a :
  currentUser s = Some l -> heap s !! l = Some a -> recordedChunks s <> [] ->
  let n := S (length (Account.signatures a)) in
  signatureCount (saveSignature now url s) = n
  /\ In (Notify ("Signature " +:+ JsString.ofZ (Z.of_nat n) +:+ " saved! "
                 +:+ JsString.ofZ (5 - Z.of_nat n) +:+ " more to go.") "success")
        (ui (saveSignature now url s))
  /\ In (SignatureGallery n) (ui (saveSignature now url s))
  /\ In (ProgressIndicator n) (ui (saveSignature now url s)).
Proof.
  intros Hl Ha Hc n. unfold saveSignature. destruct (recordedChunks s) as [|c cs] eqn:Ec; [easy|].
  rewrite Hl.
  set (s1 := update l (Account.push_signature (newSignature now url s)) s).
  assert (Hn : match heap s1 !! l with
               | Some a0 => length (Account.signatures a0)
               | None => 0%nat
               end = n).
  { subst s1. unfold update. cbn [heap set_heap]. rewrite list_lookup_alter_eq, Ha.
    cbn. rewrite length_app. cbn. subst n. lia. }
  rewrite Hn.
  destruct (5 <=? n)%nat; cbn -[JsString.ofZ String.append Z.of_nat Z.sub];
    rewrite !in_app_iff; cbn -[JsString.ofZ String.append Z.of_nat Z.sub]; tauto.
Qed.

Lemma saveSignature_reports_remaining_witness :
  In (Notify "Signature 6 saved! -1 more to go." "success")
     (ui (saveSignature 7000 "blob:6" (after aliceRecordsAgain))).
Proof.
  assert (Hl : currentUser (after aliceRecordsAgain) = Some 0%nat) by (vm_compute; reflexivity).
  assert (Ha : exists a, heap (after aliceRecordsAgain) !! 0%nat = Some a
                         /\ length (Account.signatures a) = 5%nat)
    by (vm_compute; eexists; split; reflexivity).
  destruct Ha as (a & Ha & H5).
  assert (Hc : recordedChunks (after aliceRecordsAgain) <> []) by (vm_compute; discriminate).
  pose proof (saveSignature_reports_remaining 7000 "blob:6" _ 0%nat a Hl Ha Hc) as H.
  cbv zeta in H. rewrite H5 in H. exact (proj1 (proj2 H)).
Defined.

(** The air-authentication button pressed by an enrolled session opens the
    auth-test page, with the camera released and the last result hidden. *)
Theorem handleAirAuth_opens_auth_test s :
  sessionEnrolled s = true ->
  exists s', handleAirAuth s = Some s'
    /\ currentPage s' = "auth-test" /\ urlHash s' = "auth-test"
    /\ webcamStream s' = false
    /\ last (ui s') = Some AuthResultHidden
    /\ sameData s s'.
Proof.
  unfold sessionEnrolled, handleAirAuth. intros H.
  destruct (currentAccount s) as [a|]; [|discriminate]. rewrite H.
  unfold redirectDepth. rewrite showPage_auth_test. eexists. split; [reflexivity|].
  split; [cbn [currentPage set_urlHash]; now rewrite resetAuthTest_currentPage|].
  split; [reflexivity|].
  split; [unfold resetAuthTest; cbn; apply stopCamera_releases|].
  split; [unfold resetAuthTest; cbn; apply last_snoc|].
  apply (showPage_sameData 2 "auth-test"). apply showPage_auth_test.
Qed.

Lemma handleAirAuth_opens_auth_test_witness :
  exists s', handleAirAuth (after aliceEnrolls) = Some s' /\ currentPage s' = "auth-test".
Proof.
  assert (H : sessionEnrolled (after aliceEnrolls) = true) by (vm_compute; reflexivity).
  destruct (handleAirAuth_opens_auth_test _ H) as (s' & H1 & H2 & _).
  exists s'. split; [exact H1 | exact H2].
Defined.

(** A camera that the browser refuses leaves the page as it was: no
    stream, the same data, and a message that tells why. *)
Theorem startCamera_refused context answer s :
  answer <> StreamGranted ->
  let s' := startCamera context answer s in
  webcamStream s' = webcamStream s /\ sameData s s'
  /\ exists message,
       ui s' = ui s ++ [Notify message "error"; EnrollmentStatus message "error"]
       /\ message = "Unable to access camera. "
                    +:+ match answer with
                        | NotAllowedError => "Please grant camera permissions and try again."
                        | NotFoundError => "No camera found on this device."
                        | _ => "Please check your camera and try again."
                        end.
Proof.
  intros H s'. subst s'. destruct answer; [contradiction| | |];
    (split; [reflexivity|]); (split; [now unfold sameData|]);
    eexists; (split; [cbn; now rewrite <- app_assoc | reflexivity]).
Qed.

Lemma startCamera_refused_witness :
  webcamStream (startCamera "enrollment" NotFoundError (after [Register 1000 aliceForm])) = false.
Proof.
  assert (H : NotFoundError <> StreamGranted) by discriminate.
  exact (proj1 (startCamera_refused "enrollment" NotFoundError
                  (after [Register 1000 aliceForm]) H)).
Defined.
